(** * EpicTok dashboard: the job pipeline of [app.py]

    A shallow embedding of the job orchestrator ([process_job]), the worker
    loop, the event source adapter, the project store and the query surface of
    [app.py], followed by the properties established about them.

    Conventions of the embedding.
    - A Python [str] is a Rocq [string] holding one character per [ascii]
      (code points below 256); comparison of strings is comparison of code
      points, as in Python.
    - A Python value obtained from JSON, and every [dict] literal of the
      program, is a [pyval]; a [dict] keeps its keys in insertion order.
    - A raised exception is [Raise msg], [msg] being what [str(e)] gives.
    - Whatever a run obtains from outside the program (provider responses,
      clock, random draws, file-system faults, and the interpreter's own
      formatting of non-string values) is read from an [env] record.
    - [job_status] and the directory tree under [PROJECTS_DIR] are explicit
      state; a run also emits a trace of the status records it writes and of
      the media generators it calls, which is what temporal properties are
      stated on.
    - A file operation fails in one of two ways: refused before it has any
      effect ([io_fault]), or, for a write, after [open] has created or
      truncated the file ([write_fault]), which leaves the file with what
      had been written by then. The video tool may likewise leave its
      output file behind when it fails ([tool_partial]).
    - The request handlers and [job_worker] run on different threads. Each
      function is embedded as it runs uninterrupted; where the order of two
      threads matters the schedule is written out as a definition of its
      own ([generate_overtaken]). *)

From Stdlib Require Import PrimFloat Ascii String.
From stdpp Require Import gmap strings list fin_maps pretty sorting.

Local Open Scope string_scope.
#[local] Set Warnings "-register-all".

(** ** Python values *)

Inductive pyval : Type :=
  | VNone
  | VBool (b : bool)
  | VInt (z : Z)
  | VFloat (f : float)
  | VStr (s : string)
  | VList (l : list pyval)
  | VDict (d : list (string * pyval)).

(** A [dict] with string keys, in insertion order, keys pairwise distinct. *)
Abbreviation pydict := (list (string * pyval)).

(** The outcome of evaluating a Python expression or call. *)
Inductive result (A : Type) : Type :=
  | Ret (a : A)
  | Raise (msg : string).
Arguments Ret {A} a.
Arguments Raise {A} msg.

#[global] Instance result_ret : MRet result := fun A a => Ret a.
#[global] Instance result_bind : MBind result := fun A B f r =>
  match r with
  | Ret a => f a
  | Raise msg => Raise msg
  end.

(** [bool(v)]: the truth value Python gives to [v] in [if v:] and [v or w]. *)
Definition truthy (v : pyval) : bool :=
  match v with
  | VNone => false
  | VBool b => b
  | VInt z => negb (z =? 0)%Z
  | VFloat f => negb (PrimFloat.eqb f 0%float)
  | VStr s => negb (String.eqb s "")
  | VList l => negb (Nat.eqb (length l) 0)
  | VDict d => negb (Nat.eqb (length d) 0)
  end.

(** [type(v).__name__], as it appears in the interpreter's error messages. *)
Definition type_name (v : pyval) : string :=
  match v with
  | VNone => "NoneType"
  | VBool _ => "bool"
  | VInt _ => "int"
  | VFloat _ => "float"
  | VStr _ => "str"
  | VList _ => "list"
  | VDict _ => "dict"
  end.

(** *** Dictionaries *)

(** [d.get(k)] as an option, [k in d]. *)
Fixpoint dict_get (d : pydict) (k : string) : option pyval :=
  match d with
  | [] => None
  | (k', v) :: d' => if String.eqb k' k then Some v else dict_get d' k
  end.

Definition dict_has (d : pydict) (k : string) : bool :=
  match dict_get d k with Some _ => true | None => false end.

(** [d[k] = v]: replaces the value in place, or appends a new key. *)
Fixpoint dict_set (d : pydict) (k : string) (v : pyval) : pydict :=
  match d with
  | [] => [(k, v)]
  | (k', v') :: d' =>
      if String.eqb k' k then (k', v) :: d' else (k', v') :: dict_set d' k v
  end.

(** [d[k]] on a dict: [KeyError] when the key is missing; [str(KeyError(k))]
    is the key between single quotes. *)
Definition dict_item (d : pydict) (k : string) : result pyval :=
  match dict_get d k with
  | Some v => Ret v
  | None => Raise ("'" ++ k ++ "'")
  end.

(** [v.get(k, default)]: only a dict has the method. *)
Definition py_get (v : pyval) (k : string) (dflt : pyval) : result pyval :=
  match v with
  | VDict d => Ret (default dflt (dict_get d k))
  | _ => Raise ("'" ++ type_name v ++ "' object has no attribute 'get'")
  end.

(** [v[k]] with a string subscript, as used on values read back from JSON. *)
Definition py_item (v : pyval) (k : string) : result pyval :=
  match v with
  | VDict d => dict_item d k
  | VList _ => Raise "list indices must be integers or slices, not str"
  | VStr _ => Raise "string indices must be integers, not 'str'"
  | _ => Raise ("'" ++ type_name v ++ "' object is not subscriptable")
  end.

(** ** Text *)

Definition nl : string := String (ascii_of_nat 10) "".

Definition code (c : ascii) : N := N_of_ascii c.

Definition in_range (lo hi : N) (c : ascii) : bool :=
  ((lo <=? code c) && (code c <=? hi))%N.

Definition is_digit (c : ascii) : bool := in_range 48 57 c.

(** [c.isalnum()] for a character below 256: letters and numeric characters. *)
Definition isalnum (c : ascii) : bool :=
  in_range 48 57 c || in_range 65 90 c || in_range 97 122 c
  || in_range 170 170 c || in_range 178 179 c || in_range 181 181 c
  || in_range 185 186 c || in_range 188 190 c || in_range 192 214 c
  || in_range 216 246 c || in_range 248 255 c.

(** [c.isspace()] for a character below 256. *)
Definition isspace (c : ascii) : bool :=
  in_range 9 13 c || in_range 28 32 c || in_range 133 133 c
  || in_range 160 160 c.

(** The class [\w] of [re] on [str] patterns: alphanumerics and underscore. *)
Definition is_word (c : ascii) : bool := isalnum c || in_range 95 95 c.

(** [s.isalnum()]: non-empty and every character alphanumeric. *)
Definition str_isalnum (s : string) : bool :=
  match list_ascii_of_string s with
  | [] => false
  | l => forallb isalnum l
  end.

Fixpoint lstrip (s : string) : string :=
  match s with
  | String c s' => if isspace c then lstrip s' else s
  | EmptyString => EmptyString
  end.

(** [s.rstrip()]: a character is dropped when everything from it to the end
    is white space. *)
Fixpoint rstrip (s : string) : string :=
  match s with
  | String c s' =>
      match rstrip s' with
      | EmptyString => if isspace c then EmptyString else String c EmptyString
      | t => String c t
      end
  | EmptyString => EmptyString
  end.

Definition strip (s : string) : string := rstrip (lstrip s).

(** [s[:n]] *)
Fixpoint str_take (n : nat) (s : string) : string :=
  match n, s with
  | S n', String c s' => String c (str_take n' s')
  | _, _ => EmptyString
  end.

(** [s.replace(old, new)] for a non-empty [old]: occurrences are replaced
    from the left, without overlap. [skip] counts the characters of a matched
    occurrence still to be passed over. *)
Fixpoint replace_from (old new : string) (skip : nat) (s : string) : string :=
  match s with
  | EmptyString => EmptyString
  | String c s' =>
      match skip with
      | S k => replace_from old new k s'
      | O =>
          if String.prefix old s
          then new ++ replace_from old new (String.length old - 1) s'
          else String c (replace_from old new 0 s')
      end
  end.

Definition str_replace (old new s : string) : string :=
  replace_from old new 0 s.

(** [s.split(sep, 1)] for a one-character [sep]: the text before the first
    separator and, when there is one, the text after it. *)
Fixpoint split_once (sep : ascii) (s : string) : string * option string :=
  match s with
  | EmptyString => (EmptyString, None)
  | String c s' =>
      if Ascii.eqb c sep then (EmptyString, Some s')
      else let '(a, b) := split_once sep s' in (String c a, b)
  end.

(** *** [int(text)] *)

Definition digit_val (c : ascii) : Z := Z.of_N (code c) - 48.

(** Decimal digits, single underscores allowed between two digits. *)
Fixpoint digits_value (l : list ascii) (acc : Z) (after_digit : bool)
  : option Z :=
  match l with
  | [] => if after_digit then Some acc else None
  | c :: l' =>
      if is_digit c then digits_value l' (10 * acc + digit_val c)%Z true
      else if in_range 95 95 c && after_digit then digits_value l' acc false
      else None
  end.

(** The white space [int] skips around a number. The separators 28 to 31
    are white space for [str.strip] and not for [int]. *)
Definition is_int_space (c : ascii) : bool :=
  in_range 9 13 c || in_range 32 32 c || in_range 133 133 c || in_range 160 160 c.

Fixpoint skip_int_spaces (l : list ascii) : list ascii :=
  match l with
  | c :: l' => if is_int_space c then skip_int_spaces l' else l
  | [] => []
  end.

(** [int(s)] for a string, [None] when it raises: white space around the
    number is skipped, a sign may come first, and a number of more than
    4300 digits is refused (the interpreter's default limit). *)
Definition int_of_str (s : string) : option Z :=
  let l := rev (skip_int_spaces (rev (skip_int_spaces (list_ascii_of_string s)))) in
  if (4300 <? Z.of_nat (length (List.filter is_digit l)))%Z then None
  else
    match l with
    | c :: l =>
        if in_range 45 45 c then Z.opp <$> digits_value l 0 false
        else if in_range 43 43 c then digits_value l 0 false
        else digits_value (c :: l) 0 false
    | [] => None
    end.

(** *** The year pattern *)

(** Does [\b(1[0-9]{3}|20[0-2][0-9])\b] match at the start of [s], the
    character before [s] being [prev]? Both alternatives take four digits, so
    the boundary before asks for no word character in [prev] and the boundary
    after for none following the four digits. *)
Definition year_at (prev : option ascii) (s : string) : option string :=
  match s with
  | String c1 (String c2 (String c3 (String c4 rest))) =>
      let alt1 := in_range 49 49 c1 && is_digit c2 && is_digit c3 && is_digit c4 in
      let alt2 := in_range 50 50 c1 && in_range 48 48 c2 && in_range 48 50 c3
                  && is_digit c4 in
      let before := match prev with Some p => negb (is_word p) | None => true end in
      let after := match rest with String n _ => negb (is_word n) | EmptyString => true end in
      if before && (alt1 || alt2) && after
      then Some (String c1 (String c2 (String c3 (String c4 EmptyString))))
      else None
  | _ => None
  end.

(** [re.search]: the leftmost position where the pattern matches. *)
Fixpoint year_search (prev : option ascii) (s : string) : option string :=
  match year_at prev s with
  | Some y => Some y
  | None =>
      match s with
      | String c s' => year_search (Some c) s'
      | EmptyString => None
      end
  end.

(** ** What a run obtains from outside the program *)

(** A [requests] response: status code, what [.json()] gives (or raises), and
    the raw body. *)
Record response : Type := Response {
  status_code : Z;
  json_body : result pyval;
  content : string;
}.

(** What [subprocess.run] returns for an ffmpeg invocation. *)
Record completed_process : Type := CompletedProcess {
  returncode : Z;
  stderr : string;
}.

(** The content of a file, by what [json.load] makes of it: [JsonDoc v] when
    it parses to [v], [Blob data] for anything else (media, plain text). *)
Inductive content_of_file : Type :=
  | JsonDoc (v : pyval)
  | Blob (data : string).

(** The places where the program touches the file system. The operating
    system may refuse any of them before it has had an effect ([io_fault]);
    at a place that writes a file it may also fail once the file has been
    opened, that is created or emptied, and so leave it with whatever had
    reached it ([write_fault]). *)
Inductive io_site : Type :=
  | MkdirProject
  | WriteMetadata
  | WriteScript
  | WriteImage
  | WriteVoice
  | ReadMetadata
  | UpdateMetadata
  | UnlinkTemp.

Record env : Type := Env {
  (* module-level configuration *)
  projects_path : string;          (* str(PROJECTS_DIR) *)
  api_key : string;                (* ELEVENLABS_API_KEY *)
  (* interpreter built-ins on values the model does not spell out *)
  py_repr : pyval -> string;       (* str() of a float, a list or a dict *)
  float_int : float -> option Z;   (* int() of a float; None when it raises *)
  json_error : string -> string;   (* text of the error json.load raises *)
  (* datetime.now() at each of its call sites *)
  clock_year : Z;                  (* .year, in get_years_ago *)
  clock_stamp : string;            (* strftime, in save_project *)
  clock_created : string;          (* isoformat(), in save_project *)
  clock_completed : string;        (* isoformat(), in process_job *)
  clock_job : string;              (* strftime, in generate *)
  (* random draws *)
  draw_fallback : nat;
  draw_hook : nat;
  draw_style : nat;
  draw_job : nat;
  (* providers and tools, one outcome per call site *)
  wiki_get : result response;
  image_get : result response;
  voice_post : result response;
  subprocess_run : result completed_process;
  boto3_installed : bool;
  nova_start : result pyval;
  nova_poll : nat -> result pyval;
  s3_client : option string;       (* Some msg: boto3.client('s3') raised *)
  s3_download : option string;     (* Some msg: download_file raised *)
  io_fault : io_site -> option string;
  (* Some (msg, remains): the write raised msg after open(), leaving remains *)
  write_fault : io_site -> option (string * content_of_file);
  (* a run of the video tool that fails or is killed has written its output *)
  tool_partial : bool;
}.

(** [random.choice(seq)] on a non-empty sequence: the draw selects an index. *)
Definition choice {A : Type} (seq : list A) (draw : nat) (dflt : A) : A :=
  nth (draw mod length seq) seq dflt.

(** ** Program state *)

(** An entry of [PROJECTS_DIR]: a plain file, or a directory of files. *)
Inductive entry : Type :=
  | File (c : content_of_file)
  | Dir (files : gmap string content_of_file).

(** What is put on [job_queue]. *)
Inductive job_data : Type :=
  | Sentinel                                      (* None *)
  | JobTuple (job_id : string) (use_nova : pyval) (* (job_id, use_nova) *)
  | JobId (job_id : string).                      (* a bare job id *)

Record world : Type := World {
  job_status : gmap string pydict;
  job_queue : list job_data;
  projects : option (gmap string entry);   (* None: PROJECTS_DIR is missing *)
}.

Inductive generator : Type := Image | Voice | Compositor | Nova.

(** What a run leaves in its trace. *)
Inductive event : Type :=
  | Status (job_id : string) (record : pydict)     (* job_status[job_id] = record *)
  | Called (g : generator) (ok : bool) (detail : pyval)
                                      (* a media generator returned (ok, detail) *)
  | Persisted (dir : string) (metadata : pydict)   (* metadata.json was written *)
  | Saved (dir : string) (metadata : pydict).      (* save_project returned *)

(** ** Stateful computations *)

Record run (A : Type) : Type := Run {
  value : result A;
  after : world;
  emitted : list event;
}.
Arguments Run {A} value after emitted.
Arguments value {A} r.
Arguments after {A} r.
Arguments emitted {A} r.

Definition M (A : Type) : Type := world -> run A.

#[global] Instance M_ret : MRet M := fun A a w => Run (Ret a) w [].
#[global] Instance M_bind : MBind M := fun A B f m w =>
  let r := m w in
  match value r with
  | Ret a => let r' := f a (after r) in
             Run (value r') (after r') (emitted r ++ emitted r')
  | Raise msg => Run (Raise msg) (after r) (emitted r)
  end.

Definition raise {A : Type} (msg : string) : M A := fun w => Run (Raise msg) w [].

Definition lift {A : Type} (r : result A) : M A := fun w => Run r w [].

Definition tell (ev : event) : M unit := fun w => Run (Ret tt) w [ev].

(** [try: body / except Exception as e: handler(str(e))] *)
Definition try_except {A : Type} (body : M A) (handler : string -> M A) : M A :=
  fun w =>
    let r := body w in
    match value r with
    | Ret a => r
    | Raise msg => let r' := handler msg (after r) in
                   Run (value r') (after r') (emitted r ++ emitted r')
    end.

(** [job_status[job_id] = record] *)
Definition set_status (job_id : string) (record : pydict) : M unit :=
  fun w =>
    Run (Ret tt)
        (World (<[job_id := record]> (job_status w)) (job_queue w) (projects w))
        [Status job_id record].

(** The operating system's verdict at one file-system call, before the call
    has had any effect: [open], [mkdir] or [unlink] refused. *)
Definition check_io (e : env) (site : io_site) : M unit :=
  match io_fault e site with
  | Some msg => raise msg
  | None => mret tt
  end.

(** *** The project tree *)

Definition lookup_dir (w : world) (dir : string)
  : option (gmap string content_of_file) :=
  match projects w with
  | Some tree => match tree !! dir with Some (Dir files) => Some files | _ => None end
  | None => None
  end.

(** [(project_dir / name).exists()] *)
Definition file_exists (w : world) (dir name : string) : bool :=
  match lookup_dir w dir with
  | Some files => bool_decide (is_Some (files !! name))
  | None => false
  end.

Definition read_file (w : world) (dir name : string) : option content_of_file :=
  match lookup_dir w dir with
  | Some files => files !! name
  | None => None
  end.

Definition path_of (e : env) (dir name : string) : string :=
  projects_path e ++ "/" ++ dir ++ "/" ++ name.

(** [project_dir.mkdir(parents=True, exist_ok=True)] *)
Definition mkdir (e : env) (dir : string) : M unit :=
  fun w =>
    let tree := default ∅ (projects w) in
    match tree !! dir with
    | Some (File _) =>
        Run (Raise ("[Errno 17] File exists: '" ++ projects_path e ++ "/" ++ dir ++ "'"))
            w []
    | Some (Dir _) => Run (Ret tt) (World (job_status w) (job_queue w) (Some tree)) []
    | None =>
        Run (Ret tt)
            (World (job_status w) (job_queue w) (Some (<[dir := Dir ∅]> tree))) []
    end.

(** [with open(project_dir / name, 'w') as f: ...] storing [c], once [open]
    has not been refused: [open] creates or empties the file, so a write
    that fails afterwards leaves in it what had reached it, not what it
    held before. *)
Definition write_file (e : env) (site : io_site) (dir name : string)
    (c : content_of_file) : M unit :=
  fun w =>
    match projects w, lookup_dir w dir with
    | Some tree, Some files =>
        match write_fault e site with
        | Some (msg, remains) =>
            Run (Raise msg)
                (World (job_status w) (job_queue w)
                       (Some (<[dir := Dir (<[name := remains]> files)]> tree))) []
        | None =>
            Run (Ret tt)
                (World (job_status w) (job_queue w)
                       (Some (<[dir := Dir (<[name := c]> files)]> tree))) []
        end
    | _, _ =>
        Run (Raise ("[Errno 2] No such file or directory: '" ++ path_of e dir name ++ "'"))
            w []
    end.

(** [with open(project_dir / name) as f: json.load(f)] *)
Definition load_json (e : env) (dir name : string) : M pyval :=
  fun w =>
    match read_file w dir name with
    | Some (JsonDoc v) => Run (Ret v) w []
    | Some (Blob data) => Run (Raise (json_error e data)) w []
    | None =>
        Run (Raise ("[Errno 2] No such file or directory: '" ++ path_of e dir name ++ "'"))
            w []
    end.

(** ** The program *)

(** [str(v)], which is also what an f-string puts in place of [{v}]. *)
Definition py_str (e : env) (v : pyval) : string :=
  match v with
  | VStr s => s
  | VNone => "None"
  | VBool true => "True"
  | VBool false => "False"
  | VInt z => pretty z
  | _ => py_repr e v
  end.

(** [int(v)]; [None] when it raises. *)
Definition py_int (e : env) (v : pyval) : option Z :=
  match v with
  | VStr s => int_of_str s
  | VInt z => Some z
  | VBool b => Some (if b then 1 else 0)%Z
  | VFloat f => float_int e f
  | _ => None
  end.

(** *** Event source adapter *)

Definition extract_year (text : pyval) : result pyval :=
  match text with
  | VStr s => Ret (VStr (default "Unknown" (year_search None s)))
  | _ => Raise ("expected string or bytes-like object, got '" ++ type_name text ++ "'")
  end.

Definition fallback_events : list pydict := [
  [("title", VStr "The Fall of Constantinople");
   ("extract", VStr "In 1453, Constantinople fell to the Ottoman Empire, ending the Byzantine Empire and marking the end of the Middle Ages.");
   ("year", VStr "1453")];
  [("title", VStr "The First Flight");
   ("extract", VStr "On December 17, 1903, the Wright brothers made the first powered flight in Kitty Hawk, North Carolina.");
   ("year", VStr "1903")];
  [("title", VStr "The Moon Landing");
   ("extract", VStr "On July 20, 1969, Neil Armstrong became the first human to set foot on the moon.");
   ("year", VStr "1969")];
  [("title", VStr "The Printing Press");
   ("extract", VStr "In 1440, Johannes Gutenberg invented the printing press, revolutionizing the spread of knowledge.");
   ("year", VStr "1440")];
  [("title", VStr "The French Revolution");
   ("extract", VStr "Beginning in 1789, the French Revolution overthrew the monarchy and established a republic.");
   ("year", VStr "1789")]
].

(** The [try] block of [get_historical_event]: [Ret (Some ev)] when it
    returns [ev], [Ret None] when it falls through (status other than 200),
    [Raise] when anything in it raises. *)
Definition get_historical_event_try (e : env) : result (option pydict) :=
  response ← wiki_get e;
  if (status_code response =? 200)%Z then
    data ← json_body response;
    pageid ← py_get data "pageid" (VStr "");
    title ← py_get data "title" (VStr "");
    extract ← py_get data "extract" (VStr "");
    text ← py_get data "extract" (VStr "");
    year ← extract_year text;
    content_urls ← py_get data "content_urls" (VDict []);
    desktop ← py_get content_urls "desktop" (VDict []);
    page ← py_get desktop "page" (VStr "");
    Ret (Some [("id", pageid); ("title", title); ("extract", extract);
               ("year", year); ("url", page)])
  else Ret None.

Definition get_historical_event (e : env) : pydict :=
  match get_historical_event_try e with
  | Ret (Some event) => event
  | Ret None | Raise _ => choice fallback_events (draw_fallback e) []
  end.

(** *** Script and prompt *)

Definition get_years_ago (e : env) (year_str : pyval) : pyval :=
  match py_int e year_str with
  | Some year => VInt (clock_year e - year)
  | None => VStr "many"
  end.

Definition generate_script (e : env) (event_data : pydict) : result string :=
  year ← dict_item event_data "year";
  let y := py_str e year in
  let hooks := [
    "In " ++ y ++ ", something happened that changed everything.";
    "Most people don't know what really happened in " ++ y ++ ".";
    "This moment in " ++ y ++ " shaped our world forever.";
    "What you're about to hear happened " ++ py_str e (get_years_ago e year)
      ++ " years ago.";
    "The year was " ++ y ++ ". Nobody saw this coming."
  ] in
  let hook := choice hooks (draw_hook e) "" in
  title ← dict_item event_data "title";
  extract ← dict_item event_data "extract";
  let script :=
    hook ++ nl ++ nl ++ py_str e title ++ "." ++ nl ++ nl ++ py_str e extract
    ++ nl ++ nl ++ "This is history that deserves to be remembered." ++ nl in
  Ret (strip script).

Definition generate_image_prompt (e : env) (event_data : pydict) : result string :=
  let styles := [
    "dramatic oil painting style";
    "vintage photograph style";
    "epic cinematic scene";
    "historical illustration";
    "dramatic black and white photography"
  ] in
  let style := choice styles (draw_style e) "" in
  title ← dict_item event_data "title";
  year ← dict_item event_data "year";
  Ret (py_str e title ++ ", " ++ py_str e year ++ ", " ++ style
       ++ ", historical scene, dramatic lighting, detailed, cinematic composition").

(** *** Project store *)

(** What [for c in title] iterates over. *)
Definition iterate (v : pyval) : result (list pyval) :=
  match v with
  | VStr s => Ret ((fun c => VStr (String c EmptyString)) <$> list_ascii_of_string s)
  | VList l => Ret l
  | VDict d => Ret ((fun kv => VStr kv.1) <$> d)
  | _ => Raise ("'" ++ type_name v ++ "' object is not iterable")
  end.

(** [c.isalnum() or c in (' ', '-', '_')] for a string [c] *)
Definition keeps (c : string) : bool :=
  str_isalnum c || String.eqb c " " || String.eqb c "-" || String.eqb c "_".

(** [''.join(c for c in items if c.isalnum() or c in (' ', '-', '_'))]: an
    item that is not a string has no [isalnum]. *)
Fixpoint join_kept (items : list pyval) : result string :=
  match items with
  | [] => Ret EmptyString
  | VStr c :: rest =>
      tail ← join_kept rest;
      Ret (if keeps c then c ++ tail else tail)
  | v :: _ => Raise ("'" ++ type_name v ++ "' object has no attribute 'isalnum'")
  end.

Definition save_project (e : env) (event_data : pydict) (script : string)
  : M (string * pydict) :=
  let timestamp := clock_stamp e in
  title ← lift (dict_item event_data "title");
  items ← lift (iterate title);
  kept ← lift (join_kept items);
  let safe_title := str_replace " " "_" (str_take 50 (rstrip kept)) in
  let project_dir := timestamp ++ "_" ++ safe_title in
  check_io e MkdirProject;;
  mkdir e project_dir;;
  year ← lift (dict_item event_data "year");
  image_prompt ← lift (generate_image_prompt e event_data);
  let metadata := [
    ("id", VStr (timestamp ++ "_" ++ safe_title));
    ("title", title);
    ("year", year);
    ("script", VStr script);
    ("image_prompt", VStr image_prompt);
    ("created_at", VStr (clock_created e));
    ("source_url", default (VStr "") (dict_get event_data "url"));
    ("status", VStr "created")
  ] in
  check_io e WriteMetadata;;
  write_file e WriteMetadata project_dir "metadata.json" (JsonDoc (VDict metadata));;
  tell (Persisted project_dir metadata);;
  check_io e WriteScript;;
  write_file e WriteScript project_dir "script.txt" (Blob script);;
  tell (Saved project_dir metadata);;
  mret (project_dir, metadata).

(** *** Media generators *)

Definition get_world : M world := fun w => Run (Ret w) w [].

(** A file an external tool leaves in the project directory (its bytes are
    not modelled). *)
Definition tool_writes (dir name : string) : M unit :=
  fun w =>
    match projects w, lookup_dir w dir with
    | Some tree, Some files =>
        Run (Ret tt)
            (World (job_status w) (job_queue w)
                   (Some (<[dir := Dir (<[name := Blob EmptyString]> files)]> tree))) []
    | _, _ => Run (Ret tt) w []
    end.

(** [path.unlink(missing_ok=True)] *)
Definition unlink (dir name : string) : M unit :=
  fun w =>
    match projects w, lookup_dir w dir with
    | Some tree, Some files =>
        Run (Ret tt)
            (World (job_status w) (job_queue w)
                   (Some (<[dir := Dir (delete name files)]> tree))) []
    | _, _ => Run (Ret tt) w []
    end.

(** [subprocess.run] of the video tool, told to overwrite [output] in the
    project directory. The file is there when the tool exits with code 0;
    a run that exits with another code, or is killed at the timeout, may
    have written it as well, and the program never removes it. *)
Definition run_tool (e : env) (dir output : string) : M completed_process :=
  match subprocess_run e with
  | Ret result =>
      (if (returncode result =? 0)%Z || tool_partial e
       then tool_writes dir output else mret tt);;
      mret result
  | Raise msg =>
      (if tool_partial e then tool_writes dir output else mret tt);;
      raise msg
  end.

Definition generate_voiceover (e : env) (project_dir : string) (script : string)
  : M (bool * string) :=
  if negb (truthy (VStr (api_key e))) then mret (false, "No API key")
  else
    try_except
      (response ← lift (voice_post e);
       if (status_code response =? 200)%Z then
         check_io e WriteVoice;;
         write_file e WriteVoice project_dir "voiceover.mp3" (Blob (content response));;
         mret (true, path_of e project_dir "voiceover.mp3")
       else mret (false, "API Error: " ++ pretty (status_code response)))
      (fun msg => mret (false, msg)).

Definition generate_image (e : env) (project_dir : string) (prompt : pyval)
  : M (bool * string) :=
  try_except
    (match prompt with
     | VStr _ => mret tt
     | _ => raise "quote_from_bytes() expected bytes"
     end;;
     response ← lift (image_get e);
     if (status_code response =? 200)%Z then
       check_io e WriteImage;;
       write_file e WriteImage project_dir "scene.jpg" (Blob (content response));;
       mret (true, path_of e project_dir "scene.jpg")
     else mret (false, "Image API Error: " ++ pretty (status_code response)))
    (fun msg => mret (false, msg)).

Definition create_video (e : env) (project_dir : string) : M (bool * string) :=
  try_except
    (w ← get_world;
     if negb (file_exists w project_dir "scene.jpg")
        || negb (file_exists w project_dir "voiceover.mp3")
     then mret (false, "Missing image or audio")
     else
       check_io e ReadMetadata;;
       metadata ← load_json e project_dir "metadata.json";
       title ← lift (py_item metadata "title");
       year ← lift (py_item metadata "year");
       result ← run_tool e project_dir "final_video.mp4";
       if (returncode result =? 0)%Z
       then mret (true, path_of e project_dir "final_video.mp4")
       else mret (false, str_take 500 (stderr result)))
    (fun msg => mret (false, msg)).

(** [v == text] for a string literal [text] *)
Definition is_str (v : pyval) (text : string) : bool :=
  match v with
  | VStr s => String.eqb s text
  | _ => false
  end.

(** [v[:n]] *)
Definition py_slice_to (n : nat) (v : pyval) : result pyval :=
  match v with
  | VStr s => Ret (VStr (str_take n s))
  | VList l => Ret (VList (take n l))
  | VDict _ => Raise "unhashable type: 'slice'"
  | _ => Raise ("'" ++ type_name v ++ "' object is not subscriptable")
  end.

(** A fault reported by a client library. *)
Definition check (fault : option string) : M unit :=
  match fault with
  | Some msg => raise msg
  | None => mret tt
  end.

(** The branch taken when the poll answers [Completed]: fetch the clip, merge
    it with the audio track, remove the temporary file. *)
Definition nova_fetch (e : env) (project_dir : string) (metadata status_response : pyval)
  : M (bool * pyval) :=
  output ← lift (py_item status_response "outputDataConfig");
  s3_output ← lift (py_item output "s3OutputDataConfig");
  s3_uri ← lift (py_item s3_output "s3Uri");
  check (s3_client e);;
  uri ← match s3_uri with
        | VStr s => mret s
        | _ => raise ("'" ++ type_name s3_uri ++ "' object has no attribute 'replace'")
        end;
  let parts := split_once "/" (str_replace "s3://" "" uri) in
  key ← match parts.2 with
        | Some key => mret key
        | None => raise "list index out of range"
        end;
  check (s3_download e);;
  tool_writes project_dir "nova_temp.mp4";;
  title ← lift (py_item metadata "title");
  year ← lift (py_item metadata "year");
  result ← run_tool e project_dir "final_video.mp4";
  check_io e UnlinkTemp;;
  unlink project_dir "nova_temp.mp4";;
  if (returncode result =? 0)%Z
  then mret (true, VStr (path_of e project_dir "final_video.mp4"))
  else mret (false, VStr (str_take 500 (stderr result))).

(** [for attempt in range(max_attempts)], from [attempt] on, [remaining]
    attempts left; falling out of the loop is the timeout. *)
Fixpoint nova_wait (e : env) (project_dir : string) (metadata : pyval)
    (remaining attempt : nat) : M (bool * pyval) :=
  match remaining with
  | O => mret (false, VStr "Timeout waiting for Nova")
  | S remaining' =>
      status_response ← lift (nova_poll e attempt);
      status ← lift (py_item status_response "status");
      if is_str status "Completed"
      then nova_fetch e project_dir metadata status_response
      else if is_str status "Failed" || is_str status "Error"
      then
        reason ← lift (py_get status_response "failureMessage"
                              (VStr "Nova generation failed"));
        mret (false, reason)
      else nova_wait e project_dir metadata remaining' (S attempt)
  end.

(** [import boto3] is the first statement of the [try]; its failure is the
    only [ImportError] modelled, any other exception goes to the general
    handler. *)
Definition create_video_with_nova (e : env) (project_dir : string)
  : M (bool * pyval) :=
  if negb (boto3_installed e)
  then mret (false, VStr "boto3 not installed. Run: pip3 install boto3")
  else
    try_except
      (w ← get_world;
       if negb (file_exists w project_dir "voiceover.mp3")
       then mret (false, VStr "Missing audio file")
       else
         check_io e ReadMetadata;;
         metadata ← load_json e project_dir "metadata.json";
         video_prompt ← lift (py_get metadata "image_prompt" (VStr ""));
         _ ← lift (py_slice_to 400 video_prompt);
         response ← lift (nova_start e);
         invocation_arn ← lift (py_item response "invocationArn");
         nova_wait e project_dir metadata 60 0)
      (fun msg => mret (false, VStr msg)).

(** *** Job orchestrator *)

Definition status_record (status : string) (progress : Z) (message : string)
  : pydict :=
  [("status", VStr status); ("progress", VInt progress); ("message", VStr message)].

(** The record of a job that produced a project. *)
Definition project_record (status : string) (message : string)
    (project_id title year : pyval) : pydict :=
  [("status", VStr status); ("progress", VInt 100); ("message", VStr message);
   ("project_id", project_id); ("title", title); ("year", year)].

(** The [if auto_generate:] branch of [process_job]; each early [return] of
    the source is the end of a branch here. *)
Definition process_job_generate (e : env) (job_id : string) (use_nova : pyval)
    (project_dir : string) (metadata : pydict) (script : string) : M unit :=
  set_status job_id (status_record "image" 50 "Generating image with AI...");;
  image_prompt ← lift (dict_item metadata "image_prompt");
  '(img_success, img_result) ← generate_image e project_dir image_prompt;
  tell (Called Image img_success (VStr img_result));;
  if negb img_success
  then set_status job_id (status_record "error" 50 ("Image failed: " ++ img_result))
  else
    set_status job_id (status_record "voice" 70 "Generating voiceover...");;
    '(voice_success, voice_result) ← generate_voiceover e project_dir script;
    tell (Called Voice voice_success (VStr voice_result));;
    if negb voice_success
    then set_status job_id (status_record "error" 70 ("Voice failed: " ++ voice_result))
    else
      '(video_success, video_result) ←
        (if truthy use_nova
         then
           set_status job_id
             (status_record "video" 85 "Generating AI video with Nova (2-5 min)...");;
           r ← create_video_with_nova e project_dir;
           tell (Called Nova r.1 r.2);;
           mret r
         else
           set_status job_id (status_record "video" 90 "Assembling video...");;
           r ← create_video e project_dir;
           tell (Called Compositor r.1 (VStr r.2));;
           mret (r.1, VStr r.2));
      if negb video_success
      then set_status job_id
             (status_record "error" 90 ("Video failed: " ++ py_str e video_result))
      else
        let metadata := dict_set metadata "status" (VStr "completed") in
        let metadata := dict_set metadata "completed_at" (VStr (clock_completed e)) in
        check_io e UpdateMetadata;;
        write_file e UpdateMetadata project_dir "metadata.json"
          (JsonDoc (VDict metadata));;
        tell (Persisted project_dir metadata);;
        project_id ← lift (dict_item metadata "id");
        title ← lift (dict_item metadata "title");
        year ← lift (dict_item metadata "year");
        set_status job_id
          (project_record "completed" "Video complete!" project_id title year).

(** The [try] block of [process_job]. *)
Definition process_job_try (e : env) (job_id : string) (auto_generate : bool)
    (use_nova : pyval) : M unit :=
  set_status job_id (status_record "fetching" 10 "Fetching historical event...");;
  let event := get_historical_event e in
  set_status job_id (status_record "scripting" 20 "Generating script...");;
  script ← lift (generate_script e event);
  set_status job_id (status_record "saving" 30 "Creating project...");;
  '(project_dir, metadata) ← save_project e event script;
  if auto_generate
  then process_job_generate e job_id use_nova project_dir metadata script
  else
    project_id ← lift (dict_item metadata "id");
    title ← lift (dict_item metadata "title");
    year ← lift (dict_item metadata "year");
    set_status job_id
      (project_record "manual" "Project ready - add image and voiceover"
                      project_id title year).

Definition process_job (e : env) (job_id : string) (auto_generate : bool)
    (use_nova : pyval) : M unit :=
  set_status job_id (status_record "starting" 0 "Starting...");;
  try_except (process_job_try e job_id auto_generate use_nova)
             (fun msg => set_status job_id (status_record "error" 0 msg)).

(** *** Worker loop and submission *)

(** [job_queue.get()]; [None] when the queue is empty and the call blocks. *)
Definition queue_get : M (option job_data) :=
  fun w =>
    match job_queue w with
    | item :: rest => Run (Ret (Some item)) (World (job_status w) rest (projects w)) []
    | [] => Run (Ret None) w []
    end.

Definition queue_put (item : job_data) : M unit :=
  fun w => Run (Ret tt) (World (job_status w) (job_queue w ++ [item]) (projects w)) [].

(** [job_worker]: one iteration of [while True] per element of [envs], which
    gives what the outside world answers during that iteration. The loop ends
    at the sentinel; it is left waiting when the queue is empty. *)
Fixpoint job_worker (envs : list env) : M unit :=
  match envs with
  | [] => mret tt
  | e :: envs' =>
      job_data ← queue_get;
      match job_data with
      | None => mret tt
      | Some Sentinel => mret tt
      | Some (JobTuple job_id use_nova) =>
          process_job e job_id true use_nova;;
          job_worker envs'
      | Some (JobId job_id) =>
          process_job e job_id true (VBool false);;
          job_worker envs'
      end
  end.

(** [generate], the handler of [POST /api/generate], from the point where
    [request.get_json()] has returned [request_json]; the whole handler is
    [generate_route]. The result is the body passed to [jsonify]. *)
Definition generate (e : env) (request_json : pyval) : M pydict :=
  let data := if truthy request_json then request_json else VDict [] in
  use_nova ← lift (py_get data "use_nova" (VBool false));
  let job_id :=
    "job_" ++ clock_job e ++ "_" ++ pretty (1000 + Z.of_nat (draw_job e) mod 9000)%Z in
  queue_put (JobTuple job_id use_nova);;
  set_status job_id (status_record "queued" 0 "Queued...");;
  mret [("job_id", VStr job_id); ("status", VStr "queued"); ("use_nova", use_nova)].

(** The whole handler. [request.get_json()] may itself raise, on a body that
    is absent, is not announced as JSON or does not parse: [get_json] is
    its outcome, and the handler goes on only when it returned. *)
Definition generate_route (e : env) (get_json : result pyval) : M pydict :=
  request_json ← lift get_json;
  generate e request_json.

(** The handler runs on a request thread and [job_worker] on a thread of its
    own, so the worker may run between any two statements of [generate]. The
    only place where that matters is between [job_queue.put] and the write
    of the queued record: [generate_put] is the handler up to and including
    the [put], [generate_record] the rest of it. *)
Definition generate_put (e : env) (request_json : pyval) : M (string * pyval) :=
  let data := if truthy request_json then request_json else VDict [] in
  use_nova ← lift (py_get data "use_nova" (VBool false));
  let job_id :=
    "job_" ++ clock_job e ++ "_" ++ pretty (1000 + Z.of_nat (draw_job e) mod 9000)%Z in
  queue_put (JobTuple job_id use_nova);;
  mret (job_id, use_nova).

Definition generate_record (job : string * pyval) : M pydict :=
  set_status job.1 (status_record "queued" 0 "Queued...");;
  mret [("job_id", VStr job.1); ("status", VStr "queued"); ("use_nova", job.2)].

(** The schedule in which the worker thread runs the iterations [envs] of its
    loop after the [put] and before the request thread writes the queued
    record. *)
Definition generate_overtaken (e : env) (request_json : pyval) (envs : list env)
  : M pydict :=
  job ← generate_put e request_json;
  job_worker envs;;
  generate_record job.

(** *** Query surface *)

Definition get_status (w : world) (job_id : string) : pydict :=
  default [("status", VStr "unknown")] (job_status w !! job_id).

(** [proj_dir.is_dir()] *)
Definition is_dir (w : world) (name : string) : bool :=
  bool_decide (is_Some (lookup_dir w name)).

(** The order of [sorted(..., reverse=True)] on entries of one directory:
    larger names first, names compared character by character. *)
Definition name_ge (a b : string) : Prop := String.leb b a = true.

#[global] Instance name_ge_dec (a b : string) : Decision (name_ge a b).
Proof. unfold name_ge. apply _. Defined.

(** [PROJECTS_DIR.iterdir()], in whatever order the file system lists it. *)
Definition iterdir (tree : gmap string entry) : list string :=
  (map_to_list tree).*1.

(** [metadata[k] = x] on a value read back from JSON. *)
Definition py_setitem (v : pyval) (k : string) (x : pyval) : result pyval :=
  match v with
  | VDict d => Ret (VDict (dict_set d k x))
  | VList _ => Raise "list indices must be integers or slices, not str"
  | _ => Raise ("'" ++ type_name v ++ "' object does not support item assignment")
  end.

(** The body of the [for] loop of [list_projects] over the remaining names. *)
Fixpoint list_projects_from (e : env) (w : world) (names : list string)
  : result (list pyval) :=
  match names with
  | [] => Ret []
  | proj_dir :: rest =>
      if is_dir w proj_dir && file_exists w proj_dir "metadata.json"
      then
        metadata ← match read_file w proj_dir "metadata.json" with
                   | Some (JsonDoc v) => Ret v
                   | Some (Blob data) => Raise (json_error e data)
                   | None => Raise "No such file or directory"
                   end;
        metadata ← py_setitem metadata "has_video"
                     (VBool (file_exists w proj_dir "final_video.mp4"));
        metadata ← py_setitem metadata "has_image"
                     (VBool (file_exists w proj_dir "scene.jpg"));
        metadata ← py_setitem metadata "has_voice"
                     (VBool (file_exists w proj_dir "voiceover.mp3"));
        projects ← list_projects_from e w rest;
        Ret (metadata :: projects)
      else list_projects_from e w rest
  end.

Definition list_projects (e : env) (w : world) : result (list pyval) :=
  match projects w with
  | Some tree => list_projects_from e w (merge_sort name_ge (iterdir tree))
  | None => Ret []
  end.

(** One step of the counting loop of [get_stats]. *)
Definition count_project (w : world) (counts : Z * Z) (proj_dir : string) : Z * Z :=
  let '(total, completed) := counts in
  if is_dir w proj_dir
  then (total + 1,
        if file_exists w proj_dir "final_video.mp4" then completed + 1 else completed)%Z
  else (total, completed).

Definition get_stats (w : world) : pydict :=
  let '(total, completed) :=
    match projects w with
    | Some tree => foldl (count_project w) (0, 0)%Z (iterdir tree)
    | None => (0, 0)%Z
    end in
  [("total_projects", VInt total); ("completed_videos", VInt completed);
   ("pending", VInt (total - completed))].

(** *** Looking a project up *)

(** [sub in s] for two strings *)
Fixpoint str_contains (sub s : string) : bool :=
  String.prefix sub s
  || match s with
     | String _ s' => str_contains sub s'
     | EmptyString => false
     end.

(** What a route handler hands back: [jsonify(body)] with a status code, or
    [send_file] of a file of the project tree as an attachment. *)
Inductive reply : Type :=
  | Json (body : pyval) (status_code : Z)
  | Attachment (dir name : string).

(** The [for] loop of [get_project] over the remaining names. *)
Fixpoint get_project_from (e : env) (w : world) (project_id : string)
    (names : list string) : result reply :=
  match names with
  | [] => Ret (Json (VDict [("error", VStr "Project not found")]) 404)
  | proj_dir :: rest =>
      if is_dir w proj_dir && str_contains project_id proj_dir
      then
        if file_exists w proj_dir "metadata.json"
        then
          metadata ← match read_file w proj_dir "metadata.json" with
                     | Some (JsonDoc v) => Ret v
                     | Some (Blob data) => Raise (json_error e data)
                     | None => Raise "No such file or directory"
                     end;
          metadata ← py_setitem metadata "path"
                       (VStr (projects_path e ++ "/" ++ proj_dir));
          Ret (Json metadata 200)
        else get_project_from e w project_id rest
      else get_project_from e w project_id rest
  end.

(** [get_project], the handler of [GET /api/project/<project_id>]. It
    iterates over [PROJECTS_DIR] without asking whether it exists. *)
Definition get_project (e : env) (w : world) (project_id : string) : result reply :=
  match projects w with
  | Some tree => get_project_from e w project_id (iterdir tree)
  | None =>
      Raise ("[Errno 2] No such file or directory: '" ++ projects_path e ++ "'")
  end.

(** The [for] loop of [download_video] over the remaining names. *)
Fixpoint download_video_from (w : world) (project_id : string)
    (names : list string) : reply :=
  match names with
  | [] => Json (VDict [("error", VStr "Video not found")]) 404
  | proj_dir :: rest =>
      if is_dir w proj_dir && str_contains project_id proj_dir
      then
        if file_exists w proj_dir "final_video.mp4"
        then Attachment proj_dir "final_video.mp4"
        else download_video_from w project_id rest
      else download_video_from w project_id rest
  end.

(** [download_video], the handler of [GET /api/video/<project_id>]. *)
Definition download_video (e : env) (w : world) (project_id : string) : result reply :=
  match projects w with
  | Some tree => Ret (download_video_from w project_id (iterdir tree))
  | None =>
      Raise ("[Errno 2] No such file or directory: '" ++ projects_path e ++ "'")
  end.

(** [health_check], the handler of [GET /health]. *)
Definition health_check (e : env) : pydict :=
  [("status", VStr "ok"); ("elevenlabs", VBool (truthy (VStr (api_key e))))].

(** * Vocabulary of the properties *)

(** ** Reading a trace *)

(** The records written to [job_status[job_id]], in order. *)
Definition statuses (job_id : string) (t : list event) : list pydict :=
  omap (fun ev => match ev with
                  | Status j record => if String.eqb j job_id then Some record else None
                  | _ => None
                  end) t.

(** The media generator calls, in order, each with what it returned. *)
Definition calls (t : list event) : list (generator * bool * pyval) :=
  omap (fun ev => match ev with
                  | Called g ok detail => Some (g, ok, detail)
                  | _ => None
                  end) t.

(** The writes of a metadata record, in order. *)
Definition persisted (t : list event) : list (string * pydict) :=
  omap (fun ev => match ev with
                  | Persisted dir metadata => Some (dir, metadata)
                  | _ => None
                  end) t.

(** The projects the saving step returned. *)
Definition saved (t : list event) : list (string * pydict) :=
  omap (fun ev => match ev with
                  | Saved dir metadata => Some (dir, metadata)
                  | _ => None
                  end) t.

Definition progress (record : pydict) : option Z :=
  match dict_get record "progress" with
  | Some (VInt p) => Some p
  | _ => None
  end.

Definition status (record : pydict) : option string :=
  match dict_get record "status" with
  | Some (VStr s) => Some s
  | _ => None
  end.

Definition terminal (record : pydict) : bool :=
  match status record with
  | Some s => String.eqb s "completed" || String.eqb s "manual" || String.eqb s "error"
  | None => false
  end.

(** The records of a job settle: non-terminal records, whose progress never
    decreases, then one terminal record and nothing after it; every record
    carries a progress value. *)
Definition settles (records : list pydict) : Prop :=
  exists (before : list pydict) (last : pydict),
    records = (before ++ [last])%list
    /\ terminal last = true
    /\ Forall (fun record => terminal record = false) before
    /\ Forall (fun record => is_Some (progress record)) records
    /\ StronglySorted Z.le (omap progress before).

(** ** Frames *)

(** [w'] has the same job records, the same queue and the same metadata
    records as [w]. *)
Definition same_records (w w' : world) : Prop :=
  job_status w' = job_status w /\ job_queue w' = job_queue w
  /\ forall dir, read_file w' dir "metadata.json" = read_file w dir "metadata.json".

(** [m] emits nothing and leaves the records alone, whatever it returns. *)
Definition quiet {A : Type} (m : M A) : Prop :=
  forall w, emitted (m w) = [] /\ same_records w (after (m w)).

(** [m] never raises. *)
Definition returns {A : Type} (m : M A) : Prop :=
  forall w, exists a, value (m w) = Ret a.

(** The three fields every consumer of a fact record reads. *)
Definition has_core_fields (event : pydict) : Prop :=
  exists title extract year,
    dict_get event "title" = Some title
    /\ dict_get event "extract" = Some (VStr extract)
    /\ dict_get event "year" = Some (VStr year).

(** [r] with [t] emitted before it. *)
Definition prepend {A : Type} (t : list event) (r : run A) : run A :=
  Run (value r) (after r) (t ++ emitted r).

(** The metadata record as [save_project] builds it. *)
Definition created_record (dir : string) (metadata : pydict) : Prop :=
  exists title year script prompt created url,
    metadata = [("id", VStr dir); ("title", title); ("year", year);
                ("script", VStr script); ("image_prompt", VStr prompt);
                ("created_at", VStr created); ("source_url", url);
                ("status", VStr "created")].

(** ** The runs of the orchestrator *)

(** How a run of [process_job] can go: where it stopped, with the project it
    had saved and what the generators it called had returned. *)
Inductive path : Type :=
  | SaveRaised (written : list (string * pydict)) (msg : string)
  | Manual (dir : string) (metadata : pydict)
  | ImageFailed (dir : string) (metadata : pydict) (reason : string)
  | VoiceFailed (dir : string) (metadata : pydict) (image reason : string)
  | VideoFailed (dir : string) (metadata : pydict) (image voice : string)
      (nova : bool) (reason : pyval)
  | UpdateRaised (dir : string) (metadata : pydict) (image voice : string)
      (nova : bool) (video : pyval) (msg : string)
  | Completed (dir : string) (metadata : pydict) (image voice : string)
      (nova : bool) (video : pyval).

Definition field (metadata : pydict) (k : string) : pyval :=
  default VNone (dict_get metadata k).

(** The metadata record after the update that closes a successful run. *)
Definition completed_metadata (e : env) (metadata : pydict) : pydict :=
  dict_set (dict_set metadata "status" (VStr "completed"))
           "completed_at" (VStr (clock_completed e)).

(** The last record a run writes. *)
Definition final_record (e : env) (p : path) : pydict :=
  match p with
  | SaveRaised _ msg => status_record "error" 0 msg
  | Manual _ metadata =>
      project_record "manual" "Project ready - add image and voiceover"
        (field metadata "id") (field metadata "title") (field metadata "year")
  | ImageFailed _ _ reason => status_record "error" 50 ("Image failed: " ++ reason)
  | VoiceFailed _ _ _ reason => status_record "error" 70 ("Voice failed: " ++ reason)
  | VideoFailed _ _ _ _ _ reason =>
      status_record "error" 90 ("Video failed: " ++ py_str e reason)
  | UpdateRaised _ _ _ _ _ _ msg => status_record "error" 0 msg
  | Completed _ metadata _ _ _ _ =>
      project_record "completed" "Video complete!"
        (field metadata "id") (field metadata "title") (field metadata "year")
  end.

Definition image_events (job_id : string) (ok : bool) (detail : string) : list event :=
  [Status job_id (status_record "image" 50 "Generating image with AI...");
   Called Image ok (VStr detail)].

Definition voice_events (job_id : string) (ok : bool) (detail : string) : list event :=
  [Status job_id (status_record "voice" 70 "Generating voiceover...");
   Called Voice ok (VStr detail)].

Definition video_events (job_id : string) (nova ok : bool) (detail : pyval)
  : list event :=
  if nova
  then [Status job_id
          (status_record "video" 85 "Generating AI video with Nova (2-5 min)...");
        Called Nova ok detail]
  else [Status job_id (status_record "video" 90 "Assembling video...");
        Called Compositor ok detail].

(** What the [if auto_generate:] branch emits on each path. *)
Definition generation_trace (e : env) (job_id : string) (p : path) : list event :=
  match p with
  | ImageFailed _ _ reason =>
      image_events job_id false reason ++ [Status job_id (final_record e p)]
  | VoiceFailed _ _ image reason =>
      image_events job_id true image ++ voice_events job_id false reason
      ++ [Status job_id (final_record e p)]
  | VideoFailed _ _ image voice nova reason =>
      image_events job_id true image ++ voice_events job_id true voice
      ++ video_events job_id nova false reason ++ [Status job_id (final_record e p)]
  | UpdateRaised _ _ image voice nova video _ =>
      image_events job_id true image ++ voice_events job_id true voice
      ++ video_events job_id nova true video
  | Completed dir metadata image voice nova video =>
      image_events job_id true image ++ voice_events job_id true voice
      ++ video_events job_id nova true video
      ++ [Persisted dir (completed_metadata e metadata);
          Status job_id (final_record e p)]
  | _ => []
  end.

(** The project a path has saved. *)
Definition project_of (p : path) : option (string * pydict) :=
  match p with
  | SaveRaised _ _ => None
  | Manual dir metadata | ImageFailed dir metadata _ | VoiceFailed dir metadata _ _
  | VideoFailed dir metadata _ _ _ _ | UpdateRaised dir metadata _ _ _ _ _
  | Completed dir metadata _ _ _ _ => Some (dir, metadata)
  end.

(** The exception that leaves the [try] block on a path, if any. *)
Definition raised (p : path) : option string :=
  match p with
  | SaveRaised _ msg | UpdateRaised _ _ _ _ _ _ msg => Some msg
  | _ => None
  end.

(** What the [try] block of [process_job] emits. *)
Definition try_trace (e : env) (job_id : string) (p : path) : list event :=
  [Status job_id (status_record "fetching" 10 "Fetching historical event...");
   Status job_id (status_record "scripting" 20 "Generating script...");
   Status job_id (status_record "saving" 30 "Creating project...")]
  ++ match p with
     | SaveRaised written _ => uncurry Persisted <$> written
     | Manual dir metadata =>
         [Persisted dir metadata; Saved dir metadata; Status job_id (final_record e p)]
     | ImageFailed dir metadata _ | VoiceFailed dir metadata _ _
     | VideoFailed dir metadata _ _ _ _ | UpdateRaised dir metadata _ _ _ _ _
     | Completed dir metadata _ _ _ _ =>
         [Persisted dir metadata; Saved dir metadata] ++ generation_trace e job_id p
     end.

(** The whole trace of a run of [process_job]. *)
Definition trace_of (e : env) (job_id : string) (p : path) : list event :=
  Status job_id (status_record "starting" 0 "Starting...")
  :: try_trace e job_id p
  ++ match raised p with
     | Some msg => [Status job_id (status_record "error" 0 msg)]
     | None => []
     end.

(** The metadata record a path leaves on storage, if it wrote one. *)
Definition stored (e : env) (p : path) : option (string * pydict) :=
  match p with
  | SaveRaised written _ => head written
  | Completed dir metadata _ _ _ _ => Some (dir, completed_metadata e metadata)
  | _ => project_of p
  end.

(** The paths open to a run with the given arguments. *)
Definition path_of_run (auto_generate : bool) (use_nova : pyval) (p : path) : Prop :=
  match p with
  | SaveRaised written _ =>
      written = [] \/ exists dir metadata,
        written = [(dir, metadata)] /\ created_record dir metadata
  | Manual dir metadata => auto_generate = false /\ created_record dir metadata
  | ImageFailed dir metadata _ | VoiceFailed dir metadata _ _ =>
      auto_generate = true /\ created_record dir metadata
  | VideoFailed dir metadata _ _ nova _ | UpdateRaised dir metadata _ _ nova _ _
  | Completed dir metadata _ _ nova _ =>
      auto_generate = true /\ created_record dir metadata /\ nova = truthy use_nova
  end.

(** What storage holds when a run on path [p] from [w] ends in [w']. A
    write of a metadata record that failed after the file was opened has
    left in it what the fault says. *)
Definition storage_after (e : env) (p : path) (w w' : world) : Prop :=
  match p with
  | SaveRaised [] msg =>
      (forall d, read_file w' d "metadata.json" = read_file w d "metadata.json")
      \/ exists dir remains,
           write_fault e WriteMetadata = Some (msg, remains)
           /\ forall d, read_file w' d "metadata.json"
                        = if decide (d = dir) then Some remains
                          else read_file w d "metadata.json"
  | UpdateRaised dir metadata _ _ _ _ msg =>
      read_file w' dir "metadata.json" = Some (JsonDoc (VDict metadata))
      \/ exists remains,
           write_fault e UpdateMetadata = Some (msg, remains)
           /\ read_file w' dir "metadata.json" = Some remains
  | _ =>
      match stored e p with
      | Some (dir, metadata) =>
          read_file w' dir "metadata.json" = Some (JsonDoc (VDict metadata))
      | None => forall d, read_file w' d "metadata.json" = read_file w d "metadata.json"
      end
  end.

(** ** Sample environments and stores *)

(** An environment in which the providers answer as given. *)
Definition sample_env (wiki image voice : result response)
    (tool : result completed_process) (key : string)
    (fault : io_site -> option string) : env :=
  {| projects_path := "output";
     api_key := key;
     py_repr := fun _ => "?";
     float_int := fun _ => None;
     json_error := fun _ => "Expecting value: line 1 column 1 (char 0)";
     clock_year := 2026;
     clock_stamp := "20261104_120000";
     clock_created := "2026-11-04T12:00:00";
     clock_completed := "2026-11-04T12:05:00";
     clock_job := "20261104_115959";
     draw_fallback := 0; draw_hook := 0; draw_style := 0; draw_job := 0;
     wiki_get := wiki;
     image_get := image;
     voice_post := voice;
     subprocess_run := tool;
     boto3_installed := true;
     nova_start := Raise "Unable to locate credentials";
     nova_poll := fun _ => Raise "not started";
     s3_client := None;
     s3_download := None;
     io_fault := fault;
     write_fault := fun _ => None;
     tool_partial := false |}.

Definition ok_response : result response := Ret (Response 200 (Raise "not JSON") "bytes").
Definition no_fault : io_site -> option string := fun _ => None.

Definition source_down : result response := Raise "connection refused".

(** The content source is unreachable, so the first fallback event is used;
    image, voice and compositor succeed; the cloud backend has no
    credentials. *)
Definition media_ok : env :=
  sample_env source_down ok_response ok_response (Ret (CompletedProcess 0 ""))
             "key" no_fault.

(** The content source answers with a page. *)
Definition wiki_page (title : pyval) : result response :=
  Ret (Response 200
         (Ret (VDict [("pageid", VInt 12345); ("title", title);
                      ("extract", VStr "The Battle of Hastings was fought on 14 October 1066.");
                      ("content_urls",
                       VDict [("desktop",
                               VDict [("page", VStr "https://en.wikipedia.org/wiki/Battle_of_Hastings")])])]))
         EmptyString).

Definition page_ok (title : pyval) : env :=
  sample_env (wiki_page title) ok_response ok_response
             (Ret (CompletedProcess 0 "")) "key" no_fault.


(** The project directory cannot be created. *)
Definition disk_refuses : env :=
  sample_env source_down ok_response ok_response (Ret (CompletedProcess 0 "")) "key"
    (fun site => match site with
                 | MkdirProject => Some "[Errno 13] Permission denied"
                 | _ => None
                 end).

Definition empty_world : world := World ∅ [] None.

(** ** Fact records, submissions, listings *)

(** The five fields of a Fact Record. *)
Definition has_all_fields (event : pydict) : bool :=
  dict_has event "id" && dict_has event "title" && dict_has event "extract"
  && dict_has event "year" && dict_has event "url".

(** No record of the trace has status manual. *)
Definition never_manual (t : list event) : Prop :=
  Forall (fun ev => match ev with
                    | Status _ record => status record <> Some "manual"
                    | _ => True
                    end) t.

(** The record kept for [job_id], if any, does not have status manual. *)
Definition not_manual_at (w : world) (job_id : string) : Prop :=
  forall record, job_status w !! job_id = Some record -> status record <> Some "manual".

(** Strictly larger names first. *)
Definition name_gt (a b : string) : Prop := String.ltb b a = true.

(** A directory that [list_projects] reports. *)
Definition listed (w : world) (d : string) : Prop :=
  is_dir w d = true /\ file_exists w d "metadata.json" = true.

#[global] Instance listed_dec w d : Decision (listed w d).
Proof. unfold listed. apply _. Defined.

(** Every metadata record on storage parses to a JSON object. *)
Definition metadata_readable (w : world) : Prop :=
  forall d c, read_file w d "metadata.json" = Some c ->
              exists metadata, c = JsonDoc (VDict metadata).

(** The record reported for directory [d] holding [metadata]. *)
Definition annotate (w : world) (d : string) (metadata : pydict) : pydict :=
  dict_set
    (dict_set
       (dict_set metadata "has_video" (VBool (file_exists w d "final_video.mp4")))
       "has_image" (VBool (file_exists w d "scene.jpg")))
    "has_voice" (VBool (file_exists w d "voiceover.mp3")).

Definition reported (w : world) (d : string) (record : pyval) : Prop :=
  exists metadata,
    read_file w d "metadata.json" = Some (JsonDoc (VDict metadata))
    /\ record = VDict (annotate w d metadata)
    /\ dict_get (annotate w d metadata) "has_video"
       = Some (VBool (file_exists w d "final_video.mp4"))
    /\ dict_get (annotate w d metadata) "has_image"
       = Some (VBool (file_exists w d "scene.jpg"))
    /\ dict_get (annotate w d metadata) "has_voice"
       = Some (VBool (file_exists w d "voiceover.mp3")).

(** A store caught while a metadata record is being rewritten: the file is
    there and still empty. *)
Definition truncated_store : world :=
  World ∅ []
    (Some {[ "20261104_120000_The_Moon_Landing"
             := Dir {[ "metadata.json" := Blob "" ]} ]}).

(** Two projects, the older one complete, and a stray file. *)
Definition two_projects : world :=
  World ∅ []
    (Some (<[ "20261104_120000_The_Moon_Landing"
              := Dir (<[ "metadata.json"
                         := JsonDoc (VDict [("id", VStr "20261104_120000_The_Moon_Landing");
                                            ("status", VStr "completed")]) ]>
                      (<[ "scene.jpg" := Blob "" ]>
                       (<[ "voiceover.mp3" := Blob "" ]>
                        (<[ "final_video.mp4" := Blob "" ]> ∅)))) ]>
           (<[ "20261105_090000_The_First_Flight"
               := Dir (<[ "metadata.json"
                          := JsonDoc (VDict [("id", VStr "20261105_090000_The_First_Flight");
                                             ("status", VStr "created")]) ]>
                       (<[ "scene.jpg" := Blob "" ]> ∅)) ]>
            (<[ "notes.txt" := File (Blob "to do") ]>
             (<[ "20261103_080000_Empty" := Dir ∅ ]> ∅))))).

(** ** Stores, backends and queues *)

(** The voice provider is not configured: the API key is empty. *)
Definition no_api_key : env :=
  sample_env source_down ok_response ok_response (Ret (CompletedProcess 0 ""))
             EmptyString no_fault.

(** [sub] occurs in [s]. *)
Definition occurs_in (sub s : string) : Prop := exists a b, s = a ++ sub ++ b.

(** [w1] is [w] with [c] stored in file [name] of directory [dir]: every
    other file, the job records and the queue are as in [w]. *)
Definition stores (w w1 : world) (dir name : string) (c : content_of_file) : Prop :=
  job_status w1 = job_status w /\ job_queue w1 = job_queue w
  /\ forall d n, read_file w1 d n
                 = if decide (d = dir /\ n = name) then Some c else read_file w d n.

(** What a generator that reports the failure [detail] has done to the
    state when the only thing it writes is file [name] at [site]: nothing,
    or, if the write itself failed after the file was opened, it left in
    the file what the fault says. *)
Definition failed_write (e : env) (site : io_site) (w w1 : world)
    (dir name detail : string) : Prop :=
  w1 = w
  \/ exists remains,
       write_fault e site = Some (detail, remains)
       /\ stores w w1 dir name remains.

(** The video tool ran and returned exit code 0. *)
Definition tool_succeeded (e : env) : bool :=
  match subprocess_run e with
  | Ret result => (returncode result =? 0)%Z
  | Raise _ => false
  end.

(** [w1] differs from [w] at most in the files [names] of directory [dir]. *)
Definition touches_only (w w1 : world) (dir : string) (names : list string) : Prop :=
  job_status w1 = job_status w /\ job_queue w1 = job_queue w
  /\ forall d n, ~ (d = dir /\ n ∈ names) -> read_file w1 d n = read_file w d n.

(** A poll answer that is neither [Completed] nor [Failed] nor [Error]. *)
Definition in_progress (answer : pyval) : Prop :=
  exists st,
    py_item answer "status" = Ret st
    /\ is_str st "Completed" = false
    /\ is_str st "Failed" = false
    /\ is_str st "Error" = false.

(** [e] with the cloud backend answering as given. *)
Definition with_nova (e : env) (start : result pyval) (poll : nat -> result pyval)
  : env :=
  {| projects_path := projects_path e;
     api_key := api_key e;
     py_repr := py_repr e;
     float_int := float_int e;
     json_error := json_error e;
     clock_year := clock_year e;
     clock_stamp := clock_stamp e;
     clock_created := clock_created e;
     clock_completed := clock_completed e;
     clock_job := clock_job e;
     draw_fallback := draw_fallback e;
     draw_hook := draw_hook e;
     draw_style := draw_style e;
     draw_job := draw_job e;
     wiki_get := wiki_get e;
     image_get := image_get e;
     voice_post := voice_post e;
     subprocess_run := subprocess_run e;
     boto3_installed := boto3_installed e;
     nova_start := start;
     nova_poll := poll;
     s3_client := s3_client e;
     s3_download := s3_download e;
     io_fault := io_fault e;
     write_fault := write_fault e;
     tool_partial := tool_partial e |}.



(** The cloud backend accepts the request and never finishes it. *)
Definition nova_pending : env :=
  with_nova media_ok
    (Ret (VDict [("invocationArn", VStr "arn:aws:bedrock:us-east-1:async-invoke/1")]))
    (fun _ => Ret (VDict [("status", VStr "InProgress")])).

(** Directory [dir] of the store holds a finished project: a metadata record
    marked completed and carrying [dir] as its id, the image, the voice track
    and the final video. *)
Definition complete_project (w : world) (dir : string) : Prop :=
  (exists metadata,
     read_file w dir "metadata.json" = Some (JsonDoc (VDict metadata))
     /\ dict_get metadata "status" = Some (VStr "completed")
     /\ dict_get metadata "id" = Some (VStr dir))
  /\ file_exists w dir "scene.jpg" = true
  /\ file_exists w dir "voiceover.mp3" = true
  /\ file_exists w dir "final_video.mp4" = true.

(** The jobs a worker will take from a queue, in order: those before the
    first sentinel. *)
Fixpoint pending_jobs (q : list job_data) : list string :=
  match q with
  | JobTuple job_id _ :: rest | JobId job_id :: rest => job_id :: pending_jobs rest
  | Sentinel :: _ | [] => []
  end.

(** The jobs a trace starts, in order: one per starting record. *)
Definition started (t : list event) : list string :=
  omap (fun ev => match ev with
                  | Status job_id record =>
                      if bool_decide (status record = Some "starting")
                      then Some job_id else None
                  | _ => None
                  end) t.

(** A character that may appear in a project directory name after the
    time stamp. *)
Definition name_char (c : ascii) : Prop :=
  isalnum c = true \/ c = "-"%char \/ c = "_"%char.

(** * Properties *)

(** ** The text functions on examples *)

Example year_search_1453 :
  year_search None "In 1453, Constantinople fell" = Some "1453".
Proof. reflexivity. Qed.

Example year_search_word_boundary :
  year_search None "room 21453 and x1999 then 2029." = Some "2029".
Proof. reflexivity. Qed.

Example year_search_none : year_search None "about 2035 or 999" = None.
Proof. reflexivity. Qed.

Example int_of_str_examples :
  int_of_str " 1_453 " = Some 1453%Z /\ int_of_str "-7" = Some (-7)%Z
  /\ int_of_str "Unknown" = None /\ int_of_str "1__0" = None
  /\ int_of_str "+" = None.
Proof. repeat split. Qed.

(** The separator 28 is not white space for [int]; 4300 digits are read and
    4301 are refused, leading zeros counted. *)
Example int_of_str_limits :
  int_of_str (String (ascii_of_nat 28) "7") = None
  /\ int_of_str (String (ascii_of_nat 12) "7") = Some 7%Z
  /\ int_of_str (string_of_list_ascii (repeat "0"%char 4300)) = Some 0%Z
  /\ int_of_str (string_of_list_ascii (repeat "0"%char 4301)) = None.
Proof. vm_compute. repeat split. Qed.

Example rstrip_example : rstrip "ab  c  " = "ab  c".
Proof. reflexivity. Qed.

Example str_replace_example :
  str_replace "s3://" "" "s3://bucket/key" = "bucket/key"
  /\ str_replace " " "_" "a b  c" = "a_b__c".
Proof. split; reflexivity. Qed.

(** ** Computations that leave the records alone *)

Lemma same_records_refl w : same_records w w.
Proof. by repeat split. Qed.

Lemma same_records_trans w1 w2 w3 :
  same_records w1 w2 -> same_records w2 w3 -> same_records w1 w3.
Proof.
  intros (Hs & Hq & Hm) (Hs' & Hq' & Hm'). repeat split; [congruence..|].
  intros dir. by rewrite Hm', Hm.
Qed.

Lemma quiet_ret {A} (a : A) : quiet (mret a).
Proof. intros w. split; [done | apply same_records_refl]. Qed.

Lemma quiet_raise {A} msg : quiet (@raise A msg).
Proof. intros w. split; [done | apply same_records_refl]. Qed.

Lemma quiet_lift {A} (r : result A) : quiet (lift r).
Proof. intros w. split; [done | apply same_records_refl]. Qed.

Lemma quiet_get_world : quiet get_world.
Proof. intros w. split; [done | apply same_records_refl]. Qed.

Lemma quiet_check fault : quiet (check fault).
Proof. destruct fault; [apply quiet_raise | apply quiet_ret]. Qed.

Lemma quiet_check_io e site : quiet (check_io e site).
Proof. unfold check_io. destruct (io_fault e site); [apply quiet_raise | apply quiet_ret]. Qed.

Lemma quiet_bind {A B} (m : M A) (f : A -> M B) :
  quiet m -> (forall a, quiet (f a)) -> quiet (m ≫= f).
Proof.
  intros Hm Hf w. unfold mbind, M_bind. destruct (Hm w) as [Ht Hw].
  destruct (value (m w)) as [a|msg]; simpl; [|done].
  destruct (Hf a (after (m w))) as [Ht' Hw']. rewrite Ht, Ht'. split; [done|].
  by eapply same_records_trans.
Qed.

Lemma quiet_try_except {A} (body : M A) (handler : string -> M A) :
  quiet body -> (forall msg, quiet (handler msg)) -> quiet (try_except body handler).
Proof.
  intros Hm Hh w. unfold try_except. destruct (Hm w) as [Ht Hw].
  destruct (value (body w)) as [a|msg]; simpl; [done|].
  destruct (Hh msg (after (body w))) as [Ht' Hw']. rewrite Ht, Ht'. split; [done|].
  by eapply same_records_trans.
Qed.

(** Rewriting one file of a directory changes no other file. *)
Lemma read_file_update w tree files dir name c d n :
  projects w = Some tree -> lookup_dir w dir = Some files ->
  read_file (World (job_status w) (job_queue w)
                   (Some (<[dir := Dir (<[name := c]> files)]> tree))) d n
  = if decide (d = dir /\ n = name) then Some c else read_file w d n.
Proof.
  intros Htree Hdir. unfold read_file, lookup_dir in *. simpl. rewrite Htree in *.
  destruct (decide (d = dir)) as [->|Hne].
  - rewrite lookup_insert_eq.
    destruct (tree !! dir) as [[|fs]|]; try discriminate.
    injection Hdir as ->.
    destruct (decide (n = name)) as [->|Hn].
    + rewrite lookup_insert_eq. by rewrite decide_True.
    + rewrite lookup_insert_ne by done. rewrite decide_False; [done | intros [? ?]; congruence].
  - rewrite lookup_insert_ne by done. rewrite decide_False; [done | intros [? ?]; congruence].
Qed.

Lemma read_file_delete w tree files dir name d n :
  projects w = Some tree -> lookup_dir w dir = Some files ->
  read_file (World (job_status w) (job_queue w)
                   (Some (<[dir := Dir (delete name files)]> tree))) d n
  = if decide (d = dir /\ n = name) then None else read_file w d n.
Proof.
  intros Htree Hdir. unfold read_file, lookup_dir in *. simpl. rewrite Htree in *.
  destruct (decide (d = dir)) as [->|Hne].
  - rewrite lookup_insert_eq.
    destruct (tree !! dir) as [[|fs]|]; try discriminate.
    injection Hdir as ->.
    destruct (decide (n = name)) as [->|Hn].
    + rewrite lookup_delete_eq. by rewrite decide_True.
    + rewrite lookup_delete_ne by done. rewrite decide_False; [done | intros [? ?]; congruence].
  - rewrite lookup_insert_ne by done. rewrite decide_False; [done | intros [? ?]; congruence].
Qed.

Lemma quiet_write_file e site dir name c :
  name <> "metadata.json" -> quiet (write_file e site dir name c).
Proof.
  intros Hname w. unfold write_file.
  destruct (projects w) as [tree|] eqn:Htree; [|split; [done | apply same_records_refl]].
  destruct (lookup_dir w dir) as [files|] eqn:Hdir;
    [|split; [done | apply same_records_refl]].
  destruct (write_fault e site) as [[msg remains]|];
    (simpl; split; [done|]; repeat split; intros d;
     rewrite (read_file_update w tree files) by done;
     rewrite decide_False; [done | intros [? ?]; congruence]).
Qed.

Lemma quiet_tool_writes dir name :
  name <> "metadata.json" -> quiet (tool_writes dir name).
Proof.
  intros Hname w. unfold tool_writes.
  destruct (projects w) as [tree|] eqn:Htree; [|split; [done | apply same_records_refl]].
  destruct (lookup_dir w dir) as [files|] eqn:Hdir;
    [|split; [done | apply same_records_refl]].
  simpl. split; [done|]. repeat split. intros d.
  rewrite (read_file_update w tree files) by done.
  rewrite decide_False; [done | intros [? ?]; congruence].
Qed.

Lemma quiet_unlink dir name :
  name <> "metadata.json" -> quiet (unlink dir name).
Proof.
  intros Hname w. unfold unlink.
  destruct (projects w) as [tree|] eqn:Htree; [|split; [done | apply same_records_refl]].
  destruct (lookup_dir w dir) as [files|] eqn:Hdir;
    [|split; [done | apply same_records_refl]].
  simpl. split; [done|]. repeat split. intros d.
  rewrite (read_file_delete w tree files) by done.
  rewrite decide_False; [done | intros [? ?]; congruence].
Qed.

Lemma quiet_load_json e dir name : quiet (load_json e dir name).
Proof.
  intros w. unfold load_json.
  destruct (read_file w dir name) as [[v|data]|]; (split; [done | apply same_records_refl]).
Qed.

Lemma quiet_run_tool e dir output :
  output <> "metadata.json" -> quiet (run_tool e dir output).
Proof.
  intros Houtput. unfold run_tool. destruct (subprocess_run e) as [result|msg].
  - apply quiet_bind; [|intros ?; apply quiet_ret].
    destruct (_ || _); [by apply quiet_tool_writes | apply quiet_ret].
  - apply quiet_bind; [|intros ?; apply quiet_raise].
    destruct (tool_partial e); [by apply quiet_tool_writes | apply quiet_ret].
Qed.

Create HintDb quiet.
#[global] Hint Resolve quiet_ret quiet_raise quiet_lift quiet_get_world quiet_check
  quiet_check_io quiet_load_json : quiet.

(** Takes apart a computation built from the quiet primitives. *)
Ltac quiet_steps :=
  repeat first
    [ apply quiet_bind; [|intros ?]
    | apply quiet_try_except; [|intros ?]
    | apply quiet_write_file; discriminate
    | apply quiet_tool_writes; discriminate
    | apply quiet_run_tool; discriminate
    | apply quiet_unlink; discriminate
    | solve [auto with quiet]
    | match goal with
      | |- quiet (if ?b then _ else _) => destruct b
      | |- quiet (match ?x with _ => _ end) => destruct x
      end ].

Lemma generate_image_quiet e dir prompt : quiet (generate_image e dir prompt).
Proof. unfold generate_image. quiet_steps. Qed.

Lemma generate_voiceover_quiet e dir script : quiet (generate_voiceover e dir script).
Proof. unfold generate_voiceover. quiet_steps. Qed.

Lemma create_video_quiet e dir : quiet (create_video e dir).
Proof. unfold create_video. quiet_steps. Qed.

Lemma nova_fetch_quiet e dir metadata status_response :
  quiet (nova_fetch e dir metadata status_response).
Proof. unfold nova_fetch. quiet_steps. Qed.

Lemma nova_wait_quiet e dir metadata remaining :
  forall attempt, quiet (nova_wait e dir metadata remaining attempt).
Proof.
  induction remaining as [|n IH]; intros attempt; simpl; [apply quiet_ret|].
  apply quiet_bind; [apply quiet_lift | intros status_response].
  apply quiet_bind; [apply quiet_lift | intros st].
  destruct (is_str st "Completed"); [apply nova_fetch_quiet|].
  destruct (is_str st "Failed" || is_str st "Error"); [quiet_steps | apply IH].
Qed.

Lemma create_video_with_nova_quiet e dir : quiet (create_video_with_nova e dir).
Proof.
  unfold create_video_with_nova. destruct (negb (boto3_installed e)); [apply quiet_ret|].
  apply quiet_try_except; [|intros ?; apply quiet_ret].
  apply quiet_bind; [apply quiet_get_world | intros w].
  destruct (negb (file_exists w dir "voiceover.mp3")); [apply quiet_ret|].
  do 6 (apply quiet_bind; [solve [auto with quiet] | intros ?]).
  apply nova_wait_quiet.
Qed.

Lemma try_except_returns {A} (body : M A) (recover : string -> A) :
  returns (try_except body (fun msg => mret (recover msg))).
Proof.
  intros w. unfold try_except. destruct (value (body w)) as [a|msg] eqn:Hv; simpl; eauto.
Qed.

Lemma generate_image_returns e dir prompt : returns (generate_image e dir prompt).
Proof. apply try_except_returns. Qed.

Lemma generate_voiceover_returns e dir script : returns (generate_voiceover e dir script).
Proof.
  unfold generate_voiceover. destruct (negb (truthy (VStr (api_key e)))).
  - intros w. by eexists.
  - apply try_except_returns.
Qed.

Lemma create_video_returns e dir : returns (create_video e dir).
Proof. apply try_except_returns. Qed.

Lemma create_video_with_nova_returns e dir : returns (create_video_with_nova e dir).
Proof.
  unfold create_video_with_nova. destruct (negb (boto3_installed e)).
  - intros w. by eexists.
  - apply try_except_returns.
Qed.

(** A quiet computation that never raises runs to a value, an unchanged set
    of records and an empty trace. *)
Lemma quiet_run {A} (m : M A) w :
  quiet m -> returns m ->
  exists a w', m w = Run (Ret a) w' [] /\ same_records w w'.
Proof.
  intros Hq Hr. destruct (Hq w) as [Ht Hw], (Hr w) as [a Ha].
  exists a, (after (m w)). split; [|done].
  destruct (m w) as [v w' t]. simpl in *. by subst.
Qed.

(** ** The event source adapter always yields a usable record *)

Lemma choice_elem_of {A} (seq : list A) draw dflt :
  seq <> [] -> choice seq draw dflt ∈ seq.
Proof.
  intros Hne. unfold choice. apply list_elem_of_In, nth_In.
  apply Nat.mod_upper_bound. by destruct seq.
Qed.

Lemma fallback_events_core : Forall has_core_fields fallback_events.
Proof.
  unfold fallback_events.
  repeat (apply List.Forall_cons; [by eexists _, _, _|]). apply List.Forall_nil.
Qed.

Lemma extract_year_str text year :
  extract_year text = Ret year -> exists s y, text = VStr s /\ year = VStr y.
Proof. destruct text; simpl; intros H; inversion H; eauto. Qed.

(** What the [try] block returns when it returns a record. *)
Lemma get_historical_event_try_fields e event :
  get_historical_event_try e = Ret (Some event) ->
  exists pageid title extract year page,
    event = [("id", pageid); ("title", title); ("extract", VStr extract);
             ("year", VStr year); ("url", page)].
Proof.
  unfold get_historical_event_try. destruct (wiki_get e) as [response|]; simpl; [|done].
  destruct (status_code response =? 200)%Z; [|done].
  destruct (json_body response) as [data|]; simpl; [|done].
  destruct (py_get data "pageid" _) as [pageid|]; simpl; [|done].
  destruct (py_get data "title" _) as [title|]; simpl; [|done].
  destruct (py_get data "extract" _) as [extract|]; simpl; [|done].
  destruct (extract_year extract) as [year|] eqn:Hyear; simpl; [|done].
  destruct (py_get data "content_urls" _) as [urls|]; simpl; [|done].
  destruct (py_get urls "desktop" _) as [desktop|]; simpl; [|done].
  destruct (py_get desktop "page" _) as [page|]; simpl; [|done].
  apply extract_year_str in Hyear as (s & y & -> & ->).
  intros H. injection H as <-. by eexists _, _, _, _, _.
Qed.

Lemma get_historical_event_core e : has_core_fields (get_historical_event e).
Proof.
  unfold get_historical_event.
  assert (has_core_fields (choice fallback_events (draw_fallback e) [])) as Hfb.
  { eapply Forall_forall; [apply fallback_events_core|].
    by apply choice_elem_of. }
  destruct (get_historical_event_try e) as [[event|]|] eqn:Htry; [|exact Hfb..].
  apply get_historical_event_try_fields in Htry as (? & ? & ? & ? & ? & ->).
  by eexists _, _, _.
Qed.

Lemma generate_script_core e event :
  has_core_fields event -> exists script, generate_script e event = Ret script.
Proof.
  intros (title & extract & year & Ht & He & Hy).
  unfold generate_script, dict_item. rewrite Hy, Ht, He. simpl. eauto.
Qed.

(** ** Running a computation step by step *)

Lemma run_bind_ret {A B} (m : M A) (f : A -> M B) w a w1 t1 :
  m w = Run (Ret a) w1 t1 -> (m ≫= f) w = prepend t1 (f a w1).
Proof. intros H. unfold mbind, M_bind. by rewrite H. Qed.

Lemma run_bind_raise {A B} (m : M A) (f : A -> M B) w msg w1 t1 :
  m w = Run (Raise msg) w1 t1 -> (m ≫= f) w = Run (Raise msg) w1 t1.
Proof. intros H. unfold mbind, M_bind. by rewrite H. Qed.

Lemma run_try_ret {A} (body : M A) handler w a w1 t1 :
  body w = Run (Ret a) w1 t1 -> try_except body handler w = Run (Ret a) w1 t1.
Proof. intros H. unfold try_except. by rewrite H. Qed.

Lemma run_try_raise {A} (body : M A) handler w msg w1 t1 :
  body w = Run (Raise msg) w1 t1 ->
  try_except body handler w = prepend t1 (handler msg w1).
Proof. intros H. unfold try_except. by rewrite H. Qed.

Lemma prepend_run {A} t (v : result A) w t' :
  prepend t (Run v w t') = Run v w (t ++ t').
Proof. done. Qed.

(** ** The saving step *)

Lemma mkdir_cases e dir w :
  (exists msg, mkdir e dir w = Run (Raise msg) w [])
  \/ (exists w', mkdir e dir w = Run (Ret tt) w' []
        /\ job_status w' = job_status w /\ job_queue w' = job_queue w
        /\ (forall d n, read_file w' d n = read_file w d n)).
Proof.
  unfold mkdir. destruct (default ∅ (projects w) !! dir) as [[c|files]|] eqn:Hl.
  - left. eauto.
  - right. eexists. split; [done|]. repeat split. intros d n.
    unfold read_file, lookup_dir. simpl. destruct (projects w); [done|].
    simpl in Hl. by rewrite lookup_empty in Hl.
  - right. eexists. split; [done|]. repeat split. intros d n.
    unfold read_file, lookup_dir. simpl.
    destruct (decide (d = dir)) as [->|Hne].
    + rewrite lookup_insert_eq, lookup_empty. destruct (projects w) as [tree|]; [|done].
      simpl in Hl. by rewrite Hl.
    + rewrite lookup_insert_ne by done. destruct (projects w) as [tree|]; [done|].
      simpl. by rewrite lookup_empty.
Qed.

(** A write is refused with nothing changed, or fails after the file was
    opened and leaves what the fault says, or stores the content. *)
Lemma write_file_cases e site dir name c w :
  (exists msg, write_file e site dir name c w = Run (Raise msg) w [])
  \/ (exists msg remains w',
        write_fault e site = Some (msg, remains)
        /\ write_file e site dir name c w = Run (Raise msg) w' []
        /\ job_status w' = job_status w /\ job_queue w' = job_queue w
        /\ (forall d n, read_file w' d n
                        = if decide (d = dir /\ n = name) then Some remains
                          else read_file w d n))
  \/ (exists w', write_file e site dir name c w = Run (Ret tt) w' []
        /\ write_fault e site = None
        /\ job_status w' = job_status w /\ job_queue w' = job_queue w
        /\ (forall d n, read_file w' d n
                        = if decide (d = dir /\ n = name) then Some c else read_file w d n)).
Proof.
  unfold write_file.
  destruct (projects w) as [tree|] eqn:Htree; [|left; eauto].
  destruct (lookup_dir w dir) as [files|] eqn:Hdir; [|left; eauto].
  right. destruct (write_fault e site) as [[msg remains]|].
  - left. eexists _, _, _. split; [done|]. split; [done|]. repeat split. intros d n.
    by apply read_file_update.
  - right. eexists. split; [done|]. split; [done|]. repeat split. intros d n.
    by apply read_file_update.
Qed.

(** One statement of the program whose outcome is known: a primitive, or a
    call whose run is among the hypotheses. *)
Ltac known := first [eassumption | reflexivity].

Ltac step :=
  repeat first
    [ erewrite run_bind_ret by known
    | erewrite run_bind_raise by known ];
  rewrite ?prepend_run.

Ltac check_site e site :=
  unfold check_io; destruct (io_fault e site) as [?msg|].

Ltac raised_early :=
  step; intros [= <- <- <-]; repeat split; try congruence; left; eexists;
  split; [reflexivity|]; split; [reflexivity|]; left; congruence.

Lemma save_project_cases e event script w v w' t :
  save_project e event script w = Run v w' t ->
  job_status w' = job_status w /\ job_queue w' = job_queue w
  /\ ((exists msg, v = Raise msg /\ t = [] /\ storage_after e (SaveRaised [] msg) w w')
      \/ (exists dir metadata,
            created_record dir metadata
            /\ read_file w' dir "metadata.json" = Some (JsonDoc (VDict metadata))
            /\ ((exists msg, v = Raise msg /\ t = [Persisted dir metadata])
                \/ (v = Ret (dir, metadata)
                    /\ t = [Persisted dir metadata; Saved dir metadata])))).
Proof.
  unfold save_project.
  destruct (dict_item event "title") as [title|msg]; [step|raised_early].
  destruct (iterate title) as [items|msg]; [step|raised_early].
  destruct (join_kept items) as [kept|msg]; [step|raised_early].
  set (dir := clock_stamp e ++ "_" ++ _).
  check_site e MkdirProject; [raised_early|step].
  destruct (mkdir_cases e dir w) as [[msg Hmk]|(w1 & Hmk & Hs1 & Hq1 & Hr1)];
    [raised_early|step].
  destruct (dict_item event "year") as [year|msg]; [step|raised_early].
  destruct (generate_image_prompt e event) as [prompt|msg]; [step|raised_early].
  match goal with |- context [JsonDoc (VDict ?md)] => set (metadata := md) end.
  check_site e WriteMetadata; [raised_early|step].
  destruct (write_file_cases e WriteMetadata dir "metadata.json"
              (JsonDoc (VDict metadata)) w1)
    as [[msg Hwr]|[(msg & remains & w2 & Hfault & Hwr & Hs2 & Hq2 & Hr2)
                  |(w2 & Hwr & _ & Hs2 & Hq2 & Hr2)]]; [raised_early| |step].
  { step. intros [= <- <- <-]. repeat split; try congruence.
    left. exists msg. split; [done|]. split; [done|]. right.
    exists dir, remains. split; [done|]. intros d. rewrite Hr2, Hr1.
    destruct (decide (d = dir)) as [->|Hne].
    - by rewrite decide_True.
    - rewrite decide_False; [done | by intros [? _]]. }
  assert (created_record dir metadata) as Hcreated by (by eexists _, _, _, _, _, _).
  assert (read_file w2 dir "metadata.json" = Some (JsonDoc (VDict metadata))) as Hmeta.
  { rewrite Hr2. by rewrite decide_True. }
  check_site e WriteScript; step.
  { intros [= <- <- <-]. repeat split; try congruence.
    right. exists dir, metadata. repeat split; [done..|by left; eexists]. }
  destruct (write_file_cases e WriteScript dir "script.txt" (Blob script) w2)
    as [[msg Hws]|[(msg & remains & w3 & Hfault & Hws & Hs3 & Hq3 & Hr3)
                  |(w3 & Hws & _ & Hs3 & Hq3 & Hr3)]]; step.
  { intros [= <- <- <-]. repeat split; try congruence.
    right. exists dir, metadata. repeat split; [done..|by left; eexists]. }
  { intros [= <- <- <-]. repeat split; try congruence.
    right. exists dir, metadata. repeat split; [done| |by left; eexists].
    rewrite Hr3, decide_False by (intros [_ ?]; done). done. }
  intros [= <- <- <-]. repeat split; try congruence.
  right. exists dir, metadata. repeat split; [done| |by right].
  rewrite Hr3, decide_False by (intros [_ ?]; done). done.
Qed.

(** ** Every run follows a path *)

#[local] Opaque generate_image generate_voiceover create_video create_video_with_nova.

Lemma run_bind_assoc {A B C} (m : M A) (g : A -> M B) (f : B -> M C) w :
  ((m ≫= g) ≫= f) w = (m ≫= fun a => g a ≫= f) w.
Proof.
  unfold mbind, M_bind. destruct (m w) as [[a|msg] w1 t1]; simpl; [|done].
  destruct (g a w1) as [[b|msg] w2 t2]; simpl; [|done].
  by rewrite app_assoc.
Qed.

Ltac call_generator lem_quiet lem_returns :=
  match goal with
  | |- context [mbind _ (?g ?e ?dir) ?w] =>
      let r := fresh "r" in let w' := fresh "w" in
      let Hrun := fresh "Hrun" in let Hsame := fresh "Hsame" in
      destruct (quiet_run (g e dir) w (lem_quiet e dir) (lem_returns e dir))
        as ([? ?] & w' & Hrun & (? & ? & ?))
  | |- context [mbind _ (?g ?e ?dir ?x) ?w] =>
      let r := fresh "r" in let w' := fresh "w" in
      let Hrun := fresh "Hrun" in let Hsame := fresh "Hsame" in
      destruct (quiet_run (g e dir x) w (lem_quiet e dir x) (lem_returns e dir x))
        as ([? ?] & w' & Hrun & (? & ? & ?))
  end; simpl in *.

Ltac next :=
  repeat progress (step; cbv beta iota; cbn [fst snd job_status job_queue projects];
                   rewrite ?run_bind_assoc).

(** Storage seen through a world that differs only in its job records. *)
Ltac norm_files :=
  repeat match goal with
    | H : context [read_file (World ?js ?q (projects ?w)) ?d ?n] |- _ =>
        change (read_file (World js q (projects w)) d n) with (read_file w d n) in H
    | |- context [read_file (World ?js ?q (projects ?w)) ?d ?n] =>
        change (read_file (World js q (projects w)) d n) with (read_file w d n)
    end.

Ltac files_unchanged :=
  unfold storage_after; simpl;
  lazymatch goal with |- _ \/ _ => left | _ => idtac end;
  norm_files;
  repeat match goal with
    | H : forall d, read_file _ d _ = _ |- _ => rewrite H; clear H; norm_files
    end;
  done.

Ltac status_chain :=
  simpl;
  repeat match goal with
    | H : job_status _ = _ |- _ => rewrite H; clear H
    end;
  rewrite ?insert_insert_eq; try done; try by eexists.

Ltac queue_chain := simpl; congruence.

Ltac ends_with p files :=
  eexists p, _, _; split; [reflexivity|];
  split; [done|]; split; [by repeat split|]; split; [done|];
  split; [queue_chain|]; split; [files | status_chain].

Ltac ends_on p := ends_with p files_unchanged.

(** The write of the completed record failed after the file was opened. *)
Ltac update_failed remains Hfault Hread :=
  unfold storage_after; right; exists remains; split; [exact Hfault|];
  simpl; norm_files; rewrite Hread; by rewrite decide_True.

Lemma process_job_generate_paths e job use_nova dir metadata script w :
  created_record dir metadata ->
  read_file w dir "metadata.json" = Some (JsonDoc (VDict metadata)) ->
  exists p v w',
    process_job_generate e job use_nova dir metadata script w
    = Run v w' (generation_trace e job p)
    /\ project_of p = Some (dir, metadata)
    /\ path_of_run true use_nova p
    /\ v = match raised p with Some msg => Raise msg | None => Ret tt end
    /\ job_queue w' = job_queue w
    /\ storage_after e p w w'
    /\ match raised p with
       | Some _ => exists record, job_status w' = <[job := record]> (job_status w)
       | None => job_status w' = <[job := final_record e p]> (job_status w)
       end.
Proof.
  intros Hcreated Hmeta. unfold process_job_generate.
  pose proof Hcreated as (title & year & scr & prompt & created & url & Hmd).
  assert (dict_item metadata "image_prompt" = Ret (VStr prompt)) as Hprompt by by subst.
  rewrite Hprompt. next.
  call_generator generate_image_quiet generate_image_returns. next.
  destruct b; cbn [negb]; next; [|ends_on (ImageFailed dir metadata s)].
  call_generator generate_voiceover_quiet generate_voiceover_returns. next.
  destruct b; cbn [negb]; next; [|ends_on (VoiceFailed dir metadata s s0)].
  destruct (truthy use_nova) eqn:Hnova; next.
  - call_generator create_video_with_nova_quiet create_video_with_nova_returns. next.
    destruct b; cbn [negb]; next;
      [|ends_on (VideoFailed dir metadata s s0 true p)].
    check_site e UpdateMetadata; next.
    { ends_on (UpdateRaised dir metadata s s0 true p msg). }
    fold (completed_metadata e metadata).
    destruct (write_file_cases e UpdateMetadata dir "metadata.json"
                (JsonDoc (VDict (completed_metadata e metadata))) w2)
      as [[msg Hwr]|[(msg & remains & w3 & Hfault & Hwr & Hs3 & Hq3 & Hr3)
                    |(w3 & Hwr & _ & Hs3 & Hq3 & Hr3)]]; next.
    { ends_on (UpdateRaised dir metadata s s0 true p msg). }
    { ends_with (UpdateRaised dir metadata s s0 true p msg)
        ltac:(update_failed remains Hfault Hr3). }
    assert (dict_item (completed_metadata e metadata) "id" = Ret (field metadata "id")
            /\ dict_item (completed_metadata e metadata) "title" = Ret (field metadata "title")
            /\ dict_item (completed_metadata e metadata) "year" = Ret (field metadata "year"))
      as (Hid & Htitle & Hyear) by by subst metadata.
    rewrite Hid. next. rewrite Htitle. next. rewrite Hyear. next.
    eexists (Completed dir metadata s s0 true p), _, _. split; [reflexivity|].
    split; [done|]. split; [by repeat split|]. split; [done|].
    split; [queue_chain|]. split; [|status_chain].
    unfold storage_after. simpl. norm_files. rewrite Hr3. by rewrite decide_True.
  - call_generator create_video_quiet create_video_returns. next.
    destruct b; cbn [negb]; next;
      [|ends_on (VideoFailed dir metadata s s0 false (VStr s1))].
    check_site e UpdateMetadata; next.
    { ends_on (UpdateRaised dir metadata s s0 false (VStr s1) msg). }
    fold (completed_metadata e metadata).
    destruct (write_file_cases e UpdateMetadata dir "metadata.json"
                (JsonDoc (VDict (completed_metadata e metadata))) w2)
      as [[msg Hwr]|[(msg & remains & w3 & Hfault & Hwr & Hs3 & Hq3 & Hr3)
                    |(w3 & Hwr & _ & Hs3 & Hq3 & Hr3)]]; next.
    { ends_on (UpdateRaised dir metadata s s0 false (VStr s1) msg). }
    { ends_with (UpdateRaised dir metadata s s0 false (VStr s1) msg)
        ltac:(update_failed remains Hfault Hr3). }
    assert (dict_item (completed_metadata e metadata) "id" = Ret (field metadata "id")
            /\ dict_item (completed_metadata e metadata) "title" = Ret (field metadata "title")
            /\ dict_item (completed_metadata e metadata) "year" = Ret (field metadata "year"))
      as (Hid & Htitle & Hyear) by by subst metadata.
    rewrite Hid. next. rewrite Htitle. next. rewrite Hyear. next.
    eexists (Completed dir metadata s s0 false (VStr s1)), _, _. split; [reflexivity|].
    split; [done|]. split; [by repeat split|]. split; [done|].
    split; [queue_chain|]. split; [|status_chain].
    unfold storage_after. simpl. norm_files. rewrite Hr3. by rewrite decide_True.
Qed.

Lemma process_job_try_paths e job auto_generate use_nova w :
  exists p w',
    process_job_try e job auto_generate use_nova w
    = Run (match raised p with Some msg => Raise msg | None => Ret tt end) w'
          (try_trace e job p)
    /\ path_of_run auto_generate use_nova p
    /\ job_queue w' = job_queue w
    /\ storage_after e p w w'
    /\ match raised p with
       | Some _ => exists record, job_status w' = <[job := record]> (job_status w)
       | None => job_status w' = <[job := final_record e p]> (job_status w)
       end.
Proof.
  unfold process_job_try.
  destruct (generate_script_core e _ (get_historical_event_core e)) as [script Hscript].
  rewrite Hscript. next.
  match goal with
  | |- context [mbind _ (save_project ?e ?ev ?s) ?w] =>
      destruct (save_project e ev s w) as [v w1 t] eqn:Hsave;
      destruct (save_project_cases _ _ _ _ _ _ _ Hsave) as (Hs1 & Hq1 & Hcases)
  end.
  simpl in Hs1, Hq1.
  destruct Hcases as [(msg & -> & -> & Hfiles)
                     |(dir & metadata & Hcreated & Hmeta & [(msg & -> & ->)|[-> ->]])];
    next.
  - eexists (SaveRaised [] msg), _. split; [reflexivity|].
    split; [by left|]. split; [queue_chain|]. split; [exact Hfiles | status_chain].
  - eexists (SaveRaised [(dir, metadata)] msg), _. split; [reflexivity|].
    split; [right; by eexists _, _|]. split; [queue_chain|]. split; [done | status_chain].
  - destruct auto_generate.
    + destruct (process_job_generate_paths e job use_nova dir metadata script w1
                  Hcreated Hmeta)
        as (p & v & w2 & Hgen & Hproj & Hpath & -> & Hq2 & Hfiles2 & Hs2).
      rewrite Hgen. next.
      exists p, w2.
      destruct p; simpl in Hproj; simplify_eq; (split; [reflexivity|]);
        (split; [done|]); (split; [queue_chain|]); (split; [done|]); simpl in *;
        lazymatch type of Hs2 with
        | ex _ => destruct Hs2 as [record Hs2]
        | _ => idtac
        end; status_chain.
    + pose proof Hcreated as (title & year & scr & prompt & created & url & Hmd).
      assert (dict_item metadata "id" = Ret (field metadata "id")
              /\ dict_item metadata "title" = Ret (field metadata "title")
              /\ dict_item metadata "year" = Ret (field metadata "year"))
        as (Hid & Htitle & Hyear) by by subst metadata.
      rewrite Hid. next. rewrite Htitle. next. rewrite Hyear. next.
      eexists (Manual dir metadata), _. split; [reflexivity|].
      split; [done|]. split; [queue_chain|]. split; [done | status_chain].
Qed.

Lemma storage_after_projects e p w1 w2 w1' w2' :
  projects w1' = projects w1 -> projects w2' = projects w2 ->
  storage_after e p w1 w2 -> storage_after e p w1' w2'.
Proof.
  unfold storage_after, read_file, lookup_dir. intros -> ->. done.
Qed.

(** Every run of [process_job] follows one of the paths: it returns, its
    trace is the trace of the path, its last write to [job_status] is the
    final record of the path, and storage holds what the path stored. *)
Lemma process_job_paths e job auto_generate use_nova w :
  exists p w',
    process_job e job auto_generate use_nova w = Run (Ret tt) w' (trace_of e job p)
    /\ path_of_run auto_generate use_nova p
    /\ job_status w' = <[job := final_record e p]> (job_status w)
    /\ job_queue w' = job_queue w
    /\ storage_after e p w w'.
Proof.
  unfold process_job. next.
  match goal with
  | |- context [try_except (process_job_try ?e ?j ?a ?n) ?h ?w] =>
      destruct (process_job_try_paths e j a n w)
        as (p & w1 & Htry & Hpath & Hq & Hfiles & Hs)
  end.
  simpl in Hq.
  apply (storage_after_projects e p _ _ w w1) in Hfiles; [|done..].
  exists p. destruct (raised p) as [msg|] eqn:Hraised.
  - erewrite run_try_raise by exact Htry. next.
    eexists. split; [unfold trace_of; rewrite Hraised; reflexivity|].
    split; [done|]. destruct Hs as [record Hs]. split; [|split; [queue_chain | done]].
    simpl in Hs |- *. rewrite Hs, !insert_insert_eq. f_equal.
    destruct p; simpl in Hraised; by simplify_eq.
  - erewrite run_try_ret by exact Htry. next.
    eexists. split; [unfold trace_of; rewrite Hraised, app_nil_r; reflexivity|].
    split; [done|]. split; [|split; [queue_chain | done]].
    simpl in *. rewrite Hs. by rewrite insert_insert_eq.
Qed.

Ltac on_paths e job auto_generate use_nova w :=
  let p := fresh "p" in let w' := fresh "w'" in
  let Hrun := fresh "Hrun" in let Hpath := fresh "Hpath" in
  let Hstatus := fresh "Hstatus" in let Hqueue := fresh "Hqueue" in
  let Hfiles := fresh "Hfiles" in
  destruct (process_job_paths e job auto_generate use_nova w)
    as (p & w' & Hrun & Hpath & Hstatus & Hqueue & Hfiles);
  rewrite Hrun in *; cbn [value after emitted] in *.

Lemma statuses_cons_status job record t :
  statuses job (Status job record :: t) = record :: statuses job t.
Proof. unfold statuses. simpl. by rewrite String.eqb_refl. Qed.

Lemma statuses_cons_other job ev t :
  match ev with Status _ _ => False | _ => True end ->
  statuses job (ev :: t) = statuses job t.
Proof. by destruct ev. Qed.

Lemma statuses_app job (t1 t2 : list event) :
  statuses job (t1 ++ t2) = (statuses job t1 ++ statuses job t2)%list.
Proof. apply omap_app. Qed.

(** The status records of the trace of a path, computed. *)
Ltac read_statuses :=
  unfold trace_of, try_trace, generation_trace, image_events, voice_events,
    video_events;
  cbn [raised app fmap list_fmap uncurry];
  repeat first
    [ rewrite statuses_cons_status
    | rewrite statuses_cons_other by exact I
    | rewrite statuses_app ].

(** ** The status records of a run *)

(** Over one run of [process_job], the records written to the job's entry
    of [job_status] are a run of non-terminal records followed by exactly one
    terminal record (status completed, manual or error), which is the last
    write; every record carries a progress value, and the progress values of
    the records before the terminal one never decrease. *)
Lemma process_job_records_settle e job auto_generate use_nova w :
  settles (statuses job (emitted (process_job e job auto_generate use_nova w))).
Proof.
  on_paths e job auto_generate use_nova w.
  destruct p as [written msg| | | |? ? ? ? nova ?|? ? ? ? nova ? ?|? ? ? ? nova ?];
    try destruct nova;
    try (destruct Hpath as [->|(dir & metadata & -> & _)]);
    read_statuses; cbn [app].
  all: match goal with
       | |- settles ?l =>
           exists (removelast l), (List.last l []); cbn [removelast List.last]
       end.
  all: split; [reflexivity|]; split; [reflexivity|].
  all: split; [repeat constructor|].
  all: split; [repeat constructor; by eexists|].
  all: cbn; repeat constructor; lia.
Qed.

(** Run without interruption, the two halves of the handler are [generate]. *)
Lemma generate_in_two_steps e request_json w :
  (job ← generate_put e request_json; generate_record job) w
  = generate e request_json w.
Proof.
  unfold generate, generate_put, generate_record.
  destruct (py_get _ "use_nova" _) as [use_nova|msg]; [|done].
  unfold lift, mbind, M_bind, queue_put, set_status, mret, M_ret, prepend.
  cbn [value after emitted fst snd app]. by rewrite ?app_nil_r.
Qed.

(** C2. What [process_job] writes for a job settles, but the queued record
    does not come first by construction: [generate] puts the job on the
    queue and only then writes the queued record, on another thread than the
    worker's. In the schedule where the worker takes the job in between, the
    records written for the job are those of the run, which end with a
    terminal record, followed by the queued record with progress 0: the
    sequence does not settle, and the job reads queued from then on. *)
Theorem queued_record_races_with_the_run e e' request_json w body :
  job_queue w = [] ->
  value (generate_overtaken e request_json [e'] w) = Ret body ->
  exists job_id records,
    dict_get body "job_id" = Some (VStr job_id)
    /\ (exists use_nova w0,
          records = statuses job_id (emitted (process_job e' job_id true use_nova w0)))
    /\ settles records
    /\ statuses job_id (emitted (generate_overtaken e request_json [e'] w))
       = (records ++ [status_record "queued" 0 "Queued..."])%list
    /\ ~ settles (records ++ [status_record "queued" 0 "Queued..."])
    /\ get_status (after (generate_overtaken e request_json [e'] w)) job_id
       = status_record "queued" 0 "Queued...".
Proof.
  destruct w as [js q pr]. cbn [job_queue]. intros ->.
  unfold generate_overtaken, generate_put.
  destruct (py_get _ "use_nova" _) as [use_nova|msg]; next; [|done].
  set (job_id := "job_" ++ _).
  unfold queue_put. cbn [job_status job_queue projects app job_worker].
  next. unfold queue_get. cbn [job_queue job_status projects]. next.
  destruct (process_job_paths e' job_id true use_nova (World js [] pr))
    as (p & w1 & Hrun & _ & Hstatus & _).
  pose proof (process_job_records_settle e' job_id true use_nova (World js [] pr))
    as Hsettles.
  rewrite Hrun in Hsettles. cbn [emitted] in Hsettles.
  next. unfold generate_record, prepend, set_status.
  cbn [value after emitted fst snd mbind M_bind mret M_ret app job_status].
  intros [= <-]. exists job_id, (statuses job_id (trace_of e' job_id p)).
  split; [done|]. split.
  { exists use_nova, (World js [] pr). by rewrite Hrun. }
  split; [done|]. split.
  { unfold lift, mbind, M_bind. cbn [emitted value after app mret M_ret].
    rewrite ?app_nil_r, statuses_app, statuses_cons_status. done. }
  split.
  - intros (before & last & Heq & Hterminal & _).
    apply app_inj_tail in Heq as [_ <-]. done.
  - unfold lift, mbind, M_bind, get_status.
    cbn [emitted value after app mret M_ret job_status].
    by rewrite lookup_insert_eq.
Qed.

Lemma queued_record_races_with_the_run_witness :
  exists job_id records,
    dict_get [("job_id", VStr "job_20261104_115959_1000"); ("status", VStr "queued");
              ("use_nova", VBool false)] "job_id"
    = Some (VStr job_id)
    /\ (exists use_nova w0,
          records
          = statuses job_id (emitted (process_job media_ok job_id true use_nova w0)))
    /\ settles records
    /\ statuses job_id (emitted (generate_overtaken media_ok (VDict []) [media_ok]
                                   empty_world))
       = (records ++ [status_record "queued" 0 "Queued..."])%list
    /\ ~ settles (records ++ [status_record "queued" 0 "Queued..."])
    /\ get_status (after (generate_overtaken media_ok (VDict []) [media_ok]
                            empty_world)) job_id
       = status_record "queued" 0 "Queued...".
Proof.
  apply (queued_record_races_with_the_run media_ok media_ok (VDict []) empty_world).
  - reflexivity.
  - vm_compute. reflexivity.
Defined.

Lemma final_status_lookup (js : gmap string pydict) job record (w' : world) :
  job_status w' = <[job := record]> js -> job_status w' !! job = Some record.
Proof. intros ->. apply lookup_insert_eq. Qed.

(** The generator calls of the trace of a path, computed. *)
Ltac read_trace :=
  unfold trace_of, try_trace, generation_trace, image_events, voice_events,
    video_events;
  cbn [raised app fmap list_fmap uncurry calls persisted saved omap].

(** An impossible membership in an explicit list. *)
Ltac not_there H :=
  repeat (apply elem_of_cons in H as [H|H]; [by simplify_eq|]);
  by apply elem_of_nil in H.







(** C1. When the video step fails, whichever backend was attempted, the
    job's record ends as status error with progress 90: after a failure of
    the cloud backend the reported progress is 90 although the video record
    written before the call carried 85. The run stops there: the metadata
    record was written once, by the saving step, and still has status
    created. *)
Theorem video_failure_reports_progress_90 e job use_nova w g reason :
  let r := process_job e job true use_nova w in
  (g, false, reason) ∈ calls (emitted r) -> g = Nova \/ g = Compositor ->
  job_status (after r) !! job
  = Some (status_record "error" 90 ("Video failed: " ++ py_str e reason))
  /\ g = (if truthy use_nova then Nova else Compositor)
  /\ Exists (fun record => status record = Some "video"
                           /\ progress record
                              = Some (if truthy use_nova then 85 else 90)%Z)
            (statuses job (emitted r))
  /\ exists dir metadata,
       persisted (emitted r) = [(dir, metadata)]
       /\ dict_get metadata "status" = Some (VStr "created")
       /\ read_file (after r) dir "metadata.json" = Some (JsonDoc (VDict metadata)).
Proof.
  intros r. subst r. on_paths e job true use_nova w. intros Hcall Hg.
  apply final_status_lookup in Hstatus.
  destruct p as [written msg| | | |? ? ? ? nova ?|? ? ? ? nova ? ?|? ? ? ? nova ?];
    try destruct nova;
    try (destruct Hpath as [->|(dir' & metadata' & -> & _)]);
    revert Hcall; read_trace; intros Hcall;
    try not_there Hcall; try (destruct Hg; not_there Hcall).
  all: destruct Hpath as (_ & (title & year & scr & prompt & created & url & ->) & <-).
  all: repeat (apply elem_of_cons in Hcall as [Hcall|Hcall]; [by simplify_eq|]).
  all: apply list_elem_of_singleton in Hcall; injection Hcall as -> ->.
  all: split; [done|]; split; [done|]; split;
    [|eexists _, _; repeat split; exact Hfiles].
  all: read_statuses; do 6 apply Exists_cons_tl; by apply Exists_cons_hd.
Qed.

Lemma video_failure_reports_progress_90_witness :
  let r := process_job media_ok "job_1" true (VBool true) empty_world in
  job_status (after r) !! "job_1"
  = Some (status_record "error" 90 "Video failed: Unable to locate credentials")
  /\ Nova = Nova
  /\ Exists (fun record => status record = Some "video"
                           /\ progress record = Some 85%Z)
            (statuses "job_1" (emitted r))
  /\ exists dir metadata,
       persisted (emitted r) = [(dir, metadata)]
       /\ dict_get metadata "status" = Some (VStr "created")
       /\ read_file (after r) dir "metadata.json" = Some (JsonDoc (VDict metadata)).
Proof.
  apply (video_failure_reports_progress_90 media_ok "job_1" (VBool true) empty_world
           Nova (VStr "Unable to locate credentials")).
  - vm_compute. do 2 apply list_elem_of_further. apply list_elem_of_here.
  - by left.
Defined.

(** ** The outer boundary *)

(** [process_job] never lets an exception out. *)
Lemma process_job_returns e job auto_generate use_nova w :
  value (process_job e job auto_generate use_nova w) = Ret tt.
Proof. by on_paths e job auto_generate use_nova w. Qed.

(** C5. When the [try] block of [process_job] raises an exception with text
    [msg], [process_job] itself returns normally; what it adds to the state
    the block left is one write, the record status error, progress 0,
    message [msg], which is the last event of its trace. *)
Theorem uncaught_exception_becomes_error e job auto_generate use_nova w msg w1 t :
  process_job_try e job auto_generate use_nova
    (after (set_status job (status_record "starting" 0 "Starting...") w))
  = Run (Raise msg) w1 t ->
  let r := process_job e job auto_generate use_nova w in
  value r = Ret tt
  /\ job_status (after r) = <[job := status_record "error" 0 msg]> (job_status w1)
  /\ projects (after r) = projects w1
  /\ emitted r
     = (Status job (status_record "starting" 0 "Starting...") :: t
        ++ [Status job (status_record "error" 0 msg)])%list.
Proof.
  intros Htry r. subst r. unfold process_job.
  erewrite run_bind_ret by reflexivity.
  erewrite run_try_raise by exact Htry.
  done.
Qed.

Lemma uncaught_exception_becomes_error_witness :
  let r := process_job disk_refuses "job_1" true (VBool false) empty_world in
  value r = Ret tt
  /\ job_status (after r)
     = <[ "job_1" := status_record "error" 0 "[Errno 13] Permission denied" ]>
         (<[ "job_1" := status_record "saving" 30 "Creating project..." ]> ∅)
  /\ projects (after r) = None
  /\ emitted r
     = [Status "job_1" (status_record "starting" 0 "Starting...");
        Status "job_1" (status_record "fetching" 10 "Fetching historical event...");
        Status "job_1" (status_record "scripting" 20 "Generating script...");
        Status "job_1" (status_record "saving" 30 "Creating project...");
        Status "job_1" (status_record "error" 0 "[Errno 13] Permission denied")].
Proof.
  refine (uncaught_exception_becomes_error disk_refuses "job_1" true (VBool false)
            empty_world "[Errno 13] Permission denied"
            (World (<[ "job_1" := status_record "saving" 30 "Creating project..." ]> ∅)
                   [] None)
            [Status "job_1" (status_record "fetching" 10 "Fetching historical event...");
             Status "job_1" (status_record "scripting" 20 "Generating script...");
             Status "job_1" (status_record "saving" 30 "Creating project...")] _).
  vm_compute. reflexivity.
Defined.


(** ** The persisted project record *)



(** ** The event source adapter *)

(** C4 as stated fails: with the content source unreachable the adapter
    returns the first fallback event, which has neither an [id] nor a [url]
    field. *)
Lemma fallback_record_lacks_fields :
  get_historical_event media_ok
  = [("title", VStr "The Fall of Constantinople");
     ("extract", VStr "In 1453, Constantinople fell to the Ottoman Empire, ending the Byzantine Empire and marking the end of the Middle Ages.");
     ("year", VStr "1453")]
  /\ has_all_fields (get_historical_event media_ok) = false
  /\ dict_has (get_historical_event media_ok) "id" = false
  /\ dict_has (get_historical_event media_ok) "url" = false.
Proof. by vm_compute. Qed.

(** C4, amended. [get_historical_event] always returns a record with title,
    extract and year fields, the last two strings. The record is an element
    of the fallback list, or it was built from a response with status 200
    and then has all five fields; a raised request or a status other than
    200 always gives a fallback element. No fallback element has an [id] or
    a [url] field. *)
Theorem get_historical_event_record e :
  let event := get_historical_event e in
  has_core_fields event
  /\ (event ∈ fallback_events
      \/ exists response data pageid title extract year page,
           wiki_get e = Ret response /\ status_code response = 200%Z
           /\ json_body response = Ret data
           /\ event = [("id", pageid); ("title", title); ("extract", VStr extract);
                       ("year", VStr year); ("url", page)])
  /\ match wiki_get e with
     | Ret response => status_code response = 200%Z \/ event ∈ fallback_events
     | Raise _ => event ∈ fallback_events
     end
  /\ Forall (fun fallback => dict_has fallback "id" = false
                             /\ dict_has fallback "url" = false
                             /\ has_core_fields fallback) fallback_events.
Proof.
  intros event. subst event. split; [apply get_historical_event_core|].
  assert (choice fallback_events (draw_fallback e) [] ∈ fallback_events) as Hfb
    by by apply choice_elem_of.
  split; [|split].
  - unfold get_historical_event.
    destruct (get_historical_event_try e) as [[event|]|] eqn:Htry; [|by left..].
    right. pose proof Htry as Hfields.
    apply get_historical_event_try_fields in Hfields as (id & ti & ex & ye & pa & ->).
    unfold get_historical_event_try in Htry.
    destruct (wiki_get e) as [response|] eqn:Hget; [|done]. simpl in Htry.
    destruct (status_code response =? 200)%Z eqn:Hcode; [|done].
    destruct (json_body response) as [data|] eqn:Hbody; [|done].
    apply Z.eqb_eq in Hcode. by eexists response, data, _, _, _, _, _.
  - unfold get_historical_event, get_historical_event_try.
    destruct (wiki_get e) as [response|]; [|done]. simpl.
    destruct (status_code response =? 200)%Z eqn:Hcode; [|by right].
    left. by apply Z.eqb_eq.
  - unfold fallback_events.
    repeat (apply List.Forall_cons; [by repeat split; try eexists _, _, _|]).
    apply List.Forall_nil.
Qed.

(** ** Statistics *)

Lemma count_project_fold w names :
  forall total completed,
    foldl (count_project w) (total, completed) names
    = (total + Z.of_nat (length (filter (fun d => is_dir w d = true) names)),
       completed
       + Z.of_nat (length (filter (fun d => is_dir w d = true
                                            /\ file_exists w d "final_video.mp4" = true)
                                  names)))%Z.
Proof.
  induction names as [|d names IH]; intros total completed.
  - simpl. f_equal; lia.
  - cbn [foldl].
    assert (count_project w (total, completed) d
            = (total + (if is_dir w d then 1 else 0),
               completed + (if is_dir w d && file_exists w d "final_video.mp4"
                            then 1 else 0))%Z) as ->.
    { unfold count_project.
      destruct (is_dir w d), (file_exists w d "final_video.mp4"); simpl; f_equal; lia. }
    rewrite IH. rewrite !filter_cons.
    destruct (is_dir w d) eqn:Hdir.
    + rewrite decide_True by done.
      destruct (file_exists w d "final_video.mp4") eqn:Hvideo.
      * rewrite decide_True by done. simpl. f_equal; lia.
      * rewrite decide_False by (intros [_ ?]; done). simpl. f_equal; lia.
    + rewrite decide_False by done. rewrite decide_False by (intros [? _]; done).
      simpl. f_equal; lia.
Qed.

(** C10. [get_stats] reports pending = total - completed with
    0 <= completed <= total, total being the number of project directories
    and completed the number of those that hold a final video. *)
Theorem get_stats_pending w :
  exists total completed : Z,
    get_stats w = [("total_projects", VInt total); ("completed_videos", VInt completed);
                   ("pending", VInt (total - completed))]
    /\ (0 <= completed <= total)%Z
    /\ (0 <= total - completed)%Z
    /\ let names := default [] (iterdir <$> projects w) in
       total = Z.of_nat (length (filter (fun d => is_dir w d = true) names))
       /\ completed
          = Z.of_nat (length (filter (fun d => is_dir w d = true
                                               /\ file_exists w d "final_video.mp4" = true)
                                     names)).
Proof.
  unfold get_stats. destruct (projects w) as [tree|] eqn:Htree; simpl.
  - rewrite count_project_fold. eexists _, _. split; [reflexivity|].
    set (names := iterdir tree).
    assert (length (filter (fun d => is_dir w d = true
                                     /\ file_exists w d "final_video.mp4" = true) names)
            <= length (filter (fun d => is_dir w d = true) names)) as Hle.
    { induction names as [|d names IH]; [done|]. rewrite !filter_cons.
      destruct (decide (is_dir w d = true /\ _)) as [[Hd _]|Hn].
      - rewrite decide_True by done. simpl. lia.
      - destruct (decide (is_dir w d = true)); simpl; lia. }
    repeat split; lia.
  - exists 0%Z, 0%Z. repeat split; lia.
Qed.

(** ** Submission and worker *)

Lemma process_job_auto_never_manual e job use_nova w :
  let r := process_job e job true use_nova w in
  value r = Ret tt
  /\ never_manual (emitted r)
  /\ forall job_id, not_manual_at w job_id -> not_manual_at (after r) job_id.
Proof.
  intros r. subst r. on_paths e job true use_nova w.
  split; [done|].
  assert (status (final_record e p) <> Some "manual") as Hfinal.
  { destruct p; try done. by destruct Hpath. }
  split.
  - destruct p as [written msg| | | |? ? ? ? nova ?|? ? ? ? nova ? ?|? ? ? ? nova ?];
      try destruct nova;
      try (destruct Hpath as [->|(dir & metadata & -> & _)]);
      try (by destruct Hpath);
      read_trace; repeat (apply List.Forall_cons; [done|]); apply List.Forall_nil.
  - intros job_id Hbefore record. rewrite Hstatus.
    destruct (decide (job = job_id)) as [->|Hne].
    + rewrite lookup_insert_eq. by intros [= <-].
    + rewrite lookup_insert_ne by done. apply Hbefore.
Qed.

Lemma app_nil_l_prepend {A} (r : run A) : prepend [] r = r.
Proof. by destruct r. Qed.

Lemma job_worker_never_manual envs :
  forall w,
    never_manual (emitted (job_worker envs w))
    /\ forall job_id, not_manual_at w job_id ->
                      not_manual_at (after (job_worker envs w)) job_id.
Proof.
  induction envs as [|e envs IH]; intros w; [by split; [constructor|]|].
  cbn [job_worker].
  assert (forall job use_nova js q pr,
    never_manual (emitted ((process_job e job true use_nova ;; job_worker envs)
                             (World js q pr)))
    /\ forall job_id, not_manual_at w job_id ->
         job_status w = js ->
         not_manual_at (after ((process_job e job true use_nova ;; job_worker envs)
                                 (World js q pr))) job_id) as Hjob.
  { intros job use_nova js q pr.
    destruct (process_job_auto_never_manual e job use_nova (World js q pr))
      as (Hret & Htrace & Hrecord).
    destruct (process_job e job true use_nova (World js q pr)) as [v w1 t1] eqn:Hrun.
    simpl in Hret, Htrace, Hrecord. subst v.
    erewrite run_bind_ret by exact Hrun. unfold prepend. simpl.
    destruct (IH w1) as [Htrace' Hrecord']. split.
    - by apply Forall_app.
    - intros job_id Hbefore <-. apply Hrecord', Hrecord. exact Hbefore. }
  destruct w as [js [|[|job use_nova|job] q] pr].
  - by split; [constructor|].
  - by split; [constructor|].
  - erewrite run_bind_ret by reflexivity. rewrite app_nil_l_prepend.
    destruct (Hjob job use_nova js q pr) as [H1 H2]. split; [done|].
    intros job_id Hbefore. by apply H2.
  - erewrite run_bind_ret by reflexivity. rewrite app_nil_l_prepend.
    destruct (Hjob job (VBool false) js q pr) as [H1 H2]. split; [done|].
    intros job_id Hbefore. by apply H2.
Qed.

(** C9. A submission reads nothing from the request but the [use_nova]
    entry, queues the job with it and records the job as queued. The worker
    calls [process_job] with [auto_generate] true for either form of queue
    entry. Hence no record written by a submission and the worker that
    follows has status manual, and the record of the submitted job is not
    manual when the worker stops. *)
Theorem submitted_job_never_manual e request_json envs w :
  let s := generate e request_json w in
  let r := job_worker envs (after s) in
  never_manual (emitted s ++ emitted r)
  /\ (forall body, value s = Ret body ->
        exists job_id use_nova,
          py_get (if truthy request_json then request_json else VDict [])
                 "use_nova" (VBool false) = Ret use_nova
          /\ body = [("job_id", VStr job_id); ("status", VStr "queued");
                     ("use_nova", use_nova)]
          /\ job_queue (after s) = (job_queue w ++ [JobTuple job_id use_nova])%list
          /\ job_status (after s)
             = <[job_id := status_record "queued" 0 "Queued..."]> (job_status w)
          /\ not_manual_at (after r) job_id)
  /\ (forall e' envs' job_id use_nova js q pr,
        job_worker (e' :: envs') (World js (JobTuple job_id use_nova :: q) pr)
        = (process_job e' job_id true use_nova ;; job_worker envs') (World js q pr))
  /\ (forall e' envs' job_id js q pr,
        job_worker (e' :: envs') (World js (JobId job_id :: q) pr)
        = (process_job e' job_id true (VBool false) ;; job_worker envs') (World js q pr)).
Proof.
  intros s r. subst s r.
  split; [|split; [|split]].
  - apply Forall_app. split; [|apply job_worker_never_manual].
    unfold generate.
    destruct (py_get _ "use_nova" _) as [use_nova|msg]; next; simpl.
    + by repeat constructor.
    + constructor.
  - intros body. unfold generate.
    destruct (py_get _ "use_nova" _) as [use_nova|msg] eqn:Hflag; next; simpl;
      [|done].
    intros [= <-]. eexists _, use_nova.
    split; [done|]. split; [done|]. split; [done|]. split; [done|].
    apply job_worker_never_manual. intros record. simpl.
    rewrite lookup_insert_eq. by intros [= <-].
  - intros. cbn [job_worker]. erewrite run_bind_ret by reflexivity.
    apply app_nil_l_prepend.
  - intros. cbn [job_worker]. erewrite run_bind_ret by reflexivity.
    apply app_nil_l_prepend.
Qed.

(** ** Listing the projects *)

Lemma string_compare_lt_trans a :
  forall b c, String.compare a b = Lt -> String.compare b c = Lt ->
              String.compare a c = Lt.
Proof.
  induction a as [|x a IH]; intros [|y b] [|z c]; simpl; try done.
  unfold Ascii.compare.
  destruct (N.compare_spec (N_of_ascii x) (N_of_ascii y)) as [Hxy|Hxy|Hxy];
    destruct (N.compare_spec (N_of_ascii y) (N_of_ascii z)) as [Hyz|Hyz|Hyz];
    try done; intros Hab Hbc.
  - rewrite Hxy, Hyz, N.compare_refl. by eapply IH.
  - assert ((N_of_ascii x ?= N_of_ascii z)%N = Lt) as Hxz
      by (apply N.compare_lt_iff; lia).
    by rewrite Hxz.
  - assert ((N_of_ascii x ?= N_of_ascii z)%N = Lt) as Hxz
      by (apply N.compare_lt_iff; lia).
    by rewrite Hxz.
  - assert ((N_of_ascii x ?= N_of_ascii z)%N = Lt) as Hxz
      by (apply N.compare_lt_iff; lia).
    by rewrite Hxz.
Qed.

#[global] Instance name_ge_total : Total name_ge.
Proof. intros a b. unfold name_ge. destruct (String.leb_total a b); auto. Qed.

#[global] Instance name_ge_trans : Transitive name_ge.
Proof.
  intros a b c. unfold name_ge, String.leb. intros Hba Hcb.
  destruct (String.compare b a) eqn:Hab'; [| |done].
  - apply String.compare_eq_iff in Hab' as ->. done.
  - destruct (String.compare c b) eqn:Hcb'; [| |done].
    + apply String.compare_eq_iff in Hcb' as ->. by rewrite Hab'.
    + by rewrite (string_compare_lt_trans c b a).
Qed.

Lemma name_ge_ne_gt a b : name_ge a b -> a <> b -> name_gt a b.
Proof.
  unfold name_ge, name_gt, String.leb, String.ltb.
  destruct (String.compare b a) eqn:Hc; [|done..].
  apply String.compare_eq_iff in Hc as ->. done.
Qed.

Lemma strictly_sorted (names : list string) :
  StronglySorted name_ge names -> NoDup names -> StronglySorted name_gt names.
Proof.
  induction 1 as [|a names Hsorted IH Hall]; intros Hnodup; [constructor|].
  apply NoDup_cons in Hnodup as [Hnotin Hnodup].
  constructor; [by apply IH|].
  apply Forall_forall. intros b Hb.
  rewrite Forall_forall in Hall.
  apply name_ge_ne_gt; [by apply Hall|]. by intros ->.
Qed.

Lemma StronglySorted_filter_keeps {A} (R : relation A) (P : A -> Prop)
    `{forall x, Decision (P x)} (l : list A) :
  StronglySorted R l -> StronglySorted R (filter P l).
Proof.
  induction 1 as [|a l Hsorted IH Hall]; [constructor|].
  rewrite filter_cons. destruct (decide (P a)); [|done].
  constructor; [done|]. apply Forall_forall.
  intros b [_ Hb]%list_elem_of_filter. rewrite Forall_forall in Hall. by apply Hall.
Qed.

Lemma dict_get_set_eq (d : pydict) k v : dict_get (dict_set d k v) k = Some v.
Proof.
  induction d as [|[k' v'] d IH]; simpl.
  - by rewrite String.eqb_refl.
  - destruct (String.eqb k' k) eqn:Heq; simpl; by rewrite Heq.
Qed.

Lemma dict_get_set_ne (d : pydict) k k' v :
  k <> k' -> dict_get (dict_set d k v) k' = dict_get d k'.
Proof.
  intros Hne. induction d as [|[k0 v0] d IH]; simpl.
  - by apply String.eqb_neq in Hne as ->.
  - destruct (String.eqb k0 k) eqn:Heq; simpl; [|by rewrite IH].
    apply String.eqb_eq in Heq as ->. by apply String.eqb_neq in Hne as ->.
Qed.

Lemma list_projects_from_reported e w names :
  metadata_readable w ->
  exists records,
    list_projects_from e w names = Ret records
    /\ Forall2 (reported w) (filter (listed w) names) records.
Proof.
  intros Hreadable. induction names as [|d names (records & Hrest & Hall)].
  - by exists [].
  - cbn [list_projects_from]. rewrite filter_cons.
    destruct (is_dir w d) eqn:Hdir; simpl.
    2:{ rewrite decide_False by (intros [? _]; congruence). eauto. }
    destruct (file_exists w d "metadata.json") eqn:Hmeta.
    2:{ rewrite decide_False by (intros [_ ?]; congruence). eauto. }
    rewrite decide_True by done.
    assert (exists c, read_file w d "metadata.json" = Some c) as [c Hread].
    { unfold file_exists, read_file in *. destruct (lookup_dir w d); [|done].
      apply bool_decide_eq_true in Hmeta as [c Hc]. eauto. }
    destruct (Hreadable d c Hread) as [metadata ->].
    rewrite Hread. simpl. rewrite Hrest. simpl.
    eexists. split; [reflexivity|]. constructor; [|done].
    exists metadata. split; [done|]. split; [done|]. unfold annotate.
    rewrite dict_get_set_eq.
    rewrite (dict_get_set_ne _ "has_voice" "has_image"), dict_get_set_eq by done.
    rewrite (dict_get_set_ne _ "has_voice" "has_video"),
      (dict_get_set_ne _ "has_image" "has_video"), dict_get_set_eq by done.
    done.
Qed.

Lemma listed_in_tree w tree d :
  projects w = Some tree -> listed w d -> d ∈ iterdir tree.
Proof.
  intros Htree [Hdir _]. unfold is_dir, lookup_dir in Hdir. rewrite Htree in Hdir.
  apply bool_decide_eq_true in Hdir.
  destruct (tree !! d) as [entry|] eqn:Hlookup; [|by destruct Hdir].
  unfold iterdir. apply list_elem_of_fmap. exists (d, entry). split; [done|].
  by apply elem_of_map_to_list.
Qed.

(** C8, amended. On a store whose metadata records all parse to JSON
    objects, [list_projects] returns one record per directory that holds a
    metadata record and none for any other entry, by strictly decreasing
    directory name; each record is the stored metadata with [has_video],
    [has_image] and [has_voice] set to the presence of the final video, the
    image and the voice track in that directory. *)
Theorem list_projects_newest_first e w :
  metadata_readable w ->
  exists dirs records,
    list_projects e w = Ret records
    /\ (forall d, d ∈ dirs <-> is_dir w d = true
                              /\ file_exists w d "metadata.json" = true)
    /\ StronglySorted name_gt dirs
    /\ Forall2 (reported w) dirs records.
Proof.
  intros Hreadable. unfold list_projects.
  destruct (projects w) as [tree|] eqn:Htree.
  - set (names := merge_sort name_ge (iterdir tree)).
    destruct (list_projects_from_reported e w names Hreadable) as (records & Hrun & Hall).
    exists (filter (listed w) names), records. split; [done|].
    assert (names ≡ₚ iterdir tree) as Hperm by apply merge_sort_Permutation.
    split; [|split; [|done]].
    + intros d. rewrite list_elem_of_filter. split; [by intros [? _]|].
      intros Hlisted. split; [done|]. rewrite Hperm. by eapply listed_in_tree.
    + apply StronglySorted_filter_keeps, strictly_sorted.
      * apply StronglySorted_merge_sort; apply _.
      * rewrite Hperm. apply NoDup_fst_map_to_list.
  - exists [], []. split; [done|]. split; [|split; constructor].
    intros d. split; [by intros ?%elem_of_nil|].
    intros [Hdir _]. unfold is_dir, lookup_dir in Hdir. rewrite Htree in Hdir.
    apply bool_decide_eq_true in Hdir. by destruct Hdir.
Qed.

(** C8 as stated fails: on a store holding a project directory whose
    metadata record is an empty file, [list_projects] raises instead of
    returning a listing. *)
Lemma list_projects_fails_on_truncated_metadata :
  list_projects media_ok truncated_store
  = Raise "Expecting value: line 1 column 1 (char 0)"
  /\ is_dir truncated_store "20261104_120000_The_Moon_Landing" = true
  /\ file_exists truncated_store "20261104_120000_The_Moon_Landing" "metadata.json"
     = true.
Proof. by vm_compute. Qed.

Lemma list_projects_newest_first_witness :
  exists dirs records,
    list_projects media_ok two_projects = Ret records
    /\ (forall d, d ∈ dirs <-> is_dir two_projects d = true
                              /\ file_exists two_projects d "metadata.json" = true)
    /\ StronglySorted name_gt dirs
    /\ Forall2 (reported two_projects) dirs records.
Proof.
  apply (list_projects_newest_first media_ok two_projects).
  intros d c. unfold read_file, lookup_dir, two_projects. cbn [projects].
  repeat (rewrite lookup_insert; case_decide; [subst d; vm_compute; intros [= <-]; eauto|]).
  by rewrite lookup_empty.
Defined.

Example list_projects_two_projects :
  list_projects media_ok two_projects
  = Ret [VDict [("id", VStr "20261105_090000_The_First_Flight");
                ("status", VStr "created");
                ("has_video", VBool false); ("has_image", VBool true);
                ("has_voice", VBool false)];
         VDict [("id", VStr "20261104_120000_The_Moon_Landing");
                ("status", VStr "completed");
                ("has_video", VBool true); ("has_image", VBool true);
                ("has_voice", VBool true)]]
  /\ get_stats two_projects
     = [("total_projects", VInt 3); ("completed_videos", VInt 1); ("pending", VInt 2)].
Proof. by vm_compute. Qed.


(** ** Sample runs *)

Example get_historical_event_from_page :
  get_historical_event (page_ok (VStr "Battle of Hastings"))
  = [("id", VInt 12345); ("title", VStr "Battle of Hastings");
     ("extract", VStr "The Battle of Hastings was fought on 14 October 1066.");
     ("year", VStr "1066");
     ("url", VStr "https://en.wikipedia.org/wiki/Battle_of_Hastings")].
Proof. by vm_compute. Qed.

(** A page whose title is a number makes the saving step raise; the outer
    boundary turns that into an error record. *)
Example numeric_title_is_caught :
  statuses "job_1"
    (emitted (process_job (page_ok (VInt 1066)) "job_1" true (VBool false) empty_world))
  = [status_record "starting" 0 "Starting...";
     status_record "fetching" 10 "Fetching historical event...";
     status_record "scripting" 20 "Generating script...";
     status_record "saving" 30 "Creating project...";
     status_record "error" 0 "'int' object is not iterable"].
Proof. by vm_compute. Qed.

Example completed_run :
  let r := process_job (page_ok (VStr "Battle of Hastings")) "job_1" true
             (VBool false) empty_world in
  calls (emitted r)
  = [(Image, true, VStr "output/20261104_120000_Battle_of_Hastings/scene.jpg");
     (Voice, true, VStr "output/20261104_120000_Battle_of_Hastings/voiceover.mp3");
     (Compositor, true,
      VStr "output/20261104_120000_Battle_of_Hastings/final_video.mp4")]
  /\ get_status (after r) "job_1"
     = project_record "completed" "Video complete!"
         (VStr "20261104_120000_Battle_of_Hastings") (VStr "Battle of Hastings")
         (VStr "1066")
  /\ get_stats (after r)
     = [("total_projects", VInt 1); ("completed_videos", VInt 1); ("pending", VInt 0)]
  /\ get_status (after r) "job_2" = [("status", VStr "unknown")].
Proof. by vm_compute. Qed.


(** * Further properties of the program *)

(** ** Reading the end of a run *)

Lemma after_prepend {A} t (r : run A) : after (prepend t r) = after r.
Proof. done. Qed.

Lemma value_prepend {A} t (r : run A) : value (prepend t r) = value r.
Proof. done. Qed.

Lemma emitted_prepend {A} t (r : run A) : emitted (prepend t r) = (t ++ emitted r)%list.
Proof. done. Qed.

(** Projects the state and the value out of a run that has been stepped. *)
Ltac tidy :=
  rewrite ?after_prepend, ?value_prepend;
  cbn [after value emitted mret M_ret tell job_status].

#[local] Transparent generate_image generate_voiceover create_video
  create_video_with_nova.

(** ** The orchestrator *)


(** X3. [process_job] always returns. It leaves the queue as it was and
    changes [job_status] at its own job only, where it leaves a terminal
    record: the record of every other job reads as before. *)
Theorem process_job_touches_its_own_record e job auto_generate use_nova w :
  let r := process_job e job auto_generate use_nova w in
  value r = Ret tt
  /\ job_queue (after r) = job_queue w
  /\ exists final,
       terminal final = true
       /\ get_status (after r) job = final
       /\ job_status (after r) = <[job := final]> (job_status w).
Proof.
  intros r. subst r. on_paths e job auto_generate use_nova w.
  split; [done|]. split; [done|]. exists (final_record e p).
  split; [by destruct p|]. split; [|done].
  unfold get_status. by rewrite Hstatus, lookup_insert_eq.
Qed.

(** ** The worker loop *)

Lemma started_trace_of e job auto_generate use_nova p :
  path_of_run auto_generate use_nova p -> started (trace_of e job p) = [job].
Proof.
  intros Hpath.
  destruct p as [written msg| | | |? ? ? ? nova ?|? ? ? ? nova ? ?|? ? ? ? nova ?];
    try (destruct Hpath as [->|(dir' & metadata' & -> & _)]);
    try destruct nova; done.
Qed.

Lemma started_app (t1 t2 : list event) :
  started (t1 ++ t2) = (started t1 ++ started t2)%list.
Proof. apply omap_app. Qed.

(** X4. The worker takes the queued jobs in the order they were put, one per
    iteration, and stops at the first sentinel: the jobs it starts are the
    first ones pending, in queue order, each started once. It never raises,
    and what it leaves in the queue is a suffix of what it found. *)
Theorem job_worker_first_in_first_out envs :
  forall w,
    let r := job_worker envs w in
    started (emitted r) = take (length envs) (pending_jobs (job_queue w))
    /\ value r = Ret tt
    /\ exists taken, job_queue w = (taken ++ job_queue (after r))%list.
Proof.
  induction envs as [|e envs IH]; intros w r; subst r.
  { split; [done|]. split; [done|]. by exists []. }
  cbn [job_worker].
  assert (forall job use_nova js q pr,
    let r := (process_job e job true use_nova ;; job_worker envs) (World js q pr) in
    started (emitted r) = (job :: take (length envs) (pending_jobs q))
    /\ value r = Ret tt
    /\ exists taken, q = (taken ++ job_queue (after r))%list) as Hjob.
  { intros job use_nova js q pr r. subst r.
    destruct (process_job_paths e job true use_nova (World js q pr))
      as (p & w1 & Hrun & Hpath & _ & Hqueue & _).
    erewrite run_bind_ret by exact Hrun. unfold prepend. cbn [emitted value after].
    destruct (IH w1) as (Hstarted & Hvalue & taken & Htaken).
    simpl in Hqueue. rewrite Hqueue in Hstarted, Htaken.
    rewrite started_app, (started_trace_of e job true use_nova p Hpath), Hstarted.
    split; [done|]. split; [done|]. by exists taken. }
  destruct w as [js [|[|job use_nova|job] q] pr]; cbn [job_queue pending_jobs].
  - split; [by rewrite take_nil|]. split; [done|]. by exists [].
  - erewrite run_bind_ret by reflexivity. rewrite app_nil_l_prepend.
    split; [by rewrite take_nil|]. split; [done|]. by exists [Sentinel].
  - erewrite run_bind_ret by reflexivity. rewrite app_nil_l_prepend.
    destruct (Hjob job use_nova js q pr) as (H1 & H2 & taken & H3).
    split; [done|]. split; [done|]. exists (JobTuple job use_nova :: taken).
    simpl. by rewrite <- H3.
  - erewrite run_bind_ret by reflexivity. rewrite app_nil_l_prepend.
    destruct (Hjob job (VBool false) js q pr) as (H1 & H2 & taken & H3).
    split; [done|]. split; [done|]. exists (JobId job :: taken).
    simpl. by rewrite <- H3.
Qed.

(** ** The project store *)

Lemma forallb_isalnum_chars l :
  forallb isalnum l = true -> Forall (fun c => isalnum c = true) l.
Proof. intros H. apply Forall_forall. intros c Hc. eapply forallb_forall in H; [done|]. by apply list_elem_of_In. Qed.

(** What [join_kept] keeps: alphanumerics, spaces, hyphens, underscores. *)
Lemma join_kept_chars items :
  forall kept,
    join_kept items = Ret kept ->
    Forall (fun c => name_char c \/ c = " "%char) (list_ascii_of_string kept).
Proof.
  induction items as [|item items IH]; intros kept; simpl.
  - intros [= <-]. constructor.
  - destruct item as [| | | |c| |]; try done.
    destruct (join_kept items) as [tail|msg]; [|done]. simpl.
    intros [= <-]. specialize (IH tail eq_refl).
    destruct (keeps c) eqn:Hkeep; [|done].
    assert (list_ascii_of_string (c ++ tail)
            = (list_ascii_of_string c ++ list_ascii_of_string tail)%list) as ->.
    { clear. induction c as [|x c IHc]; [done|]. simpl. by rewrite IHc. }
    apply Forall_app. split; [|done].
    unfold keeps in Hkeep.
    apply orb_true_iff in Hkeep as [Hkeep|Hkeep];
      [apply orb_true_iff in Hkeep as [Hkeep|Hkeep];
       [apply orb_true_iff in Hkeep as [Hkeep|Hkeep]|]|].
    + unfold str_isalnum in Hkeep.
      destruct (list_ascii_of_string c) as [|x l]; [done|].
      apply forallb_isalnum_chars in Hkeep.
      eapply Forall_impl; [exact Hkeep|]. intros y Hy. left. by left.
    + apply String.eqb_eq in Hkeep as ->. apply Forall_singleton. by right.
    + apply String.eqb_eq in Hkeep as ->. apply Forall_singleton. left. right. by left.
    + apply String.eqb_eq in Hkeep as ->. apply Forall_singleton. left. right. by right.
Qed.

Lemma rstrip_chars (P : ascii -> Prop) s :
  Forall P (list_ascii_of_string s) -> Forall P (list_ascii_of_string (rstrip s)).
Proof.
  induction s as [|c s IH]; [done|]. simpl. intros [Hc Hs]%Forall_cons.
  specialize (IH Hs). destruct (rstrip s) as [|c' s'].
  - destruct (isspace c); simpl; [constructor | by apply Forall_singleton].
  - simpl. by constructor.
Qed.

Lemma str_take_chars (P : ascii -> Prop) n :
  forall s, Forall P (list_ascii_of_string s) ->
            Forall P (list_ascii_of_string (str_take n s))
            /\ String.length (str_take n s) <= n.
Proof.
  induction n as [|n IH]; intros s Hs.
  - split; [by destruct s; constructor | by destruct s].
  - destruct s as [|c s]; [split; [constructor | simpl; lia]|].
    simpl in *. apply Forall_cons in Hs as [Hc Hs].
    destruct (IH s Hs) as [H1 H2]. split; [by constructor | lia].
Qed.

Lemma replace_space_cons c s :
  replace_from " " "_" 0 (String c s)
  = String (if Ascii.eqb c " " then "_"%char else c) (replace_from " " "_" 0 s).
Proof.
  cbn [replace_from].
  change (String.prefix " " (String c s))
    with (if ascii_dec " " c then String.prefix "" s else false).
  destruct (ascii_dec " " c) as [<-|Hne].
  - by assert (String.prefix "" s = true) as -> by by destruct s.
  - assert (Ascii.eqb c " " = false) as -> by (apply Ascii.eqb_neq; congruence).
    done.
Qed.

(** Replacing spaces by underscores keeps the length and leaves name
    characters only. *)
Lemma spaces_to_underscores s :
  Forall (fun c => name_char c \/ c = " "%char) (list_ascii_of_string s) ->
  Forall name_char (list_ascii_of_string (str_replace " " "_" s))
  /\ String.length (str_replace " " "_" s) = String.length s.
Proof.
  unfold str_replace. induction s as [|c s IH]; [by split; [constructor|]|].
  rewrite replace_space_cons. cbn [list_ascii_of_string String.length].
  intros [Hc Hs]%Forall_cons. destruct (IH Hs) as [H1 H2].
  split; [|by rewrite H2]. constructor; [|done].
  destruct (Ascii.eqb c " ") eqn:Heq; [right; by right|].
  destruct Hc as [Hc|Hc]; [done|]. subst c. by rewrite Ascii.eqb_refl in Heq.
Qed.

(** What a returning [save_project] did. *)
Lemma save_project_inversion e event script w dir metadata w' t :
  save_project e event script w = Run (Ret (dir, metadata)) w' t ->
  exists title items kept year prompt,
    dict_item event "title" = Ret title
    /\ iterate title = Ret items
    /\ join_kept items = Ret kept
    /\ dict_item event "year" = Ret year
    /\ generate_image_prompt e event = Ret prompt
    /\ dir = clock_stamp e ++ "_" ++ str_replace " " "_" (str_take 50 (rstrip kept))
    /\ metadata = [("id", VStr dir); ("title", title); ("year", year);
                   ("script", VStr script); ("image_prompt", VStr prompt);
                   ("created_at", VStr (clock_created e));
                   ("source_url", default (VStr "") (dict_get event "url"));
                   ("status", VStr "created")]
    /\ job_status w' = job_status w /\ job_queue w' = job_queue w
    /\ forall d n,
         read_file w' d n
         = if decide (d = dir /\ n = "script.txt") then Some (Blob script)
           else if decide (d = dir /\ n = "metadata.json")
                then Some (JsonDoc (VDict metadata))
                else read_file w d n.
Proof.
  unfold save_project.
  destruct (dict_item event "title") as [title|msg] eqn:Htitle; [step|by step].
  destruct (iterate title) as [items|msg] eqn:Hitems; [step|by step].
  destruct (join_kept items) as [kept|msg] eqn:Hkept; [step|by step].
  set (dir0 := clock_stamp e ++ "_" ++ _).
  check_site e MkdirProject; [by step|step].
  destruct (mkdir_cases e dir0 w) as [[msg Hmk]|(w1 & Hmk & Hs1 & Hq1 & Hr1)];
    [by step|step].
  destruct (dict_item event "year") as [year|msg] eqn:Hyear; [step|by step].
  destruct (generate_image_prompt e event) as [prompt|msg] eqn:Hprompt;
    [step|by step].
  match goal with |- context [JsonDoc (VDict ?md)] => set (metadata0 := md) end.
  check_site e WriteMetadata; [by step|step].
  destruct (write_file_cases e WriteMetadata dir0 "metadata.json"
              (JsonDoc (VDict metadata0)) w1)
    as [[msg Hwr]|[(msg & remains & w2 & _ & Hwr & _)
                  |(w2 & Hwr & _ & Hs2 & Hq2 & Hr2)]]; [by step|by step|step].
  check_site e WriteScript; [by step|step].
  destruct (write_file_cases e WriteScript dir0 "script.txt" (Blob script) w2)
    as [[msg Hws]|[(msg & remains & w3 & _ & Hws & _)
                  |(w3 & Hws & _ & Hs3 & Hq3 & Hr3)]]; [by step|by step|step].
  intros [= <- <- <- <-]. exists title, items, kept, year, prompt.
  repeat split; try done; try congruence.
  intros d n. rewrite Hr3. destruct (decide (d = dir0 /\ n = "script.txt")); [done|].
  rewrite Hr2. destruct (decide (d = dir0 /\ n = "metadata.json")); [done|].
  apply Hr1.
Qed.

(** X5. The directory [save_project] creates is named by the time stamp, an
    underscore and at most 50 characters taken from the title, each of them
    alphanumeric, a hyphen or an underscore: no separator, dot or space can
    come from the title. The [id] of the metadata record is that name. *)
Theorem project_directory_name_is_safe e event script w dir metadata w' t :
  save_project e event script w = Run (Ret (dir, metadata)) w' t ->
  exists safe_title,
    dir = clock_stamp e ++ "_" ++ safe_title
    /\ String.length safe_title <= 50
    /\ Forall name_char (list_ascii_of_string safe_title)
    /\ dict_get metadata "id" = Some (VStr dir).
Proof.
  intros Hsave.
  apply save_project_inversion in Hsave
    as (title & items & kept & year & prompt & _ & _ & Hkept & _ & _ & -> & -> & _).
  eexists. split; [reflexivity|].
  apply join_kept_chars in Hkept.
  apply (rstrip_chars _ kept) in Hkept.
  apply (str_take_chars _ 50) in Hkept as [Hchars Hlen].
  apply spaces_to_underscores in Hchars as [Hchars Hsame].
  split; [by rewrite Hsame|]. by split.
Qed.

Lemma project_directory_name_is_safe_witness :
  exists dir metadata w' t,
    save_project media_ok (get_historical_event media_ok) "A script." empty_world
    = Run (Ret (dir, metadata)) w' t
    /\ exists safe_title,
         dir = clock_stamp media_ok ++ "_" ++ safe_title
         /\ String.length safe_title <= 50
         /\ Forall name_char (list_ascii_of_string safe_title)
         /\ dict_get metadata "id" = Some (VStr dir).
Proof.
  eexists _, _, _, _.
  match goal with
  | |- ?lhs = _ /\ _ =>
      let r := eval vm_compute in lhs in
      match r with
      | Run (Ret (?d, ?m)) ?w ?t =>
          assert (lhs = Run (Ret (d, m)) w t) as Hrun by (vm_compute; reflexivity);
          split; [exact Hrun | exact (project_directory_name_is_safe _ _ _ _ _ _ _ _ Hrun)]
      end
  end.
Defined.

(** ** What the saving step stores *)

(** X6. When [save_project] returns, the project directory holds the script
    in [script.txt] and the returned record in [metadata.json]; the record
    carries the script, the title and year of the event and the status
    created. No other file of the store is touched, so files already in a
    directory of that name stay, and no job record or queue entry changes. *)
Theorem save_project_stores_script_and_metadata e event script w dir metadata w' t :
  save_project e event script w = Run (Ret (dir, metadata)) w' t ->
  read_file w' dir "script.txt" = Some (Blob script)
  /\ read_file w' dir "metadata.json" = Some (JsonDoc (VDict metadata))
  /\ dict_get metadata "script" = Some (VStr script)
  /\ dict_get metadata "title" = dict_get event "title"
  /\ dict_get metadata "year" = dict_get event "year"
  /\ dict_get metadata "status" = Some (VStr "created")
  /\ (forall d n, ~ (d = dir /\ (n = "script.txt" \/ n = "metadata.json")) ->
                  read_file w' d n = read_file w d n)
  /\ job_status w' = job_status w
  /\ job_queue w' = job_queue w.
Proof.
  intros Hsave.
  apply save_project_inversion in Hsave
    as (title & items & kept & year & prompt & Htitle & _ & _ & Hyear & _ & _ & Hmd
        & Hs & Hq & Hread).
  split; [by rewrite Hread, decide_True|].
  split.
  { rewrite Hread, decide_False by (by intros [_ ?]). by rewrite decide_True. }
  assert (forall k v, dict_item event k = Ret v -> dict_get event k = Some v) as Hget.
  { intros k v. unfold dict_item. by destruct (dict_get event k); intros [= <-]. }
  apply Hget in Htitle, Hyear. rewrite Htitle, Hyear, Hmd.
  do 4 (split; [done|]). split; [|done].
  intros d n Hother. rewrite Hread.
  rewrite !decide_False by (intros [? ?]; apply Hother; auto). done.
Qed.

Lemma save_project_stores_script_and_metadata_witness :
  exists dir metadata w' t,
    save_project media_ok (get_historical_event media_ok) "A script." empty_world
    = Run (Ret (dir, metadata)) w' t
    /\ read_file w' dir "script.txt" = Some (Blob "A script.")
    /\ read_file w' dir "metadata.json" = Some (JsonDoc (VDict metadata))
    /\ dict_get metadata "script" = Some (VStr "A script.")
    /\ dict_get metadata "title" = dict_get (get_historical_event media_ok) "title"
    /\ dict_get metadata "year" = dict_get (get_historical_event media_ok) "year"
    /\ dict_get metadata "status" = Some (VStr "created")
    /\ (forall d n, ~ (d = dir /\ (n = "script.txt" \/ n = "metadata.json")) ->
                    read_file w' d n = read_file empty_world d n)
    /\ job_status w' = job_status empty_world
    /\ job_queue w' = job_queue empty_world.
Proof.
  eexists _, _, _, _.
  match goal with
  | |- ?lhs = _ /\ _ =>
      let r := eval vm_compute in lhs in
      match r with
      | Run (Ret (?d, ?m)) ?w ?t =>
          assert (lhs = Run (Ret (d, m)) w t) as Hrun by (vm_compute; reflexivity);
          split; [exact Hrun
                 | exact (save_project_stores_script_and_metadata _ _ _ _ _ _ _ _ Hrun)]
      end
  end.
Defined.

(** ** The media generators *)

Lemma file_exists_read w dir name :
  file_exists w dir name = bool_decide (is_Some (read_file w dir name)).
Proof. unfold file_exists, read_file. destruct (lookup_dir w dir); [done|]. symmetry. apply bool_decide_eq_false. by intros [? ?]. Qed.

Lemma write_file_stores e site dir name c w :
  (exists msg, write_file e site dir name c w = Run (Raise msg) w [])
  \/ (exists msg remains w',
        write_fault e site = Some (msg, remains)
        /\ write_file e site dir name c w = Run (Raise msg) w' []
        /\ stores w w' dir name remains)
  \/ (exists w', write_file e site dir name c w = Run (Ret tt) w' []
                 /\ stores w w' dir name c).
Proof.
  destruct (write_file_cases e site dir name c w)
    as [?|[(msg & remains & w' & ? & ? & ? & ? & ?)|(w' & ? & ? & ? & ? & ?)]];
    [by left|right; left|right; right].
  - by exists msg, remains, w'.
  - by exists w'.
Qed.

Lemma tool_writes_stores dir name other w :
  file_exists w dir other = true ->
  exists w', tool_writes dir name w = Run (Ret tt) w' []
             /\ stores w w' dir name (Blob EmptyString).
Proof.
  intros Hother. unfold tool_writes, file_exists in *.
  destruct (lookup_dir w dir) as [files|] eqn:Hdir; [|done].
  destruct (projects w) as [tree|] eqn:Htree; [|by unfold lookup_dir in Hdir; rewrite Htree in Hdir].
  eexists. split; [done|]. repeat split. intros d n. by apply read_file_update.
Qed.

(** A run of the video tool returns what [subprocess.run] does; its output
    file is written when it succeeded, or when a failing run leaves its
    output behind, and nothing changes otherwise. *)
Lemma run_tool_cases e dir output other w :
  file_exists w dir other = true ->
  exists w1,
    run_tool e dir output w = Run (subprocess_run e) w1 []
    /\ if tool_succeeded e || tool_partial e
       then stores w w1 dir output (Blob EmptyString)
       else w1 = w.
Proof.
  intros Hother. unfold run_tool, tool_succeeded.
  destruct (tool_writes_stores dir output other w Hother) as (w1 & Hwrites & Hstores).
  destruct (subprocess_run e) as [result|msg].
  - destruct ((returncode result =? 0)%Z || tool_partial e); step; by eexists.
  - cbn [orb]. destruct (tool_partial e); step; by eexists.
Qed.

Lemma generate_image_cases e dir prompt w :
  exists ok detail w1,
    generate_image e dir prompt w = Run (Ret (ok, detail)) w1 []
    /\ if ok
       then exists text response,
              prompt = VStr text
              /\ image_get e = Ret response /\ status_code response = 200%Z
              /\ detail = path_of e dir "scene.jpg"
              /\ stores w w1 dir "scene.jpg" (Blob (content response))
       else failed_write e WriteImage w w1 dir "scene.jpg" detail.
Proof.
  unfold generate_image.
  destruct prompt as [| | | |text| |];
    try (erewrite run_try_raise by (step; reflexivity); eexists false, _, _;
         split; [done | by left]).
  destruct (image_get e) as [response|msg] eqn:Hget;
    [|erewrite run_try_raise by (step; reflexivity); eexists false, _, _;
      split; [done | by left]].
  destruct (status_code response =? 200)%Z eqn:Hcode;
    [|erewrite run_try_ret by (step; rewrite Hcode; reflexivity); eexists false, _, _;
      split; [done | by left]].
  apply Z.eqb_eq in Hcode as Hcode'.
  check_site e WriteImage;
    [erewrite run_try_raise by (step; rewrite Hcode; step; reflexivity);
     eexists false, _, _; split; [done | by left]|].
  destruct (write_file_stores e WriteImage dir "scene.jpg" (Blob (content response)) w)
    as [[msg Hwr]|[(msg & remains & w1 & Hfault & Hwr & Hstores)
                  |(w1 & Hwr & Hstores)]].
  - erewrite run_try_raise by (step; rewrite Hcode; step; reflexivity).
    eexists false, _, _. split; [done | by left].
  - erewrite run_try_raise by (step; rewrite Hcode; step; reflexivity).
    eexists false, _, _. split; [done|]. right. by exists remains.
  - erewrite run_try_ret by (step; rewrite Hcode; step; reflexivity).
    eexists true, _, _. split; [done|]. by eexists _, _.
Qed.

Lemma generate_voiceover_cases e dir script w :
  exists ok detail w1,
    generate_voiceover e dir script w = Run (Ret (ok, detail)) w1 []
    /\ if ok
       then exists response,
              api_key e <> EmptyString
              /\ voice_post e = Ret response /\ status_code response = 200%Z
              /\ detail = path_of e dir "voiceover.mp3"
              /\ stores w w1 dir "voiceover.mp3" (Blob (content response))
       else failed_write e WriteVoice w w1 dir "voiceover.mp3" detail.
Proof.
  unfold generate_voiceover.
  destruct (truthy (VStr (api_key e))) eqn:Htruthy; cbn [negb];
    [|eexists false, _, _; split; [done | by left]].
  assert (api_key e <> EmptyString) as Hkey.
  { intros Hempty. by rewrite Hempty in Htruthy. }
  destruct (voice_post e) as [response|msg] eqn:Hpost;
    [|erewrite run_try_raise by (step; reflexivity); eexists false, _, _;
      split; [done | by left]].
  destruct (status_code response =? 200)%Z eqn:Hcode;
    [|erewrite run_try_ret by (step; rewrite Hcode; reflexivity); eexists false, _, _;
      split; [done | by left]].
  apply Z.eqb_eq in Hcode as Hcode'.
  check_site e WriteVoice;
    [erewrite run_try_raise by (step; rewrite Hcode; step; reflexivity);
     eexists false, _, _; split; [done | by left]|].
  destruct (write_file_stores e WriteVoice dir "voiceover.mp3"
              (Blob (content response)) w)
    as [[msg Hwr]|[(msg & remains & w1 & Hfault & Hwr & Hstores)
                  |(w1 & Hwr & Hstores)]].
  - erewrite run_try_raise by (step; rewrite Hcode; step; reflexivity).
    eexists false, _, _. split; [done | by left].
  - erewrite run_try_raise by (step; rewrite Hcode; step; reflexivity).
    eexists false, _, _. split; [done|]. right. by exists remains.
  - erewrite run_try_ret by (step; rewrite Hcode; step; reflexivity).
    eexists true, _, _. split; [done|]. by eexists.
Qed.

Lemma load_json_cases e dir name w :
  exists v, load_json e dir name w = Run v w [].
Proof. unfold load_json. destruct (read_file w dir name) as [[?|?]|]; by eexists. Qed.

Ltac failed_here := eexists false, _, _; split; [done | by left].

Lemma create_video_cases e dir w :
  exists ok detail w1,
    create_video e dir w = Run (Ret (ok, detail)) w1 []
    /\ if ok
       then exists result,
              file_exists w dir "scene.jpg" = true
              /\ file_exists w dir "voiceover.mp3" = true
              /\ subprocess_run e = Ret result /\ returncode result = 0%Z
              /\ detail = path_of e dir "final_video.mp4"
              /\ stores w w1 dir "final_video.mp4" (Blob EmptyString)
       else w1 = w
            \/ (tool_partial e = true
                /\ stores w w1 dir "final_video.mp4" (Blob EmptyString)).
Proof.
  unfold create_video, try_except. step.
  destruct (file_exists w dir "scene.jpg") eqn:Himage; cbn [negb orb];
    [|failed_here].
  destruct (file_exists w dir "voiceover.mp3") eqn:Hvoice; cbn [negb orb];
    [|failed_here].
  check_site e ReadMetadata; step; [failed_here|].
  destruct (load_json_cases e dir "metadata.json" w) as [[metadata|msg] Hload];
    step; [|failed_here].
  destruct (py_item metadata "title") as [title|msg]; step; [|failed_here].
  destruct (py_item metadata "year") as [year|msg]; step; [|failed_here].
  destruct (run_tool_cases e dir "final_video.mp4" "scene.jpg" w Himage)
    as (w1 & Htool & Hfiles).
  unfold tool_succeeded in Hfiles.
  destruct (subprocess_run e) as [result|msg] eqn:Hrun; step.
  - destruct (returncode result =? 0)%Z eqn:Hcode; cbn [orb] in Hfiles.
    + eexists true, _, _. split; [done|]. exists result.
      apply Z.eqb_eq in Hcode. done.
    + eexists false, _, _. split; [done|].
      destruct (tool_partial e); [right | left]; done.
  - cbn [orb] in Hfiles. eexists false, _, _. split; [done|].
    destruct (tool_partial e); [right | left]; done.
Qed.

(** ** What each generator does to the store *)

(** X7. [generate_image] never raises and emits nothing. When it reports
    failure the state is as before, unless what failed is the write itself
    after [scene.jpg] had been opened: then the reported text is that of the
    write's failure, the file holds what the failed write left and nothing
    else has changed. When it reports success the prompt was a string, the
    provider answered 200, the result is the path of [scene.jpg] in the
    project directory, and that file, holding the bytes of the answer, is
    the only thing that changed. *)
Theorem generate_image_contract e dir prompt w :
  let r := generate_image e dir prompt w in
  emitted r = []
  /\ ((exists detail,
         value r = Ret (false, detail)
         /\ failed_write e WriteImage w (after r) dir "scene.jpg" detail)
      \/ (exists text response,
            value r = Ret (true, path_of e dir "scene.jpg")
            /\ prompt = VStr text
            /\ image_get e = Ret response /\ status_code response = 200%Z
            /\ stores w (after r) dir "scene.jpg" (Blob (content response)))).
Proof.
  intros r. subst r.
  destruct (generate_image_cases e dir prompt w) as (ok & detail & w1 & -> & Hcase).
  cbn [emitted value after]. split; [done|]. destruct ok.
  - destruct Hcase as (text & response & -> & Hget & Hcode & -> & Hstores).
    right. by exists text, response.
  - left. by exists detail.
Qed.

(** X8. [generate_voiceover] never raises and emits nothing. When it
    reports failure the state is as before, unless what failed is the write
    itself after [voiceover.mp3] had been opened: then the reported text is
    that of the write's failure, the file holds what the failed write left
    and nothing else has changed. When it reports success the API key is
    not empty, the provider answered 200, the result is the path of
    [voiceover.mp3] in the project directory, and that file, holding the
    bytes of the answer, is the only thing that changed. *)
Theorem generate_voiceover_contract e dir script w :
  let r := generate_voiceover e dir script w in
  emitted r = []
  /\ ((exists detail,
         value r = Ret (false, detail)
         /\ failed_write e WriteVoice w (after r) dir "voiceover.mp3" detail)
      \/ (exists response,
            value r = Ret (true, path_of e dir "voiceover.mp3")
            /\ api_key e <> EmptyString
            /\ voice_post e = Ret response /\ status_code response = 200%Z
            /\ stores w (after r) dir "voiceover.mp3" (Blob (content response)))).
Proof.
  intros r. subst r.
  destruct (generate_voiceover_cases e dir script w) as (ok & detail & w1 & -> & Hcase).
  cbn [emitted value after]. split; [done|]. destruct ok.
  - destruct Hcase as (response & Hkey & Hpost & Hcode & -> & Hstores).
    right. by exists response.
  - left. by exists detail.
Qed.

(** X9. [create_video] never raises and emits nothing. When it reports
    failure the state is as before, except that a run of the video tool
    that failed or was killed at the timeout may have left
    [final_video.mp4] in the project directory; nothing else changes. It
    reports success only if the image and the voice track were in the
    project directory and the video tool returned exit code 0; the result
    is then the path of [final_video.mp4], and that file is the only thing
    that changed. (The embedding takes a video tool that returns exit code
    0 to have written its output file.) *)
Theorem create_video_contract e dir w :
  let r := create_video e dir w in
  emitted r = []
  /\ ((exists detail,
         value r = Ret (false, detail)
         /\ (after r = w
             \/ (tool_partial e = true
                 /\ stores w (after r) dir "final_video.mp4" (Blob EmptyString))))
      \/ (exists result,
            value r = Ret (true, path_of e dir "final_video.mp4")
            /\ file_exists w dir "scene.jpg" = true
            /\ file_exists w dir "voiceover.mp3" = true
            /\ subprocess_run e = Ret result /\ returncode result = 0%Z
            /\ stores w (after r) dir "final_video.mp4" (Blob EmptyString))).
Proof.
  intros r. subst r.
  destruct (create_video_cases e dir w) as (ok & detail & w1 & -> & Hcase).
  cbn [emitted value after]. split; [done|]. destruct ok.
  - destruct Hcase as (result & Himage & Hvoice & Hrun & Hcode & -> & Hstores).
    right. by exists result.
  - left. by exists detail.
Qed.

(** ** The cloud video backend *)

Lemma unlink_removes dir name other w :
  file_exists w dir other = true ->
  exists w', unlink dir name w = Run (Ret tt) w' []
             /\ job_status w' = job_status w /\ job_queue w' = job_queue w
             /\ forall d n, read_file w' d n
                            = if decide (d = dir /\ n = name) then None
                              else read_file w d n.
Proof.
  intros Hother. unfold unlink, file_exists in *.
  destruct (lookup_dir w dir) as [files|] eqn:Hdir; [|done].
  destruct (projects w) as [tree|] eqn:Htree;
    [|by unfold lookup_dir in Hdir; rewrite Htree in Hdir].
  eexists. split; [done|]. repeat split. intros d n. by apply read_file_delete.
Qed.

Lemma stores_keeps_file w w1 dir name c other :
  stores w w1 dir name c -> file_exists w dir other = true ->
  file_exists w1 dir other = true.
Proof.
  intros (_ & _ & Hread). rewrite !file_exists_read, Hread.
  case_decide; [|done]. intros _. apply bool_decide_eq_true. by eexists.
Qed.

Lemma touches_only_refl w dir names : touches_only w w dir names.
Proof. by repeat split. Qed.

#[local] Hint Resolve touches_only_refl : core.

Ltac settle := rewrite ?app_nil_l_prepend; cbn [mret M_ret].

Ltac nova_failed :=
  settle; eexists _, _; split; [reflexivity|]; split; [done|]; done.

Lemma stores_touches w w1 dir name c names :
  stores w w1 dir name c -> name ∈ names -> touches_only w w1 dir names.
Proof.
  intros (Hs & Hq & Hread) Hname. split; [done|]. split; [done|].
  intros d n Hother. rewrite Hread. rewrite decide_False; [done|].
  intros [-> ->]. by apply Hother.
Qed.

Lemma touches_only_trans w1 w2 w3 dir names :
  touches_only w1 w2 dir names -> touches_only w2 w3 dir names ->
  touches_only w1 w3 dir names.
Proof.
  intros (Hs1 & Hq1 & Hr1) (Hs2 & Hq2 & Hr2).
  split; [congruence|]. split; [congruence|].
  intros d n Hother. by rewrite Hr2, Hr1.
Qed.

Lemma nova_fetch_cases e dir metadata status_response w :
  file_exists w dir "voiceover.mp3" = true ->
  exists v w1,
    nova_fetch e dir metadata status_response w = Run v w1 []
    /\ touches_only w w1 dir ["nova_temp.mp4"; "final_video.mp4"]
    /\ forall detail,
         v = Ret (true, detail) ->
         detail = VStr (path_of e dir "final_video.mp4")
         /\ read_file w1 dir "final_video.mp4" = Some (Blob EmptyString)
         /\ exists result, subprocess_run e = Ret result /\ returncode result = 0%Z.
Proof.
  intros Hvoice. unfold nova_fetch.
  destruct (py_item status_response "outputDataConfig") as [output|msg]; step;
    [|nova_failed].
  destruct (py_item output "s3OutputDataConfig") as [s3_output|msg]; step;
    [|nova_failed].
  destruct (py_item s3_output "s3Uri") as [s3_uri|msg]; step; [|nova_failed].
  unfold check at 1. destruct (s3_client e) as [msg|]; step; [nova_failed|].
  destruct s3_uri as [| | | |uri| |]; step; try nova_failed.
  destruct (split_once "/" (str_replace "s3://" "" uri)).2 as [key|]; step;
    [|nova_failed].
  unfold check. destruct (s3_download e) as [msg|]; step; [nova_failed|].
  destruct (tool_writes_stores dir "nova_temp.mp4" "voiceover.mp3" w Hvoice)
    as (w1 & Htemp & Hstores1).
  pose proof (stores_keeps_file _ _ _ _ _ _ Hstores1 Hvoice) as Hvoice1.
  assert (touches_only w w1 dir ["nova_temp.mp4"; "final_video.mp4"]) as Hframe1.
  { eapply stores_touches; [done|]. apply list_elem_of_here. }
  step.
  destruct (py_item metadata "title") as [title|msg]; step; [|nova_failed].
  destruct (py_item metadata "year") as [year|msg]; step; [|nova_failed].
  destruct (run_tool_cases e dir "final_video.mp4" "voiceover.mp3" w1 Hvoice1)
    as (w2 & Htool & Hfiles).
  assert (touches_only w w2 dir ["nova_temp.mp4"; "final_video.mp4"]
          /\ file_exists w2 dir "voiceover.mp3" = true) as [Hframe2 Hvoice2].
  { destruct (tool_succeeded e || tool_partial e); [|by subst w2].
    split; [|by eapply stores_keeps_file].
    eapply touches_only_trans; [done|]. eapply stores_touches; [done|].
    apply list_elem_of_further, list_elem_of_here. }
  unfold tool_succeeded in Hfiles.
  destruct (subprocess_run e) as [result|msg] eqn:Hrun; step; [|nova_failed].
  check_site e UnlinkTemp; step; [nova_failed|].
  destruct (unlink_removes dir "nova_temp.mp4" "voiceover.mp3" w2 Hvoice2)
    as (w3 & Hunlink & Hs3 & Hq3 & Hr3).
  assert (touches_only w w3 dir ["nova_temp.mp4"; "final_video.mp4"]) as Hframe3.
  { eapply touches_only_trans; [done|]. split; [done|]. split; [done|].
    intros d n Hother. rewrite Hr3. rewrite decide_False; [done|].
    intros [-> ->]. apply Hother. split; [done|]. apply list_elem_of_here. }
  step. settle. destruct (returncode result =? 0)%Z eqn:Hcode.
  - eexists _, _. split; [reflexivity|]. split; [done|].
    intros detail [= <-]. split; [done|]. split.
    + rewrite Hr3, decide_False by (by intros [_ ?]).
      cbn [orb] in Hfiles. destruct Hfiles as (_ & _ & Hr2).
      by rewrite Hr2, decide_True.
    + exists result. by apply Z.eqb_eq in Hcode.
  - eexists _, _. split; [reflexivity|]. split; [done|]. by intros detail [=].
Qed.

Lemma nova_wait_cases e dir metadata remaining :
  forall attempt w,
    file_exists w dir "voiceover.mp3" = true ->
    exists v w1,
      nova_wait e dir metadata remaining attempt w = Run v w1 []
      /\ touches_only w w1 dir ["nova_temp.mp4"; "final_video.mp4"]
      /\ forall detail,
           v = Ret (true, detail) ->
           detail = VStr (path_of e dir "final_video.mp4")
           /\ read_file w1 dir "final_video.mp4" = Some (Blob EmptyString)
           /\ exists result, subprocess_run e = Ret result /\ returncode result = 0%Z.
Proof.
  induction remaining as [|remaining IH]; intros attempt w Hvoice; cbn [nova_wait].
  { eexists _, _. split; [reflexivity|]. split; [done|]. by intros detail [=]. }
  destruct (nova_poll e attempt) as [status_response|msg]; step; [|nova_failed].
  destruct (py_item status_response "status") as [st|msg]; step; [|nova_failed].
  settle. destruct (is_str st "Completed"); [by apply nova_fetch_cases|].
  destruct (is_str st "Failed" || is_str st "Error"); [|by apply IH].
  destruct (py_get status_response "failureMessage" _) as [reason|msg]; step;
    [|nova_failed].
  settle. eexists _, _. split; [reflexivity|]. split; [done|]. by intros detail [=].
Qed.

Lemma create_video_with_nova_cases e dir w :
  exists ok detail w1,
    create_video_with_nova e dir w = Run (Ret (ok, detail)) w1 []
    /\ touches_only w w1 dir ["nova_temp.mp4"; "final_video.mp4"]
    /\ (ok = true ->
        boto3_installed e = true
        /\ file_exists w dir "voiceover.mp3" = true
        /\ detail = VStr (path_of e dir "final_video.mp4")
        /\ read_file w1 dir "final_video.mp4" = Some (Blob EmptyString)
        /\ exists result, subprocess_run e = Ret result /\ returncode result = 0%Z).
Proof.
  unfold create_video_with_nova.
  destruct (boto3_installed e); cbn [negb]; [|by eexists false, _, _].
  unfold try_except. step.
  destruct (file_exists w dir "voiceover.mp3") eqn:Hvoice; cbn [negb];
    [|by eexists false, _, _].
  check_site e ReadMetadata; step; [by eexists false, _, _|].
  destruct (load_json_cases e dir "metadata.json" w) as [[metadata|msg] Hload];
    step; [|by eexists false, _, _].
  destruct (py_get metadata "image_prompt" _) as [video_prompt|msg]; step;
    [|by eexists false, _, _].
  destruct (py_slice_to 400 video_prompt) as [sliced|msg]; step;
    [|by eexists false, _, _].
  destruct (nova_start e) as [response|msg]; step; [|by eexists false, _, _].
  destruct (py_item response "invocationArn") as [arn|msg]; step;
    [|by eexists false, _, _].
  settle.
  destruct (nova_wait_cases e dir metadata 60 0 w Hvoice)
    as (v & w1 & Hwait & Hframe & Hdone).
  rewrite Hwait. cbn [value after emitted].
  destruct v as [[ok detail]|msg]; simpl.
  - exists ok, detail, w1. split; [done|]. split; [done|].
    intros ->. split; [done|]. split; [done|]. by apply Hdone.
  - by exists false, (VStr msg), w1.
Qed.

Lemma nova_wait_in_progress e dir metadata remaining :
  forall attempt w,
    (forall k, attempt <= k < attempt + remaining ->
               exists answer, nova_poll e k = Ret answer /\ in_progress answer) ->
    nova_wait e dir metadata remaining attempt w
    = Run (Ret (false, VStr "Timeout waiting for Nova")) w [].
Proof.
  induction remaining as [|remaining IH]; intros attempt w Hpolls; cbn [nova_wait];
    [done|].
  destruct (Hpolls attempt) as (answer & Hpoll & st & Hstatus & H1 & H2 & H3); [lia|].
  rewrite Hpoll. step. rewrite Hstatus. step. settle. rewrite H1, H2, H3. simpl.
  apply IH. intros k Hk. apply Hpolls. lia.
Qed.

(** X10. The cloud backend is polled at most 60 times: when the request was
    accepted and each of the polls 0 to 59 answers with a status other than
    [Completed], [Failed] and [Error], [create_video_with_nova] returns the
    failure [Timeout waiting for Nova], leaves the store as it was and
    does not raise. *)
Theorem nova_gives_up_after_60_polls e dir w metadata text response arn :
  boto3_installed e = true ->
  file_exists w dir "voiceover.mp3" = true ->
  io_fault e ReadMetadata = None ->
  read_file w dir "metadata.json" = Some (JsonDoc metadata) ->
  py_get metadata "image_prompt" (VStr "") = Ret (VStr text) ->
  nova_start e = Ret response ->
  py_item response "invocationArn" = Ret arn ->
  (forall attempt, attempt < 60 ->
                   exists answer, nova_poll e attempt = Ret answer /\ in_progress answer) ->
  create_video_with_nova e dir w
  = Run (Ret (false, VStr "Timeout waiting for Nova")) w [].
Proof.
  intros Hboto Hvoice Hfault Hmeta Hprompt Hstart Harn Hpolls.
  unfold create_video_with_nova. rewrite Hboto. cbn [negb].
  unfold try_except. step. rewrite Hvoice. cbn [negb].
  unfold check_io. rewrite Hfault. step.
  assert (load_json e dir "metadata.json" w = Run (Ret metadata) w []) as Hload.
  { unfold load_json. by rewrite Hmeta. }
  step. rewrite Hprompt. step. cbn [py_slice_to]. step. rewrite Hstart. step.
  rewrite Harn. step. settle.
  rewrite nova_wait_in_progress; [done|]. intros k Hk. apply Hpolls. lia.
Qed.

Lemma nova_gives_up_after_60_polls_witness :
  create_video_with_nova nova_pending "20261104_120000_The_Moon_Landing" two_projects
  = Run (Ret (false, VStr "Timeout waiting for Nova")) two_projects [].
Proof.
  refine (nova_gives_up_after_60_polls nova_pending "20261104_120000_The_Moon_Landing"
            two_projects
            (VDict [("id", VStr "20261104_120000_The_Moon_Landing");
                    ("status", VStr "completed")])
            EmptyString
            (VDict [("invocationArn", VStr "arn:aws:bedrock:us-east-1:async-invoke/1")])
            (VStr "arn:aws:bedrock:us-east-1:async-invoke/1") _ _ _ _ _ _ _ _);
    try (vm_compute; reflexivity).
  intros attempt _. eexists. split; [reflexivity|].
  exists (VStr "InProgress"). by vm_compute.
Defined.

(** X11. [create_video_with_nova] never raises and emits nothing. Whatever
    it returns, it leaves the job records, the queue and every file alone
    except [nova_temp.mp4] and [final_video.mp4] of the project directory.
    It reports success only if the voice track was there and the video tool
    returned exit code 0, and then the final video is in the directory and
    the result is its path. (The embedding takes a video tool that returns
    exit code 0 to have written its output file.) *)
Theorem create_video_with_nova_contract e dir w :
  let r := create_video_with_nova e dir w in
  emitted r = []
  /\ touches_only w (after r) dir ["nova_temp.mp4"; "final_video.mp4"]
  /\ exists ok detail,
       value r = Ret (ok, detail)
       /\ (ok = true ->
           detail = VStr (path_of e dir "final_video.mp4")
           /\ file_exists w dir "voiceover.mp3" = true
           /\ file_exists (after r) dir "final_video.mp4" = true
           /\ exists result, subprocess_run e = Ret result /\ returncode result = 0%Z).
Proof.
  intros r. subst r.
  destruct (create_video_with_nova_cases e dir w)
    as (ok & detail & w1 & -> & Hframe & Hok).
  cbn [emitted value after]. split; [done|]. split; [done|].
  exists ok, detail. split; [done|]. intros Htrue.
  destruct (Hok Htrue) as (_ & Hvoice & -> & Hread & Htool).
  split; [done|]. split; [done|]. split; [|done].
  rewrite file_exists_read, Hread. apply bool_decide_eq_true. by eexists.
Qed.

(** ** What a completed job leaves behind *)

#[local] Opaque generate_image generate_voiceover create_video create_video_with_nova.

Lemma stores_file_exists w w1 dir name c :
  stores w w1 dir name c -> file_exists w1 dir name = true.
Proof.
  intros (_ & _ & Hread). rewrite file_exists_read, Hread, decide_True by done.
  apply bool_decide_eq_true. by eexists.
Qed.

Lemma touches_only_keeps_file w w1 dir names d other :
  touches_only w w1 dir names -> other ∉ names ->
  file_exists w1 d other = file_exists w d other.
Proof.
  intros (_ & _ & Hread) Hother. rewrite !file_exists_read, Hread; [done|].
  by intros [_ ?].
Qed.

(** The run has ended and the last record written for the job is not the
    completed one. *)
Ltac not_completed :=
  tidy; unfold set_status; tidy;
  repeat match goal with
    | H : stores _ ?w _ _ _ |- context [job_status ?w] =>
        let Hs := fresh in destruct H as (Hs & _ & _); cbn [job_status] in Hs; rewrite Hs
    | H : touches_only _ ?w _ _ |- context [job_status ?w] =>
        let Hs := fresh in destruct H as (Hs & _ & _); cbn [job_status] in Hs; rewrite Hs
    end;
  rewrite lookup_insert_eq; by intros [= <-].

(** The last steps of a run whose three generators succeeded. *)
Ltac finish_job e dir metadata w3 Himage3 Hvoice3 Hvideo3 Htool :=
  tidy; check_site e UpdateMetadata; next; [not_completed|];
  fold (completed_metadata e metadata);
  let w4 := fresh "w4" in let Hwr := fresh "Hwr" in let Hstores4 := fresh "Hstores4" in
  destruct (write_file_stores e UpdateMetadata dir "metadata.json"
              (JsonDoc (VDict (completed_metadata e metadata))) w3)
    as [[?msg Hwr]|[(?msg & ?remains & w4 & ?Hfault & Hwr & Hstores4)
                   |(w4 & Hwr & Hstores4)]]; next; [not_completed|not_completed|];
  let Hid := fresh "Hid" in let Htitle := fresh "Htitle" in let Hyear := fresh "Hyear" in
  assert (dict_item (completed_metadata e metadata) "id" = Ret (VStr dir)
          /\ dict_item (completed_metadata e metadata) "title" = Ret (field metadata "title")
          /\ dict_item (completed_metadata e metadata) "year" = Ret (field metadata "year"))
    as (Hid & Htitle & Hyear) by (by subst metadata);
  rewrite Hid; next; rewrite Htitle; next; rewrite Hyear; next;
  tidy; unfold set_status; tidy;
  rewrite lookup_insert_eq; intros [= <-] _;
  split; [done|]; split; [done|]; split; [|exact Htool];
  split;
    [exists (completed_metadata e metadata); split;
       [destruct Hstores4 as (_ & _ & Hread4);
        change (read_file w4 dir "metadata.json"
                = Some (JsonDoc (VDict (completed_metadata e metadata))));
        by rewrite Hread4, decide_True
       |by subst metadata]
    |repeat split;
       match goal with
       | |- file_exists _ dir ?n = true => change (file_exists w4 dir n = true)
       end;
       eapply stores_keeps_file; eauto].


Lemma process_job_generate_artifacts e job use_nova dir metadata script w :
  created_record dir metadata ->
  forall record,
    let r := process_job_generate e job use_nova dir metadata script w in
    job_status (after r) !! job = Some record ->
    status record = Some "completed" ->
    value r = Ret tt
    /\ dict_get record "project_id" = Some (VStr dir)
    /\ complete_project (after r) dir
    /\ api_key e <> EmptyString
    /\ exists result, subprocess_run e = Ret result /\ returncode result = 0%Z.
Proof.
  intros Hcreated record r. subst r. unfold process_job_generate.
  pose proof Hcreated as (title & year & scr & prompt & created & url & Hmd).
  assert (dict_item metadata "image_prompt" = Ret (VStr prompt)) as Hprompt by by subst.
  rewrite Hprompt. next.
  match goal with
  | |- context [mbind _ (generate_image e dir ?p) ?w0] =>
      destruct (generate_image_cases e dir p w0) as (ok1 & s1 & w1 & Hrun1 & Hcase1)
  end.
  next. destruct ok1; cbn [negb]; next; [|not_completed].
  destruct Hcase1 as (text & response1 & _ & _ & _ & _ & Hstores1).
  apply stores_file_exists in Hstores1 as Himage1.
  match goal with
  | |- context [mbind _ (generate_voiceover e dir ?p) ?w0] =>
      destruct (generate_voiceover_cases e dir p w0) as (ok2 & s2 & w2 & Hrun2 & Hcase2)
  end.
  next. destruct ok2; cbn [negb]; next; [|not_completed].
  destruct Hcase2 as (response2 & Hkey & _ & _ & _ & Hstores2).
  apply stores_file_exists in Hstores2 as Hvoice2.
  apply (stores_keeps_file _ _ _ _ _ "scene.jpg") in Hstores2 as Himage2; [|exact Himage1].
destruct (truthy use_nova); next.
  - match goal with
    | |- context [mbind _ (create_video_with_nova e dir) ?w0] =>
        destruct (create_video_with_nova_cases e dir w0)
          as (ok3 & detail3 & w3 & Hrun3 & Hframe3 & Hok3)
    end.
    next. destruct ok3; cbn [negb]; next; [|not_completed].
    destruct (Hok3 eq_refl) as (_ & _ & _ & Hread3 & Hexit).
    pose proof (conj Hkey Hexit) as Htool.
    assert (file_exists w3 dir "scene.jpg" = true) as Himage3.
    { rewrite (touches_only_keeps_file _ _ _ _ _ _ Hframe3); [exact Himage2|].
      intros Hin. by repeat (apply elem_of_cons in Hin as [Hin|Hin]; [done|]);
        apply elem_of_nil in Hin. }
    assert (file_exists w3 dir "voiceover.mp3" = true) as Hvoice3.
    { rewrite (touches_only_keeps_file _ _ _ _ _ _ Hframe3); [exact Hvoice2|].
      intros Hin. by repeat (apply elem_of_cons in Hin as [Hin|Hin]; [done|]);
        apply elem_of_nil in Hin. }
    assert (file_exists w3 dir "final_video.mp4" = true) as Hvideo3.
    { rewrite file_exists_read, Hread3. apply bool_decide_eq_true. by eexists. }
    finish_job e dir metadata w3 Himage3 Hvoice3 Hvideo3 Htool.
  - match goal with
    | |- context [mbind _ (create_video e dir) ?w0] =>
        destruct (create_video_cases e dir w0) as (ok3 & detail3 & w3 & Hrun3 & Hcase3)
    end.
    next. destruct ok3; cbn [negb]; next; [|not_completed].
    destruct Hcase3 as (result & _ & _ & Hrun & Hcode & _ & Hstores3).
    assert (api_key e <> EmptyString
            /\ exists result, subprocess_run e = Ret result /\ returncode result = 0%Z)
      as Htool by eauto.
    apply stores_file_exists in Hstores3 as Hvideo3.
    apply (stores_keeps_file _ _ _ _ _ "scene.jpg") in Hstores3 as Himage3;
      [|exact Himage2].
    apply (stores_keeps_file _ _ _ _ _ "voiceover.mp3") in Hstores3 as Hvoice3;
      [|exact Hvoice2].
    finish_job e dir metadata w3 Himage3 Hvoice3 Hvideo3 Htool.
Qed.

Lemma process_job_try_artifacts e job auto_generate use_nova w :
  forall record,
    let r := process_job_try e job auto_generate use_nova w in
    job_status (after r) !! job = Some record ->
    status record = Some "completed" ->
    value r = Ret tt
    /\ exists dir,
         dict_get record "project_id" = Some (VStr dir)
         /\ complete_project (after r) dir
         /\ api_key e <> EmptyString
         /\ exists result, subprocess_run e = Ret result /\ returncode result = 0%Z.
Proof.
  intros record r. subst r. unfold process_job_try.
  destruct (generate_script_core e _ (get_historical_event_core e)) as [script Hscript].
  rewrite Hscript. next.
  match goal with
  | |- context [mbind _ (save_project ?e ?ev ?s) ?w] =>
      destruct (save_project e ev s w) as [v w1 t] eqn:Hsave;
      destruct (save_project_cases _ _ _ _ _ _ _ Hsave) as (Hs1 & Hq1 & Hcases)
  end.
  cbn [job_status] in Hs1.
  destruct Hcases as [(msg & -> & -> & Hfiles)
                     |(dir & metadata & Hcreated & Hmeta & [(msg & -> & ->)|[-> ->]])];
    next.
  - tidy. rewrite Hs1, lookup_insert_eq. by intros [= <-].
  - tidy. rewrite Hs1, lookup_insert_eq. by intros [= <-].
  - destruct auto_generate.
    + tidy. intros Hrecord Hcompleted.
      destruct (process_job_generate_artifacts e job use_nova dir metadata script w1
                  Hcreated record Hrecord Hcompleted) as (Hvalue & Hid & Hrest).
      split; [done|]. by exists dir.
    + pose proof Hcreated as (title & year & scr & prompt & created & url & Hmd).
      assert (dict_item metadata "id" = Ret (field metadata "id")
              /\ dict_item metadata "title" = Ret (field metadata "title")
              /\ dict_item metadata "year" = Ret (field metadata "year"))
        as (Hid & Htitle & Hyear) by by subst metadata.
      rewrite Hid. next. rewrite Htitle. next. rewrite Hyear. next.
      not_completed.
Qed.

(** A run of [process_job] that ends with a completed record. *)
Lemma process_job_completed e job auto_generate use_nova w :
  let r := process_job e job auto_generate use_nova w in
  status (get_status (after r) job) = Some "completed" ->
  exists dir,
    dict_get (get_status (after r) job) "project_id" = Some (VStr dir)
    /\ complete_project (after r) dir
    /\ api_key e <> EmptyString
    /\ exists result, subprocess_run e = Ret result /\ returncode result = 0%Z.
Proof.
  intros r. subst r. unfold process_job. next.
  match goal with
  | |- context [try_except (process_job_try ?e ?j ?a ?n) ?h ?w] =>
      pose proof (process_job_try_artifacts e j a n w) as Htry;
      destruct (process_job_try e j a n w) as [[[]|msg] w1 t] eqn:Hrun
  end.
  - erewrite run_try_ret by exact Hrun. tidy. unfold get_status.
    cbn [after value] in Htry.
    destruct (job_status w1 !! job) as [record|] eqn:Hrecord; [|done].
    cbn [default]. intros Hcompleted.
    by destruct (Htry record eq_refl Hcompleted) as (_ & Hdone).
  - erewrite run_try_raise by exact Hrun. tidy. unfold set_status, get_status. tidy.
    by rewrite lookup_insert_eq.
Qed.

(** X12. A job whose record ends as completed has left a finished project:
    the [project_id] of the record names a directory of the store that holds
    the image, the voice track, the final video and a metadata record marked
    completed with that id, and the video tool returned exit code 0. (The
    final video is there because the embedding takes a video tool that
    returns exit code 0 to have written its output file.) *)
Theorem completed_job_has_its_artifacts e job auto_generate use_nova w :
  let r := process_job e job auto_generate use_nova w in
  status (get_status (after r) job) = Some "completed" ->
  exists dir,
    dict_get (get_status (after r) job) "project_id" = Some (VStr dir)
    /\ complete_project (after r) dir
    /\ exists result, subprocess_run e = Ret result /\ returncode result = 0%Z.
Proof.
  intros r Hcompleted.
  destruct (process_job_completed e job auto_generate use_nova w Hcompleted)
    as (dir & Hid & Hproject & _ & Htool).
  by exists dir.
Qed.

Lemma completed_job_has_its_artifacts_witness :
  exists dir,
    dict_get (get_status (after (process_job media_ok "job_1" true (VBool false)
                                   empty_world)) "job_1") "project_id"
    = Some (VStr dir)
    /\ complete_project
         (after (process_job media_ok "job_1" true (VBool false) empty_world)) dir
    /\ exists result, subprocess_run media_ok = Ret result /\ returncode result = 0%Z.
Proof.
  apply (completed_job_has_its_artifacts media_ok "job_1" true (VBool false)
           empty_world).
  vm_compute. reflexivity.
Defined.

(** X13. Without an API key for the voice provider no job completes: when
    [health_check] reports [elevenlabs] as false, every run of [process_job]
    with [auto_generate] true ends with status error, whatever the other
    providers answer. *)
Theorem no_api_key_no_completed_job e job use_nova w :
  dict_get (health_check e) "elevenlabs" = Some (VBool false) ->
  status (get_status (after (process_job e job true use_nova w)) job) = Some "error".
Proof.
  intros Hhealth.
  assert (api_key e = EmptyString) as Hkey.
  { unfold health_check in Hhealth. cbn [dict_get String.eqb Ascii.eqb Bool.eqb] in Hhealth.
    injection Hhealth as Hhealth. cbn [truthy] in Hhealth.
    apply negb_false_iff, String.eqb_eq in Hhealth. done. }
  pose proof (process_job_completed e job true use_nova w) as Hcompleted.
  cbv zeta in Hcompleted. revert Hcompleted.
  on_paths e job true use_nova w. intros Hcompleted.
  unfold get_status in *. rewrite Hstatus, lookup_insert_eq in *. cbn [default] in *.
  destruct p as [written msg| | | |? ? ? ? nova ?|? ? ? ? nova ? ?|? ? ? ? nova ?];
    try done.
  - by destruct Hpath.
  - by destruct (Hcompleted eq_refl) as (project & _ & _ & Hset & _).
Qed.

Lemma no_api_key_no_completed_job_witness :
  status (get_status (after (process_job no_api_key "job_1" true (VBool false)
                               empty_world)) "job_1")
  = Some "error".
Proof.
  apply (no_api_key_no_completed_job no_api_key "job_1" (VBool false) empty_world).
  reflexivity.
Defined.

(** ** Looking a project up *)

Lemma prefix_app (a b : string) :
  String.prefix a b = true <-> exists c, b = a ++ c.
Proof.
  revert b. induction a as [|x a IH]; intros b.
  - split; [by exists b | by destruct b].
  - destruct b as [|y b]; simpl.
    + split; [done | by intros [c [=]]].
    + destruct (ascii_dec x y) as [->|Hne].
      * rewrite IH. split; intros [c Hc]; exists c.
        -- by rewrite Hc.
        -- change (String y b = String y (a ++ c)) in Hc. congruence.
      * split; [done|]. intros [c Hc].
        change (String y b = String x (a ++ c)) in Hc. congruence.
Qed.

(** [str_contains] decides whether one string occurs in another. *)
Lemma str_contains_occurs (sub s : string) :
  str_contains sub s = true <-> occurs_in sub s.
Proof.
  split.
  - induction s as [|c s IH]; cbn [str_contains]; intros H%orb_true_iff.
    + destruct H as [H|H]; [|done]. apply prefix_app in H as [b ->].
      by exists EmptyString, b.
    + destruct H as [H|H].
      * apply prefix_app in H as [b ->]. by exists EmptyString, b.
      * destruct (IH H) as (a & b & ->). by exists (String c a), b.
  - intros (a & b & ->). induction a as [|c a IH].
    + change (EmptyString ++ sub ++ b) with (sub ++ b).
      assert (String.prefix sub (sub ++ b) = true) as Hp.
      { apply prefix_app. by exists b. }
      destruct (sub ++ b); cbn [str_contains]; by rewrite Hp.
    + change (String c a ++ sub ++ b) with (String c (a ++ sub ++ b)).
      cbn [str_contains]. rewrite IH. apply orb_true_r.
Qed.

Lemma is_dir_in_tree w tree d :
  projects w = Some tree -> is_dir w d = true -> d ∈ iterdir tree.
Proof.
  intros Htree Hdir. unfold is_dir, lookup_dir in Hdir. rewrite Htree in Hdir.
  apply bool_decide_eq_true in Hdir.
  destruct (tree !! d) as [entry|] eqn:Hlookup; [|by destruct Hdir].
  unfold iterdir. apply list_elem_of_fmap. exists (d, entry). split; [done|].
  by apply elem_of_map_to_list.
Qed.

Lemma file_exists_is_dir w d n : file_exists w d n = true -> is_dir w d = true.
Proof.
  unfold file_exists, is_dir. destruct (lookup_dir w d); [|done].
  intros _. apply bool_decide_eq_true. by eexists.
Qed.

Lemma get_project_from_cases e w project_id names :
  (get_project_from e w project_id names
   = Ret (Json (VDict [("error", VStr "Project not found")]) 404)
   /\ forall d, d ∈ names -> listed w d -> str_contains project_id d = false)
  \/ exists d,
       d ∈ names /\ listed w d /\ str_contains project_id d = true
       /\ match read_file w d "metadata.json" with
          | Some (JsonDoc (VDict metadata)) =>
              get_project_from e w project_id names
              = Ret (Json (VDict (dict_set metadata "path"
                                    (VStr (projects_path e ++ "/" ++ d)))) 200)
          | _ => exists msg, get_project_from e w project_id names = Raise msg
          end.
Proof.
  induction names as [|d names IH]; cbn [get_project_from].
  { left. split; [done|]. by intros d ?%elem_of_nil. }
  destruct (decide (listed w d /\ str_contains project_id d = true))
    as [[[Hdir Hmeta] Hin]|Hno].
  - right. exists d. split; [apply list_elem_of_here|]. split; [done|]. split; [done|].
    rewrite Hdir, Hin, Hmeta. cbn [andb].
    destruct (read_file w d "metadata.json") as [[v|data]|]; simpl; [|by eexists..].
    destruct v; simpl; by eexists.
  - assert (forall r : result reply,
              (if is_dir w d && str_contains project_id d
               then if file_exists w d "metadata.json" then r
                    else get_project_from e w project_id names
               else get_project_from e w project_id names)
              = get_project_from e w project_id names) as ->.
    { intros r. destruct (is_dir w d) eqn:Hdir, (str_contains project_id d) eqn:Hin;
        cbn [andb]; try done.
      destruct (file_exists w d "metadata.json") eqn:Hmeta; [|done].
      destruct Hno. by repeat split. }
    destruct IH as [[Hnone Hall]|(d' & Hd' & Hrest)].
    + left. split; [done|]. intros d0 [->|Hd0]%elem_of_cons; [|by apply Hall].
      intros Hlisted. destruct (str_contains project_id d) eqn:Hin; [|done].
      by destruct Hno.
    + right. exists d'. split; [by apply list_elem_of_further | done].
Qed.

(** X14. [get_project] answers with a project whose directory name contains
    the requested id as a substring, not necessarily the one whose name is
    the id. When no directory holding a metadata record has such a name the
    answer is the error body with status 404. Otherwise one such directory
    decides: if its record is a JSON object the answer is the record with
    [path] set to the path of the directory, with status 200, and if the
    record does not parse or is no object the handler raises. When the
    projects directory itself is missing the handler raises. *)
Theorem get_project_matches_by_substring e w project_id :
  match projects w with
  | None => exists msg, get_project e w project_id = Raise msg
  | Some _ =>
      (get_project e w project_id
       = Ret (Json (VDict [("error", VStr "Project not found")]) 404)
       /\ forall d, listed w d -> ~ occurs_in project_id d)
      \/ exists d,
           listed w d /\ occurs_in project_id d
           /\ match read_file w d "metadata.json" with
              | Some (JsonDoc (VDict metadata)) =>
                  get_project e w project_id
                  = Ret (Json (VDict (dict_set metadata "path"
                                        (VStr (projects_path e ++ "/" ++ d)))) 200)
              | _ => exists msg, get_project e w project_id = Raise msg
              end
  end.
Proof.
  unfold get_project. destruct (projects w) as [tree|] eqn:Htree; [|by eexists].
  destruct (get_project_from_cases e w project_id (iterdir tree))
    as [[Hnone Hall]|(d & Hd & Hlisted & Hin & Hrun)].
  - left. split; [done|]. intros d Hlisted Hin%str_contains_occurs.
    rewrite Hall in Hin; [done| |done]. by eapply listed_in_tree.
  - right. exists d. split; [done|]. split; [by apply str_contains_occurs | done].
Qed.

Lemma download_video_from_cases w project_id names :
  (download_video_from w project_id names
   = Json (VDict [("error", VStr "Video not found")]) 404
   /\ forall d, d ∈ names -> file_exists w d "final_video.mp4" = true ->
                str_contains project_id d = false)
  \/ exists d,
       d ∈ names /\ file_exists w d "final_video.mp4" = true
       /\ str_contains project_id d = true
       /\ download_video_from w project_id names = Attachment d "final_video.mp4".
Proof.
  induction names as [|d names IH]; cbn [download_video_from].
  { left. split; [done|]. by intros d ?%elem_of_nil. }
  destruct (file_exists w d "final_video.mp4") eqn:Hvideo.
  - rewrite (file_exists_is_dir _ _ _ Hvideo). cbn [andb].
    destruct (str_contains project_id d) eqn:Hin.
    + right. exists d. split; [apply list_elem_of_here | done].
    + destruct IH as [[Hnone Hall]|(d' & Hd' & Hrest)].
      * left. split; [done|]. intros d0 [->|Hd0]%elem_of_cons; [done | by apply Hall].
      * right. exists d'. split; [by apply list_elem_of_further | done].
  - assert ((if is_dir w d && str_contains project_id d
             then download_video_from w project_id names
             else download_video_from w project_id names)
            = download_video_from w project_id names) as ->.
    { by destruct (is_dir w d && str_contains project_id d). }
    destruct IH as [[Hnone Hall]|(d' & Hd' & Hrest)].
    + left. split; [done|]. intros d0 [->|Hd0]%elem_of_cons; [congruence | by apply Hall].
    + right. exists d'. split; [by apply list_elem_of_further | done].
Qed.

(** X15. [download_video] sends the final video of a directory whose name
    contains the requested id as a substring and which holds a final video.
    It answers with the error body and status 404 exactly when no directory
    with such a name holds one, and raises when the projects directory is
    missing. *)
Theorem download_video_matches_by_substring e w project_id :
  match projects w with
  | None => exists msg, download_video e w project_id = Raise msg
  | Some _ =>
      (download_video e w project_id
       = Ret (Json (VDict [("error", VStr "Video not found")]) 404)
       /\ forall d, file_exists w d "final_video.mp4" = true ->
                    ~ occurs_in project_id d)
      \/ exists d,
           file_exists w d "final_video.mp4" = true /\ occurs_in project_id d
           /\ download_video e w project_id = Ret (Attachment d "final_video.mp4")
  end.
Proof.
  unfold download_video. destruct (projects w) as [tree|] eqn:Htree; [|by eexists].
  destruct (download_video_from_cases w project_id (iterdir tree))
    as [[Hnone Hall]|(d & Hd & Hvideo & Hin & Hrun)].
  - left. split; [by rewrite Hnone|]. intros d Hvideo Hin%str_contains_occurs.
    rewrite Hall in Hin; [done| |done].
    eapply is_dir_in_tree; [done|]. by eapply file_exists_is_dir.
  - right. exists d. split; [done|]. split; [by apply str_contains_occurs|].
    by rewrite Hrun.
Qed.

(** ** A completed job seen through the query surface *)

Lemma string_app_nil_r (s : string) : s ++ EmptyString = s.
Proof.
  induction s as [|c s IH]; [done|].
  change (String c s ++ EmptyString) with (String c (s ++ EmptyString)).
  by rewrite IH.
Qed.

Lemma occurs_in_refl s : occurs_in s s.
Proof. exists EmptyString, EmptyString. by rewrite string_app_nil_r. Qed.

(** X16. A completed job is visible to the readers of the store: asking
    [download_video] for the [project_id] of its record yields a final video,
    from a directory whose name contains that id, and [get_stats] counts at
    least one completed video. *)
Theorem completed_job_is_served e e' job auto_generate use_nova w :
  let r := process_job e job auto_generate use_nova w in
  status (get_status (after r) job) = Some "completed" ->
  exists dir d completed,
    dict_get (get_status (after r) job) "project_id" = Some (VStr dir)
    /\ occurs_in dir d
    /\ download_video e' (after r) dir = Ret (Attachment d "final_video.mp4")
    /\ dict_get (get_stats (after r)) "completed_videos" = Some (VInt completed)
    /\ (1 <= completed)%Z.
Proof.
  intros r Hcompleted.
  destruct (process_job_completed e job auto_generate use_nova w Hcompleted)
    as (dir & Hid & (_ & _ & _ & Hvideo) & _).
  fold r in Hid, Hvideo. set (w' := after r) in *. clearbody w'.
  pose proof (file_exists_is_dir _ _ _ Hvideo) as Hdir.
  destruct (projects w') as [tree|] eqn:Htree.
  2:{ unfold is_dir, lookup_dir in Hdir. rewrite Htree in Hdir.
      apply bool_decide_eq_true in Hdir. by destruct Hdir. }
  pose proof (is_dir_in_tree _ _ _ Htree Hdir) as Hlisted.
  assert (exists d, occurs_in dir d
                    /\ download_video e' w' dir = Ret (Attachment d "final_video.mp4"))
    as (d & Hin & Hsent).
  { unfold download_video. rewrite Htree.
    destruct (download_video_from_cases w' dir (iterdir tree))
      as [[_ Hall]|(d & _ & _ & Hin & Hrun)].
    - specialize (Hall dir Hlisted Hvideo).
      assert (str_contains dir dir = true) as Hself
        by apply str_contains_occurs, occurs_in_refl.
      congruence.
    - exists d. split; [by apply str_contains_occurs | by rewrite Hrun]. }
  exists dir, d. unfold get_stats. rewrite Htree, count_project_fold.
  eexists. split; [done|]. split; [done|]. split; [done|]. split; [reflexivity|].
  assert (dir ∈ filter (fun d => is_dir w' d = true
                                 /\ file_exists w' d "final_video.mp4" = true)
                       (iterdir tree)) as Hcounted.
  { by apply list_elem_of_filter. }
  destruct (filter _ (iterdir tree)) as [|x l]; [by apply elem_of_nil in Hcounted|].
  simpl. lia.
Qed.

Lemma completed_job_is_served_witness :
  exists dir d completed,
    dict_get (get_status (after (process_job media_ok "job_1" true (VBool false)
                                   empty_world)) "job_1") "project_id"
    = Some (VStr dir)
    /\ occurs_in dir d
    /\ download_video media_ok
         (after (process_job media_ok "job_1" true (VBool false) empty_world)) dir
       = Ret (Attachment d "final_video.mp4")
    /\ dict_get (get_stats (after (process_job media_ok "job_1" true (VBool false)
                                     empty_world))) "completed_videos"
       = Some (VInt completed)
    /\ (1 <= completed)%Z.
Proof.
  apply (completed_job_is_served media_ok media_ok "job_1" true (VBool false)
           empty_world).
  vm_compute. reflexivity.
Defined.

(** ** The year of an event *)

Lemma digit_facts c :
  is_digit c = true ->
  is_int_space c = false /\ in_range 45 45 c = false /\ in_range 43 43 c = false
  /\ (0 <= digit_val c <= 9)%Z.
Proof.
  unfold is_digit, is_int_space, in_range, digit_val. set (n := code c).
  intros [H1%N.leb_le H2%N.leb_le]%andb_true_iff.
  repeat split; try lia;
    apply not_true_is_false;
    rewrite ?orb_true_iff, ?andb_true_iff, ?N.leb_le; lia.
Qed.

Lemma year_at_digits prev s y :
  year_at prev s = Some y ->
  exists c1 c2 c3 c4 rest,
    y = String c1 (String c2 (String c3 (String c4 EmptyString)))
    /\ s = y ++ rest
    /\ is_digit c1 = true /\ is_digit c2 = true /\ is_digit c3 = true
    /\ is_digit c4 = true
    /\ (digit_val c1 = 1
        \/ digit_val c1 = 2 /\ digit_val c2 = 0 /\ digit_val c3 <= 2)%Z.
Proof.
  unfold year_at. destruct s as [|c1 [|c2 [|c3 [|c4 rest]]]]; try done.
  match goal with |- (if ?b then _ else _) = _ -> _ => destruct b eqn:Hmatch end;
    [|done].
  intros [= <-]. exists c1, c2, c3, c4, rest. split; [done|]. split; [done|].
  apply andb_true_iff in Hmatch as [[_ Halt]%andb_true_iff _].
  assert (forall lo hi c, in_range lo hi c = true ->
                          (Z.of_N lo - 48 <= digit_val c <= Z.of_N hi - 48)%Z) as Hrange.
  { intros lo hi c [H1%N.leb_le H2%N.leb_le]%andb_true_iff.
    unfold digit_val. lia. }
  assert (forall lo hi c, in_range lo hi c = true -> (48 <= lo)%N -> (hi <= 57)%N ->
                          is_digit c = true) as Hdigit.
  { intros lo hi c [?%N.leb_le ?%N.leb_le]%andb_true_iff ? ?.
    unfold is_digit, in_range. apply andb_true_iff. split; apply N.leb_le; lia. }
  apply orb_true_iff in Halt as [Halt|Halt];
    apply andb_true_iff in Halt as [Halt H4];
    apply andb_true_iff in Halt as [Halt H3];
    apply andb_true_iff in Halt as [H1 H2].
  - pose proof (Hrange _ _ _ H1) as R1. simpl in R1.
    split; [by eapply Hdigit|]. repeat split; try done. left. lia.
  - pose proof (Hrange _ _ _ H1) as R1. pose proof (Hrange _ _ _ H2) as R2.
    pose proof (Hrange _ _ _ H3) as R3. simpl in R1, R2, R3.
    split; [by eapply Hdigit|]. split; [by eapply Hdigit|].
    split; [by eapply Hdigit|]. split; [done|]. right. lia.
Qed.

Lemma year_search_digits s :
  forall prev y,
    year_search prev s = Some y ->
    exists prev' before s', s = before ++ s' /\ year_at prev' s' = Some y.
Proof.
  induction s as [|c s IH]; intros prev y.
  - cbn [year_search]. destruct (year_at prev EmptyString) eqn:Hat; [|done].
    intros [= <-]. by exists prev, EmptyString, EmptyString.
  - cbn [year_search]. destruct (year_at prev (String c s)) eqn:Hat.
    + intros [= <-]. by exists prev, EmptyString, (String c s).
    + intros (prev' & before & s' & -> & Hs')%IH.
      by exists prev', (String c before), s'.
Qed.

Lemma int_of_four_digits c1 c2 c3 c4 :
  is_digit c1 = true -> is_digit c2 = true -> is_digit c3 = true ->
  is_digit c4 = true ->
  int_of_str (String c1 (String c2 (String c3 (String c4 EmptyString))))
  = Some (1000 * digit_val c1 + 100 * digit_val c2 + 10 * digit_val c3
          + digit_val c4)%Z.
Proof.
  intros H1 H2 H3 H4.
  destruct (digit_facts c1 H1) as (Hs1 & Hminus & Hplus & _).
  destruct (digit_facts c2 H2) as (Hs2 & _).
  destruct (digit_facts c3 H3) as (Hs3 & _).
  destruct (digit_facts c4 H4) as (Hs4 & _).
  unfold int_of_str. cbn [list_ascii_of_string skip_int_spaces]. rewrite Hs1.
  cbn [rev app skip_int_spaces]. rewrite Hs4. cbn [rev app List.filter].
  rewrite H1, H2, H3, H4. cbn [length]. rewrite Hminus, Hplus.
  change (4300 <? Z.of_nat 4)%Z with false. cbn iota.
  cbn [digits_value]. rewrite H1, H2, H3, H4. f_equal. lia.
Qed.

(** X17. The year [extract_year] finds in a text is part of the text and is a
    number from 1000 to 2029, written with four digits; otherwise the
    result is [Unknown]. Hence [get_years_ago] of an extracted year is either
    the current year minus that number or, for [Unknown], the word [many]. *)
Theorem extracted_year_is_between_1000_and_2029 e text :
  exists y,
    extract_year (VStr text) = Ret (VStr y)
    /\ ((y = "Unknown" /\ get_years_ago e (VStr y) = VStr "many")
        \/ exists n,
             (1000 <= n <= 2029)%Z
             /\ occurs_in y text
             /\ String.length y = 4
             /\ py_int e (VStr y) = Some n
             /\ get_years_ago e (VStr y) = VInt (clock_year e - n)).
Proof.
  unfold extract_year. eexists. split; [reflexivity|].
  destruct (year_search None text) as [y|] eqn:Hsearch; cbn [default from_option id];
    [|by left].
  right.
  apply year_search_digits in Hsearch as (prev & before & s' & -> & Hat).
  apply year_at_digits in Hat
    as (c1 & c2 & c3 & c4 & rest & -> & -> & H1 & H2 & H3 & H4 & Hrange).
  pose proof (int_of_four_digits c1 c2 c3 c4 H1 H2 H3 H4) as Hint.
  destruct (digit_facts c1 H1) as (_ & _ & _ & ?).
  destruct (digit_facts c2 H2) as (_ & _ & _ & ?).
  destruct (digit_facts c3 H3) as (_ & _ & _ & ?).
  destruct (digit_facts c4 H4) as (_ & _ & _ & ?).
  eexists. split; [|split; [by exists before, rest|]].
  2:{ split; [done|]. split; [exact Hint|].
      unfold get_years_ago, py_int. by rewrite Hint. }
  lia.
Qed.

(** ** Submission *)

(** X18. When [request.get_json()] raises, the handler of [/api/generate]
    raises with it before anything is queued or recorded. When it returns a
    JSON object, or a value that is false in Python's sense (null, false,
    zero, an empty string, list or object), the handler returns and the
    queue is one entry longer. When it returns any other value, a non-empty
    list or string or a number, the handler raises before anything is
    queued or recorded: the state is as before and nothing is emitted. *)
Theorem generate_needs_a_json_object e get_json w :
  let r := generate_route e get_json w in
  match get_json with
  | Raise msg => value r = Raise msg /\ after r = w /\ emitted r = []
  | Ret request_json =>
      ((truthy request_json = false \/ exists d, request_json = VDict d)
       /\ (exists body, value r = Ret body)
       /\ length (job_queue (after r)) = S (length (job_queue w)))
      \/ (truthy request_json = true
          /\ (forall d, request_json <> VDict d)
          /\ (exists msg, value r = Raise msg)
          /\ after r = w
          /\ emitted r = [])
  end.
Proof.
  intros r. subst r. unfold generate_route.
  destruct get_json as [request_json|msg]; [|done].
  step. rewrite app_nil_l_prepend. unfold generate.
  destruct (truthy request_json) eqn:Htruthy.
  - destruct request_json as [| | | | | |d];
      try (right; do 2 (split; [done|]); split; [by eexists | done]).
    left. cbn [py_get]. step. tidy. unfold set_status, queue_put. cbn [after job_queue].
    split; [right; by eexists|]. split; [by eexists|].
    rewrite length_app. simpl. lia.
  - left. cbn [py_get]. step. tidy. unfold set_status, queue_put. cbn [after job_queue].
    split; [by left|]. split; [by eexists|].
    rewrite length_app. simpl. lia.
Qed.

(** ** Listing and counting *)

Lemma list_projects_from_length e w names :
  forall records,
    list_projects_from e w names = Ret records ->
    length records <= length (filter (fun d => is_dir w d = true) names).
Proof.
  induction names as [|d names IH]; intros records; cbn [list_projects_from].
  { by intros [= <-]. }
  rewrite filter_cons. destruct (is_dir w d) eqn:Hdir; cbn [andb].
  - rewrite decide_True by done.
    destruct (file_exists w d "metadata.json").
    + destruct (read_file w d "metadata.json") as [[v|data]|]; try done. simpl.
      repeat match goal with
             | |- context [py_setitem ?v ?k ?x] => destruct (py_setitem v k x); try done; simpl
             end.
      destruct (list_projects_from e w names) as [rest|msg]; [|done].
      simpl. intros [= <-]. specialize (IH rest eq_refl). simpl. lia.
    + intros Hrest%IH. simpl. lia.
  - rewrite decide_False by done. apply IH.
Qed.

(** X19. A listing never holds more records than [get_stats] counts
    projects: [get_stats] counts every directory, [list_projects] reports
    only those with a metadata record. *)
Theorem listing_is_within_the_project_count e w records :
  list_projects e w = Ret records ->
  exists total,
    dict_get (get_stats w) "total_projects" = Some (VInt total)
    /\ (Z.of_nat (length records) <= total)%Z.
Proof.
  unfold list_projects, get_stats. destruct (projects w) as [tree|] eqn:Htree.
  - intros Hlen%list_projects_from_length.
    rewrite merge_sort_Permutation in Hlen.
    rewrite count_project_fold. eexists. split; [reflexivity|]. lia.
  - intros [= <-]. exists 0%Z. by split.
Qed.

Lemma listing_is_within_the_project_count_witness :
  exists records,
    list_projects media_ok two_projects = Ret records
    /\ exists total,
         dict_get (get_stats two_projects) "total_projects" = Some (VInt total)
         /\ (Z.of_nat (length records) <= total)%Z.
Proof.
  eexists. 
  match goal with
  | |- ?lhs = _ /\ _ =>
      let r := eval vm_compute in lhs in
      match r with
      | Ret ?records =>
          assert (lhs = Ret records) as Hrun by (vm_compute; reflexivity);
          split; [exact Hrun
                 | exact (listing_is_within_the_project_count _ _ _ Hrun)]
      end
  end.
Defined.

(** ** From submission to a settled job *)

Lemma pending_jobs_app (q q' : list job_data) :
  Sentinel ∉ q ->
  pending_jobs (q ++ q') = (pending_jobs q ++ pending_jobs q')%list
  /\ length (pending_jobs q) = length q.
Proof.
  induction q as [|item q IH]; intros Hq; [done|].
  destruct IH as [IH1 IH2].
  { intros Hin. apply Hq. by apply list_elem_of_further. }
  destruct item as [|job_id use_nova|job_id].
  - destruct Hq. apply list_elem_of_here.
  - simpl. by rewrite IH1, IH2.
  - simpl. by rewrite IH1, IH2.
Qed.

(** A job that is settled stays settled while the worker runs, and a job
    among those the worker will take gets settled. *)
Lemma job_worker_settles envs job :
  forall w,
    terminal (get_status w job) = true
    \/ job ∈ take (length envs) (pending_jobs (job_queue w)) ->
    terminal (get_status (after (job_worker envs w)) job) = true.
Proof.
  induction envs as [|e envs IH]; intros w Hjob.
  { destruct Hjob as [Hjob|Hjob]; [done | by apply elem_of_nil in Hjob]. }
  cbn [job_worker].
  assert (forall j use_nova js q pr,
            terminal (get_status (World js (JobTuple j use_nova :: q) pr) job) = true
            \/ job ∈ take (S (length envs)) (j :: pending_jobs q) ->
            terminal (get_status
                        (after ((process_job e j true use_nova ;; job_worker envs)
                                  (World js q pr))) job) = true) as Hstep.
  { intros j use_nova js q pr Hcase.
    destruct (process_job_paths e j true use_nova (World js q pr))
      as (p & w1 & Hrun & Hpath & Hstatus & Hqueue & _).
    erewrite run_bind_ret by exact Hrun. rewrite after_prepend.
    apply IH. cbn [job_status job_queue] in Hstatus, Hqueue.
    unfold get_status in *. rewrite Hstatus, Hqueue. cbn [job_status] in Hcase.
    destruct (decide (job = j)) as [->|Hne].
    - left. rewrite lookup_insert_eq. by destruct p.
    - rewrite lookup_insert_ne by done.
      destruct Hcase as [Hcase|Hcase]; [by left|]. right.
      cbn [take] in Hcase. by apply elem_of_cons in Hcase as [?|?]. }
  destruct w as [js [|[|j use_nova|j] q] pr]; cbn [job_queue pending_jobs] in Hjob.
  - destruct Hjob as [Hjob|Hjob]; [done|]. rewrite take_nil in Hjob.
    by apply elem_of_nil in Hjob.
  - erewrite run_bind_ret by reflexivity. rewrite after_prepend.
    destruct Hjob as [Hjob|Hjob]; [done|]. rewrite take_nil in Hjob.
    by apply elem_of_nil in Hjob.
  - erewrite run_bind_ret by reflexivity. rewrite after_prepend. by apply Hstep.
  - erewrite run_bind_ret by reflexivity. rewrite after_prepend. by apply Hstep.
Qed.

(** X20. A submitted job gets settled: when [generate] returns on a queue
    that holds no stop marker and the worker then runs more iterations than
    there were entries ahead of the job, the record of the job id in the
    reply is terminal, completed, error or manual, when the worker stops. *)
Theorem submitted_job_is_settled e request_json envs w body :
  value (generate e request_json w) = Ret body ->
  Sentinel ∉ job_queue w ->
  length (job_queue w) < length envs ->
  exists job_id,
    dict_get body "job_id" = Some (VStr job_id)
    /\ terminal (get_status
                   (after (job_worker envs (after (generate e request_json w))))
                   job_id) = true.
Proof.
  unfold generate.
  destruct (py_get _ "use_nova" _) as [use_nova|msg] eqn:Hflag; next; simpl; [|done].
  intros [= <-] Hqueue Hlength. eexists. split; [reflexivity|].
  apply job_worker_settles. right. cbn [job_queue].
  destruct (pending_jobs_app (job_queue w) [JobTuple
    ("job_" ++ clock_job e ++ "_" ++ pretty (1000 + Z.of_nat (draw_job e) mod 9000)%Z)
    use_nova] Hqueue) as [-> Hsame].
  cbn [pending_jobs].
  rewrite take_ge by (rewrite length_app, Hsame; simpl; lia).
  apply elem_of_app. right. apply list_elem_of_here.
Qed.

Lemma submitted_job_is_settled_witness :
  exists job_id,
    dict_get [("job_id", VStr "job_20261104_115959_1000"); ("status", VStr "queued");
              ("use_nova", VBool false)] "job_id"
    = Some (VStr job_id)
    /\ terminal (get_status
                   (after (job_worker [media_ok]
                             (after (generate media_ok (VDict []) empty_world))))
                   job_id) = true.
Proof.
  apply (submitted_job_is_settled media_ok (VDict []) [media_ok] empty_world).
  - vm_compute. reflexivity.
  - intros Hin. by apply elem_of_nil in Hin.
  - simpl. lia.
Defined.

(** ** From the event source to the script *)

(** X21. Whatever the content source answers, the record
    [get_historical_event] returns can be turned into a script and into an
    image prompt: [generate_script] and [generate_image_prompt] do not raise
    on it. *)
Theorem every_event_gets_a_script e :
  exists script prompt,
    generate_script e (get_historical_event e) = Ret script
    /\ generate_image_prompt e (get_historical_event e) = Ret prompt.
Proof.
  pose proof (get_historical_event_core e) as Hcore.
  destruct (generate_script_core e _ Hcore) as [script Hscript].
  destruct Hcore as (title & extract & year & Htitle & _ & Hyear).
  exists script. eexists. split; [done|].
  unfold generate_image_prompt, dict_item. rewrite Htitle, Hyear. reflexivity.
Qed.
